(** * Historical wallet reserves: a shallow embedding of the three chain readers

    The development follows the three scripts of the repository:
    - [btc.py]: the retrying request wrapper, the explorer and price
      requests behind it, the price lookup, the UTXO replay of an address
      history and the snapshot of an address;
    - [eth_alchemy.py]: the JSON-RPC helper, the block lookup, the ERC-20
      [balanceOf] call encoding, the price lookup with its stablecoin
      fallback and the snapshot of a wallet;
    - [solana_alchemy.py]: the JSON-RPC helper, the backward signature
      search, the balance reads from a transaction, the token accounts by
      mint, the price lookups and the valuation of a wallet.
    The date of a snapshot becomes its cutoff, the last second of the day,
    the same way in the three scripts.

    Network collaborators (HTTP session, JSON-RPC node, price API) appear as
    functions of the request and of the number of the call, so that a reader
    can be run against any response stream. Definitions come first, one
    module per script; the facts about them follow. *)

From Stdlib Require Import ZArith List String Ascii Lia.
From Stdlib Require Import Floats Uint63.
From stdpp Require Import base tactics option list strings gmap fin_maps sorting.

#[local] Set Warnings "-register-all".

Open Scope Z_scope.
Open Scope string_scope.
Open Scope list_scope.

(** ** Python values and control effects *)
Module Py.

(** The exception classes the scripts raise, catch or let through. All of
    them derive from [Exception]. [RuntimeError] carries its message;
    [RuntimeErrorFrom] is a [RuntimeError] raised [from] a cause. *)
Inductive exn : Type :=
| ConnectionError
| Timeout
| ChunkedEncodingError
| HTTPError (status_code : option Z)
| RuntimeError (msg : string)
| RuntimeErrorFrom (msg : string) (cause : exn)
| KeyError
| IndexError
| ValueError
| TypeError
| AttributeError
| OverflowError.

(** A call either returns a value or raises. *)
Inductive res (A : Type) : Type :=
| Ok (a : A)
| Raise (e : exn).
Arguments Ok {A} a.
Arguments Raise {A} e.

#[global] Instance res_ret : MRet res := fun A a => Ok a.

#[global] Instance res_bind : MBind res := fun A B f m =>
  match m with
  | Ok a => f a
  | Raise e => Raise e
  end.

(** [try: body except Exception as e: handler e] *)
Definition try_except {A} (body : res A) (handler : exn -> res A) : res A :=
  match body with
  | Ok a => Ok a
  | Raise e => handler e
  end.

(** *** Strings *)

Definition ascii_lower (c : ascii) : ascii :=
  let n := N_of_ascii c in
  if ((65 <=? n) && (n <=? 90))%N then ascii_of_N (n + 32) else c.

Definition ascii_upper (c : ascii) : ascii :=
  let n := N_of_ascii c in
  if ((97 <=? n) && (n <=? 122))%N then ascii_of_N (n - 32) else c.

(** [s.lower()] and [s.upper()], on ASCII text. *)
Fixpoint lower (s : string) : string :=
  match s with
  | EmptyString => EmptyString
  | String c s' => String (ascii_lower c) (lower s')
  end.

Fixpoint upper (s : string) : string :=
  match s with
  | EmptyString => EmptyString
  | String c s' => String (ascii_upper c) (upper s')
  end.

Fixpoint repeat_char (n : nat) (c : ascii) : string :=
  match n with
  | O => EmptyString
  | S k => String c (repeat_char k c)
  end.

(** [s.rjust(width, fill)]: pads on the left, never truncates. *)
Definition rjust (width : nat) (fill : ascii) (s : string) : string :=
  repeat_char (width - String.length s) fill +:+ s.

(** [s.replace(old, new)] for a non-empty [old]: every occurrence found
    scanning from the left, without overlap. [skip] counts the characters
    of a match still to be dropped. *)
Fixpoint replace_from (old new : string) (skip : nat) (s : string) : string :=
  match s with
  | EmptyString => EmptyString
  | String c s' =>
      match skip with
      | S k => replace_from old new k s'
      | O =>
          if String.prefix old s
          then new +:+ replace_from old new (String.length old - 1) s'
          else String c (replace_from old new O s')
      end
  end.

Definition replace (old new s : string) : string := replace_from old new O s.

(** [s.split(sep)] for a one-character separator. *)
Fixpoint split_on (sep : ascii) (cur : string) (s : string) : list string :=
  match s with
  | EmptyString => [cur]
  | String c s' =>
      if Ascii.eqb c sep then cur :: split_on sep EmptyString s'
      else split_on sep (cur +:+ String c EmptyString) s'
  end.

Definition split (sep : ascii) (s : string) : list string :=
  split_on sep EmptyString s.

Definition hex_digit_val (c : ascii) : option Z :=
  let n := Z.of_N (N_of_ascii c) in
  if bool_decide (48 <= n <= 57) then Some (n - 48)
  else if bool_decide (97 <= n <= 102) then Some (n - 87)
  else if bool_decide (65 <= n <= 70) then Some (n - 55)
  else None.

Definition is_hex_digit (c : ascii) : bool :=
  match hex_digit_val c with Some _ => true | None => false end.

Fixpoint all_hex (s : string) : bool :=
  match s with
  | EmptyString => true
  | String c s' => is_hex_digit c && all_hex s'
  end.

Fixpoint hex_value (s : string) (acc : Z) : option Z :=
  match s with
  | EmptyString => Some acc
  | String c s' =>
      match hex_digit_val c with
      | Some d => hex_value s' (16 * acc + d)
      | None => None
      end
  end.

(** [int(s, 16)] on a string: an optional sign, an optional [0x] prefix and
    at least one hexadecimal digit. (Surrounding blanks and the underscore
    digit separator, which [int] also accepts, never occur in a JSON-RPC
    quantity and are left out: the model raises on them.) *)
Definition int16 (s : string) : res Z :=
  let '(neg, s1) :=
    match s with
    | String "-" r => (true, r)
    | String "+" r => (false, r)
    | _ => (false, s)
    end in
  let s2 :=
    match s1 with
    | String "0" (String "x" r) => r
    | String "0" (String "X" r) => r
    | _ => s1
    end in
  match s2 with
  | EmptyString => Raise ValueError
  | _ =>
      match hex_value s2 0 with
      | Some v => Ok (if neg : bool then - v else v)
      | None => Raise ValueError
      end
  end.

Definition hex_char (d : Z) : ascii :=
  nth (Z.to_nat d) (list_ascii_of_string "0123456789abcdef") "0"%char.

Fixpoint hex_digits (fuel : nat) (n : Z) (acc : string) : string :=
  match fuel with
  | O => acc
  | S k =>
      let acc' := String (hex_char (n mod 16)) acc in
      if (n / 16 =? 0)%Z then acc' else hex_digits k (n / 16) acc'
  end.

(** [hex(n)] *)
Definition hex (n : Z) : string :=
  let digits m := hex_digits (S (Z.to_nat (Z.log2 m))) m EmptyString in
  if (n <? 0)%Z then "-0x" +:+ digits (- n) else "0x" +:+ digits n.

(** Decoding a hexadecimal text into bytes, two digits per byte. *)
Fixpoint unhex (s : string) : option (list Z) :=
  match s with
  | EmptyString => Some []
  | String a (String b s') =>
      match hex_digit_val a, hex_digit_val b, unhex s' with
      | Some x, Some y, Some l => Some ((16 * x + y) :: l)
      | _, _, _ => None
      end
  | String _ EmptyString => None
  end.

(** *** JSON values, as [json.loads] and [Response.json()] build them *)

Inductive Json : Type :=
| JNull
| JBool (b : bool)
| JInt (n : Z)
| JFloat (x : float)
| JStr (s : string)
| JList (items : list Json)
| JObj (fields : list (string * Json)).

(** Python truth value: [None], [False], zero, the empty string, list and
    dict are false. *)
Definition truthy (j : Json) : bool :=
  match j with
  | JNull => false
  | JBool b => b
  | JInt n => negb (n =? 0)%Z
  | JFloat x => negb (PrimFloat.eqb x 0%float)
  | JStr s => negb (String.eqb s EmptyString)
  | JList items => match items with [] => false | _ => true end
  | JObj fields => match fields with [] => false | _ => true end
  end.

(** The fields of a dict, keys being unique. *)
Fixpoint lookup_field (k : string) (fields : list (string * Json)) : option Json :=
  match fields with
  | [] => None
  | (k', v) :: rest => if String.eqb k k' then Some v else lookup_field k rest
  end.

(** [d.get(k, default)]; only a dict has the method. *)
Definition get_default (d : Json) (k : string) (default : Json) : res Json :=
  match d with
  | JObj fields =>
      match lookup_field k fields with
      | Some v => Ok v
      | None => Ok default
      end
  | _ => Raise AttributeError
  end.

(** [d.get(k)] *)
Definition get (d : Json) (k : string) : res Json := get_default d k JNull.

(** [d[k]] for a string key. *)
Definition subscript (d : Json) (k : string) : res Json :=
  match d with
  | JObj fields =>
      match lookup_field k fields with
      | Some v => Ok v
      | None => Raise KeyError
      end
  | _ => Raise TypeError
  end.

(** [x[0]] *)
Definition subscript0 (x : Json) : res Json :=
  match x with
  | JList items => match items with v :: _ => Ok v | [] => Raise IndexError end
  | JObj _ => Raise KeyError
  | JStr s =>
      match s with
      | String c _ => Ok (JStr (String c EmptyString))
      | EmptyString => Raise IndexError
      end
  | _ => Raise TypeError
  end.

Definition is_list (j : Json) : bool :=
  match j with JList _ => true | _ => false end.

Definition is_dict (j : Json) : bool :=
  match j with JObj _ => true | _ => false end.

(** *** Dates *)

(** A [datetime]: microseconds of wall-clock time since [datetime.min], and
    the UTC offset (in microseconds) when the value is timezone-aware. *)
Record datetime : Type := mkDatetime {
  dt_wall : Z;
  dt_utcoffset : option Z
}.

(** [datetime.min.replace(tzinfo=timezone.utc)] *)
Definition datetime_min_utc : datetime := mkDatetime 0 (Some 0).

(** [a > b]: aware values compare as instants, naive ones as wall-clock
    times, and mixing the two raises [TypeError]. *)
Definition dt_gt (a b : datetime) : res bool :=
  match dt_utcoffset a, dt_utcoffset b with
  | Some oa, Some ob => Ok (bool_decide (dt_wall b - ob < dt_wall a - oa))
  | None, None => Ok (bool_decide (dt_wall b < dt_wall a))
  | _, _ => Raise TypeError
  end.

(** *** [max(items, key=f)] and [list.sort(key=f)] *)

Section max_key.
Context {A K : Type}.
Variable key : A -> res K.
Variable gt : K -> K -> res bool.

(** The running maximum is replaced only by a strictly greater key, so the
    first of several maximal items is the one returned. *)
Fixpoint max_from (best : A) (kbest : K) (rest : list A) : res A :=
  match rest with
  | [] => Ok best
  | x :: rest' =>
      kx ← key x;
      b ← gt kx kbest;
      if b : bool then max_from x kx rest' else max_from best kbest rest'
  end.

Definition max_key (items : list A) : res A :=
  match items with
  | [] => Raise ValueError
  | x :: rest => kx ← key x; max_from x kx rest
  end.
End max_key.

(** The instant an aware [datetime] denotes, in microseconds of UTC. *)
Definition instant (d : datetime) : Z := dt_wall d - default 0 (dt_utcoffset d).

Section latest.
Context {A : Type}.
Variable key : A -> res datetime.

(** The key of an item is an aware [datetime]. *)
Definition aware_key (x : A) : Prop :=
  exists d off, key x = Ok d /\ dt_utcoffset d = Some off.

Definition key_instant (x : A) : Z :=
  match key x with
  | Ok d => instant d
  | Raise _ => 0
  end.

(** The first of the items with the greatest instant, [best] included. *)
Fixpoint latest_from (best : A) (rest : list A) : A :=
  match rest with
  | [] => best
  | x :: rest' =>
      if bool_decide (key_instant best < key_instant x)
      then latest_from x rest'
      else latest_from best rest'
  end.
End latest.

Section sort_key.
Context {A : Type}.
Variable key : A -> Z.

Fixpoint insert_key (x : A) (l : list A) : list A :=
  match l with
  | [] => [x]
  | y :: l' =>
      if bool_decide (key x <= key y) then x :: l else y :: insert_key x l'
  end.

(** [l.sort(key=key)]: ascending and stable (items with equal keys keep
    their order). *)
Definition sort_key (l : list A) : list A := foldr insert_key [] l.
End sort_key.

(** *** Conversions the scripts leave to the interpreter *)

(** [float(s)] on a string, [float(n)] on an integer,
    [datetime.fromisoformat(s)] and the true division [n / (10 ** d)] are
    taken as given: nothing below depends on how they round or parse. *)
Record Builtins : Type := mkBuiltins {
  float_of_str : string -> res float;
  float_of_int : Z -> res float;
  fromisoformat : string -> res datetime;
  div_pow10 : Z -> Z -> res float
}.

(** [float(x)] *)
Definition py_float (rt : Builtins) (x : Json) : res float :=
  match x with
  | JFloat f => Ok f
  | JInt n => float_of_int rt n
  | JBool b => Ok (if b then 1%float else 0%float)
  | JStr s => float_of_str rt s
  | _ => Raise TypeError
  end.

(** [int(s)] on a string, [int(x)] on a float and [str(x)], the text of an
    exception built from a decoded value, are taken as given as well. *)
Record Conversions : Type := mkConversions {
  int_of_str : string -> res Z;
  int_of_float : float -> res Z;
  str_of : Json -> string
}.

(** [int(x)] *)
Definition py_int (cv : Conversions) (x : Json) : res Z :=
  match x with
  | JInt n => Ok n
  | JBool b => Ok (if b then 1 else 0)
  | JStr s => int_of_str cv s
  | JFloat f => int_of_float cv f
  | _ => Raise TypeError
  end.

(** [k in s] on two strings: [k] occurs in [s]. *)
Fixpoint occurs (k s : string) : bool :=
  String.prefix k s
  || match s with
     | EmptyString => false
     | String _ s' => occurs k s'
     end.

(** [k in x] for a string [k]: a key of a dict, an item of a list, a part
    of a string; other values are not containers. *)
Definition py_in (k : string) (x : Json) : res bool :=
  match x with
  | JObj fields => Ok (bool_decide (is_Some (lookup_field k fields)))
  | JList items =>
      Ok (existsb (fun i => match i with JStr s => String.eqb s k | _ => false end)
            items)
  | JStr s => Ok (occurs k s)
  | _ => Raise TypeError
  end.

(** *** The last second of a day

    The three scripts turn the date into a cutoff in the same three lines:
    [year, month, day = ondate.split("-")],
    [dt = datetime(int(year), int(month), int(day), 23, 59, 59, tzinfo=timezone.utc)]
    and [ts = int(dt.timestamp())]. The calendar arithmetic is that of the
    [datetime] module. *)

Definition is_leap (year : Z) : bool :=
  (year mod 4 =? 0)%Z && (negb (year mod 100 =? 0)%Z || (year mod 400 =? 0)%Z).

Definition days_in_month (year month : Z) : Z :=
  if (month =? 2)%Z && is_leap year then 29
  else nth (Z.to_nat month) [0; 31; 28; 31; 30; 31; 30; 31; 31; 30; 31; 30; 31] 0.

(** The number of days before January 1st of [year]. *)
Definition days_before_year (year : Z) : Z :=
  let y := year - 1 in
  y * 365 + y / 4 - y / 100 + y / 400.

(** The number of days of [year] before the first of [month]. *)
Definition days_before_month (year month : Z) : Z :=
  nth (Z.to_nat month) [0; 0; 31; 59; 90; 120; 151; 181; 212; 243; 273; 304; 334] 0
  + (if (2 <? month)%Z && is_leap year then 1 else 0).

(** The ordinal of a date, 0001-01-01 being day 1. *)
Definition ymd2ord (year month day : Z) : Z :=
  days_before_year year + days_before_month year month + day.

(** The arguments of [datetime(...)] are C integers. *)
Definition fits_int (n : Z) : bool := bool_decide (- 2 ^ 31 <= n < 2 ^ 31).

(** [int(datetime(year, month, day, 23, 59, 59, tzinfo=timezone.utc).timestamp())]:
    the seconds from 1970-01-01T00:00:00Z to the last second of the day. *)
Definition end_of_day_timestamp (year month day : Z) : res Z :=
  if negb (fits_int year && fits_int month && fits_int day) then Raise OverflowError
  else if bool_decide (1 <= year <= 9999) && bool_decide (1 <= month <= 12)
          && bool_decide (1 <= day <= days_in_month year month)
  then Ok ((ymd2ord year month day - ymd2ord 1970 1 1) * 86400
           + 23 * 3600 + 59 * 60 + 59)
  else Raise ValueError.

Definition cutoff_of_date (cv : Conversions) (ondate : string) : res Z :=
  match split "-" ondate with
  | [year; month; day] =>
      y ← int_of_str cv year;
      m ← int_of_str cv month;
      d ← int_of_str cv day;
      end_of_day_timestamp y m d
  | _ => Raise ValueError
  end.

End Py.
Import Py.


(** ** btc.py *)
Module Btc.

(** *** Retry wrapper *)

Definition MAX_RETRIES : nat := 5.

Record Response (B : Type) : Type := mkResponse {
  status_code : Z;
  body : B
}.
Arguments mkResponse {B} _ _.
Arguments status_code {B} _.
Arguments body {B} _.

(** [resp.raise_for_status()] *)
Definition raise_for_status {B} (resp : Response B) : res unit :=
  if bool_decide (400 <= status_code resp < 600)
  then Raise (HTTPError (Some (status_code resp)))
  else Ok tt.

Definition transient_status : list (option Z) :=
  [Some 429; Some 500; Some 502; Some 503; Some 504].

(** The two [except] clauses of the wrapper: [true] when the exception is
    recorded in [last_exc] and the loop goes on, [false] when it leaves the
    function (re-raised by the second clause, or caught by neither). *)
Definition retried (e : exn) : bool :=
  match e with
  | ConnectionError | Timeout | ChunkedEncodingError => true
  | HTTPError status => bool_decide (status ∈ transient_status)
  | _ => false
  end.

(** What one run of the wrapper did: its outcome, how many times it called
    [SESSION.request], and after which attempts it slept. *)
Record Run (B : Type) : Type := mkRun {
  outcome : res (Response B);
  calls : nat;
  sleeps : list nat
}.
Arguments mkRun {B} _ _ _.
Arguments outcome {B} _.
Arguments calls {B} _.
Arguments sleeps {B} _.

Section request_with_retry.
Context {B : Type}.
(** [SESSION.request(method, url, ...)]: the outcome of the [n]-th call
    (from 0) made for this request. *)
Variable session_request : nat -> res (Response B).

(** The body of the [try]. *)
Definition attempt (n : nat) : res (Response B) :=
  resp ← session_request n;
  _ ← raise_for_status resp;
  mret resp.

Definition exhausted_msg (url : string) : string :=
  "Request failed after 5 retries: " +:+ url.

(** [raise RuntimeError(...) from last_exc] *)
Definition raise_exhausted (url : string) (last_exc : option exn) : exn :=
  match last_exc with
  | Some e => RuntimeErrorFrom (exhausted_msg url) e
  | None => RuntimeError (exhausted_msg url)
  end.

(** [for attempt in range(1, MAX_RETRIES + 1)], with [n] calls made so far. *)
Fixpoint retry_loop (url : string) (attempts : list nat)
    (n : nat) (last_exc : option exn) (slept : list nat) : Run B :=
  match attempts with
  | [] => mkRun (Raise (raise_exhausted url last_exc)) n slept
  | a :: rest =>
      match attempt n with
      | Ok resp => mkRun (Ok resp) (S n) slept
      | Raise e =>
          if retried e then
            let slept' :=
              if bool_decide (a < MAX_RETRIES)%nat then slept ++ [a] else slept in
            retry_loop url rest (S n) (Some e) slept'
          else mkRun (Raise e) (S n) slept
      end
  end.

Definition request_with_retry (url : string) : Run B :=
  retry_loop url (seq 1 MAX_RETRIES) 0%nat None [].

(** Every attempt from the [n]-th up to (not including) the [n + k]-th
    failed on an exception the wrapper retries. *)
Definition retried_run (n k : nat) : Prop :=
  forall j, (j < k)%nat -> exists e, attempt (n + j)%nat = Raise e /\ retried e = true.
End request_with_retry.

(** *** Prices *)

Definition as_list (j : Json) : option (list Json) :=
  match j with JList items => Some items | _ => None end.

Definition _extract_price_points (payload : Json) : res (list Json) :=
  data ← get payload "data";
  nested ← (if is_dict data then get data "prices" else Ok JNull);
  match as_list nested with
  | Some points => Ok points
  | None =>
      match as_list data with
      | Some points => Ok points
      | None =>
          top ← get payload "prices";
          match as_list top with
          | Some points => Ok points
          | None => Ok []
          end
      end
  end.

Section prices.
Variable rt : Builtins.
(** [historical_price_usd(symbol, start_iso, end_iso)]: the decoded reply of
    the price API, or the exception the request ends with. *)
Variable historical_price_usd : string -> string -> string -> res Json.

Definition parse_ts (p : Json) : res datetime :=
  ts ← get p "timestamp";
  if negb (truthy ts) then Ok datetime_min_utc
  else
    match ts with
    | JStr s => fromisoformat rt (replace "Z" "+00:00" s)
    | _ => Raise AttributeError
    end.

Definition no_points_msg (symbol ondate : string) : string :=
  "No price points returned for " +:+ symbol +:+ " on " +:+ ondate.

Definition fx_rate_usd_end_of_day (symbol ondate : string) : res float :=
  let start := ondate +:+ "T00:00:00Z" in
  let end_ := ondate +:+ "T23:59:59Z" in
  payload ← historical_price_usd symbol start end_;
  points ← _extract_price_points payload;
  match points with
  | [] => Raise (RuntimeError (no_points_msg symbol ondate))
  | _ =>
      latest ← max_key parse_ts dt_gt points;
      v ← subscript latest "value";
      py_float rt v
  end.
End prices.

(** *** Esplora transactions *)

(** The fields of a transaction the reader looks at. A field read with
    [.get] is optional; [vin] and [vout] default to the empty list. *)
Record TxStatus : Type := mkTxStatus {
  confirmed : bool;
  block_time : option Z
}.

Record PrevOut : Type := mkPrevOut {
  prevout_address : option string
}.

Record TxIn : Type := mkTxIn {
  vin_txid : option string;
  vin_vout : option Z;
  prevout : option PrevOut
}.

Record TxOut : Type := mkTxOut {
  scriptpubkey_address : option string;
  value : option Z
}.

Record Tx : Type := mkTx {
  txid : string;
  status : option TxStatus;
  vin : list TxIn;
  vout : list TxOut
}.

Definition tx_block_time (tx : Tx) : option Z :=
  match status tx with
  | Some st => if confirmed st then block_time st else None
  | None => None
  end.

(** *** Paging through the address history *)

Section history.
(** [esplora_get_json(path)]: the decoded reply to the [n]-th page request
    (from 0), or the exception it ends with once the retries are spent. *)
Variable esplora_get_json : nat -> string -> res (list Tx).

Definition get_address_txs (n : nat) (address : string)
    (last_seen_txid : option string) : res (list Tx) :=
  match last_seen_txid with
  | Some l =>
      if negb (String.eqb l EmptyString)
      then esplora_get_json n ("/address/" +:+ address +:+ "/txs/chain/" +:+ l)
      else esplora_get_json n ("/address/" +:+ address +:+ "/txs")
  | None => esplora_get_json n ("/address/" +:+ address +:+ "/txs")
  end.

(** What the paging loop did: the history it gathered (or the exception
    that ended it) and the number of pages it requested. *)
Record Fetched : Type := mkFetched {
  history : res (list Tx);
  fetches : nat
}.

(** [for _ in range(max_pages)], with [iters] iterations left and [n] pages
    requested so far. *)
Fixpoint fetch_loop (iters : nat) (n : nat) (address : string)
    (last_seen : option string) (all_txs : list Tx) : Fetched :=
  match iters with
  | O => mkFetched (Ok all_txs) n
  | S k =>
      match get_address_txs n address last_seen with
      | Raise e => mkFetched (Raise e) (S n)
      | Ok page =>
          match last page with
          | None => mkFetched (Ok all_txs) (S n)
          | Some t => fetch_loop k (S n) address (Some (txid t)) (all_txs ++ page)
          end
      end
  end.

Definition fetch_history (address : string) (max_pages : Z) : Fetched :=
  fetch_loop (Z.to_nat max_pages) 0%nat address None [].
End history.

(** *** Balance reconstruction *)

Definition eligible_txs (ts_cutoff : Z) (all_txs : list Tx) : list Tx :=
  foldl (fun eligible tx =>
           match tx_block_time tx with
           | Some bt => if bool_decide (bt <= ts_cutoff) then eligible ++ [tx] else eligible
           | None => eligible
           end) [] all_txs.

(** The sort key [tx_block_time(t) or 0]. *)
Definition sort_time (tx : Tx) : Z :=
  match tx_block_time tx with
  | Some bt => bt
  | None => 0
  end.

(** One turn of the spend loop. *)
Definition spend (address : string) (utxos : gmap (string * Z) Z) (i : TxIn)
    : gmap (string * Z) Z :=
  match prevout i with
  | None => utxos
  | Some prev =>
      if bool_decide (prevout_address prev = Some address) then
        match vin_txid i, vin_vout i with
        | Some prev_txid, Some prev_vout => delete (prev_txid, prev_vout) utxos
        | _, _ => utxos
        end
      else utxos
  end.

(** [enumerate(l)] *)
Definition enumerate {A} (l : list A) : list (Z * A) :=
  imap (fun i x => (Z.of_nat i, x)) l.

(** One turn of the receive loop. *)
Definition receive (address : string) (this_txid : string)
    (utxos : gmap (string * Z) Z) (o : Z * TxOut) : gmap (string * Z) Z :=
  if bool_decide (scriptpubkey_address (snd o) = Some address)
  then <[(this_txid, fst o) := default 0 (value (snd o))]> utxos
  else utxos.

(** The body of [for tx in eligible]. *)
Definition apply_tx (address : string) (utxos : gmap (string * Z) Z) (tx : Tx)
    : gmap (string * Z) Z :=
  let spent := foldl (spend address) utxos (vin tx) in
  foldl (receive address (txid tx)) spent (enumerate (vout tx)).

Definition replay (address : string) (eligible : list Tx) : gmap (string * Z) Z :=
  foldl (apply_tx address) ∅ eligible.

(** [sum(utxos.values())] *)
Definition sum_values (utxos : gmap (string * Z) Z) : Z :=
  map_fold (fun _ v acc => acc + v) 0 utxos.

(** The function from the end of its paging loop on. *)
Definition balance_of_history (address : string) (ts_cutoff : Z)
    (all_txs : list Tx) : Z :=
  let eligible := sort_key sort_time (eligible_txs ts_cutoff all_txs) in
  sum_values (replay address eligible).

Definition btc_balance_at_timestamp (esplora_get_json : nat -> string -> res (list Tx))
    (address : string) (ts_cutoff : Z) (max_pages : Z) : res Z :=
  all_txs ← history (fetch_history esplora_get_json address max_pages);
  mret (balance_of_history address ts_cutoff all_txs).

(** *** The reconstruction as the specification words it

    Retain the transactions confirmed at or before the cutoff, arrange them
    by ascending confirmation time, and for each transaction first remove
    the outputs its inputs spend from the tracked address, then add the
    outputs it pays to the tracked address; the balance is the sum of what
    remains. *)

Definition retained (cutoff : Z) (tx : Tx) : bool :=
  match tx_block_time tx with
  | Some t => bool_decide (t <= cutoff)
  | None => false
  end.

(** The output an input spends, when its previous output belongs to the
    tracked address. *)
Definition spent_key (address : string) (i : TxIn) : option (string * Z) :=
  prev ← prevout i;
  if bool_decide (prevout_address prev = Some address)
  then t ← vin_txid i; v ← vin_vout i; Some (t, v)
  else None.

(** The outputs a transaction spends from the tracked address. *)
Definition spent_keys (address : string) (tx : Tx) : list (string * Z) :=
  omap (spent_key address) (vin tx).

(** The UTXO an output creates, when it pays the tracked address. *)
Definition paid_output (address this_txid : string) (o : Z * TxOut)
    : option ((string * Z) * Z) :=
  if bool_decide (scriptpubkey_address (snd o) = Some address)
  then Some ((this_txid, fst o), default 0 (value (snd o)))
  else None.

(** The outputs a transaction pays to the tracked address, with their keys. *)
Definition paid_outputs (address : string) (tx : Tx) : list ((string * Z) * Z) :=
  omap (paid_output address (txid tx)) (enumerate (vout tx)).

Definition reference_step (address : string) (utxos : gmap (string * Z) Z)
    (tx : Tx) : gmap (string * Z) Z :=
  list_to_map (paid_outputs address tx)
  ∪ filter (fun kv => kv.1 ∉ spent_keys address tx) utxos.

Definition reference_replay (address : string) (txs : list Tx)
    : gmap (string * Z) Z :=
  foldl (reference_step address) ∅ txs.


Definition reference_balance (address : string) (cutoff : Z)
    (history : list Tx) : Z :=
  let kept := List.filter (retained cutoff) history in
  sum_values (reference_replay address (sort_key sort_time kept)).

(** *** The replay with a record of what it spent

    The same loops, which also note every key that a spend names: each key
    handed to [pop], whether [pop] finds it in the live set or not. *)
Record Traced : Type := mkTraced {
  live : gmap (string * Z) Z;
  spent_log : list (string * Z)
}.

Definition spend_traced (address : string) (st : Traced) (i : TxIn) : Traced :=
  match prevout i with
  | None => st
  | Some prev =>
      if bool_decide (prevout_address prev = Some address) then
        match vin_txid i, vin_vout i with
        | Some prev_txid, Some prev_vout =>
            mkTraced (delete (prev_txid, prev_vout) (live st))
                     (spent_log st ++ [(prev_txid, prev_vout)])
        | _, _ => st
        end
      else st
  end.

Definition receive_traced (address : string) (this_txid : string)
    (st : Traced) (o : Z * TxOut) : Traced :=
  mkTraced (receive address this_txid (live st) o) (spent_log st).

Definition apply_tx_traced (address : string) (st : Traced) (tx : Tx) : Traced :=
  let spent := foldl (spend_traced address) st (vin tx) in
  foldl (receive_traced address (txid tx)) spent (enumerate (vout tx)).

Definition replay_traced (address : string) (eligible : list Tx) : Traced :=
  foldl (apply_tx_traced address) (mkTraced ∅ []) eligible.

(** No output is both spent and unspent: no key that a spend named is
    live. *)
Definition no_double_spend (st : Traced) : Prop :=
  forall k, k ∈ spent_log st -> live st !! k = None.

Definition nonneg_outputs (tx : Tx) : Prop :=
  Forall (fun o => 0 <= default 0 (value o)) (vout tx).

(** Every spend comes after the output it names: no transaction of the
    sequence has the id that one of its own inputs, or an input of a
    transaction before it, names. *)
Fixpoint spends_follow (address : string) (txs : list Tx) : bool :=
  match txs with
  | [] => true
  | tx :: rest =>
      bool_decide (Forall (fun k => k.1 ∉ txid <$> tx :: rest) (spent_keys address tx))
      && spends_follow address rest
  end.

(** What holds of the traced replay with the transactions [todo] still to
    come: no key in the record is live, and none names a transaction of
    [todo]. *)
Definition traced_inv (todo : list Tx) (st : Traced) : Prop :=
  forall k, k ∈ spent_log st -> live st !! k = None /\ k.1 ∉ txid <$> todo.

Definition nonneg_values (utxos : gmap (string * Z) Z) : Prop :=
  map_Forall (fun _ v => 0 <= v) utxos.

(** *** The replay with its books

    The same loops, which also add up the values they assign to keys
    ([received]), the values of the entries their [pop] removes ([spent])
    and the values an assignment to a key already present replaces
    ([replaced]). *)
Record Booked : Type := mkBooked {
  unspent : gmap (string * Z) Z;
  received : Z;
  spent : Z;
  replaced : Z
}.

Definition spend_booked (address : string) (st : Booked) (i : TxIn) : Booked :=
  match prevout i with
  | None => st
  | Some prev =>
      if bool_decide (prevout_address prev = Some address) then
        match vin_txid i, vin_vout i with
        | Some prev_txid, Some prev_vout =>
            mkBooked (delete (prev_txid, prev_vout) (unspent st)) (received st)
              (spent st + default 0 (unspent st !! (prev_txid, prev_vout)))
              (replaced st)
        | _, _ => st
        end
      else st
  end.

Definition receive_booked (address : string) (this_txid : string)
    (st : Booked) (o : Z * TxOut) : Booked :=
  if bool_decide (scriptpubkey_address (snd o) = Some address)
  then mkBooked (<[(this_txid, fst o) := default 0 (value (snd o))]> (unspent st))
         (received st + default 0 (value (snd o))) (spent st)
         (replaced st + default 0 (unspent st !! (this_txid, fst o)))
  else st.

Definition apply_tx_booked (address : string) (st : Booked) (tx : Tx) : Booked :=
  let after_spend := foldl (spend_booked address) st (vin tx) in
  foldl (receive_booked address (txid tx)) after_spend (enumerate (vout tx)).

Definition replay_booked (address : string) (eligible : list Tx) : Booked :=
  foldl (apply_tx_booked address) (mkBooked ∅ 0 0 0) eligible.

(** The total value of the outputs that pay the tracked address. *)
Definition paid_total (address : string) (txs : list Tx) : Z :=
  foldr (fun tx acc => foldr Z.add 0 ((paid_outputs address tx).*2) + acc) 0 txs.

(** *** The snapshot of an address *)

(** The row [btc_snapshot_with_usd] returns: one value per column. *)
Record Row : Type := mkRow {
  wallet : string;
  date : string;
  btc : float;
  btc_usd_rate : float;
  btc_usd_value : float
}.

Section snapshot.
Variable rt : Builtins.
Variable cv : Conversions.
Variable esplora_get_json : nat -> string -> res (list Tx).
Variable historical_price_usd : string -> string -> string -> res Json.

(** [sats / 100_000_000] is the true division by [10 ** 8]. *)
Definition btc_snapshot_with_usd (address ondate : string) : res Row :=
  ts ← cutoff_of_date cv ondate;
  sats ← btc_balance_at_timestamp esplora_get_json address ts 200;
  btc_amt ← div_pow10 rt sats 8;
  btc_usd_rate ← fx_rate_usd_end_of_day rt historical_price_usd "BTC" ondate;
  let btc_usd_value := (btc_amt * btc_usd_rate)%float in
  mret (mkRow address ondate btc_amt btc_usd_rate btc_usd_value).
End snapshot.

(** *** The requests behind the helpers *)

Definition ESPLORA_API : string := "https://blockstream.info/api".

Section http.
Variable ALCHEMY_KEY : string.
(** [SESSION.request("GET", url, ...)]: the outcome of the [k]-th call
    (from 0) made for the [n]-th page request; the body of a reply is what
    [r.json()] makes of it, the decoded transactions or the exception of
    the decoder. *)
Variable session_get : nat -> string -> nat -> res (Response (res (list Tx))).
(** [SESSION.request("POST", url, json=payload, ...)]: the outcome of the
    [k]-th call made for this request. *)
Variable session_post : string -> Json -> nat -> res (Response (res Json)).

Definition esplora_request (n : nat) (path : string) : Run (res (list Tx)) :=
  request_with_retry (session_get n (ESPLORA_API +:+ path)) (ESPLORA_API +:+ path).

Definition esplora_get_json (n : nat) (path : string) : res (list Tx) :=
  r ← outcome (esplora_request n path);
  body r.

Definition prices_url : string :=
  "https://api.g.alchemy.com/prices/v1/" +:+ ALCHEMY_KEY +:+ "/tokens/historical".

Definition price_request (symbol start_iso end_iso : string) : Json :=
  JObj [("symbol", JStr symbol); ("startTime", JStr start_iso);
        ("endTime", JStr end_iso)].

Definition historical_price_usd (symbol start_iso end_iso : string) : res Json :=
  let payload := price_request symbol start_iso end_iso in
  r ← outcome (request_with_retry (session_post prices_url payload) prices_url);
  body r.
End http.

(** *** An explorer that serves a fixed history

    The transactions of an address, newest first, [size] of them a page:
    the first page on [/address/<address>/txs], and on
    [/address/<address>/txs/chain/<txid>] the page that follows the
    transaction [txid]. *)

Fixpoint after_txid (t : string) (hist : list Tx) : list Tx :=
  match hist with
  | [] => []
  | tx :: rest => if String.eqb (txid tx) t then rest else after_txid t rest
  end.

Definition chain_path (address t : string) : string :=
  "/address/" +:+ address +:+ "/txs/chain/" +:+ t.

Definition serve_txs (hist : list Tx) (size : nat) (address : string)
    (n : nat) (path : string) : res (list Tx) :=
  if String.eqb path ("/address/" +:+ address +:+ "/txs") then Ok (take size hist)
  else
    match List.find (fun tx => String.eqb path (chain_path address (txid tx))) hist with
    | Some tx => Ok (take size (after_txid (txid tx) hist))
    | None => Raise (HTTPError (Some 404))
    end.

End Btc.

(** ** eth_alchemy.py *)
Module Eth.

Definition STABLE_FALLBACK : gmap string float :=
  <["USDC" := 1%float]> (<["USDT" := 1%float]> ∅).

(** *** Balances at a block *)

(** The [data] field of the [balanceOf(holder)] call. *)
Definition balance_of_data (holder : string) : string :=
  let holder_clean := rjust 64 "0" (replace "0x" "" (lower holder)) in
  "0x70a08231" +:+ holder_clean.

Section rpc.
(** [rpc(method, params)]: the [result] member of the node's reply, or the
    exception the call ends with (transport, HTTP status, [error] member). *)
Variable rpc : string -> Json -> res Json.

Definition eth_balance_at_block (address : string) (block_number : Z) : res Z :=
  bal_hex ← rpc "eth_getBalance" (JList [JStr address; JStr (hex block_number)]);
  match bal_hex with
  | JStr s => int16 s
  | _ => Raise TypeError
  end.

Definition erc20_balance_at_block (holder token_contract : string)
    (block_number : Z) : res Z :=
  let data := balance_of_data holder in
  let call_obj := JObj [("to", JStr token_contract); ("data", JStr data)] in
  out ← rpc "eth_call" (JList [call_obj; JStr (hex block_number)]);
  match out with
  | JStr s => int16 s
  | _ => Raise TypeError
  end.
End rpc.

(** *** Prices *)

Definition as_list (j : Json) : option (list Json) :=
  match j with JList items => Some items | _ => None end.

Definition _extract_price_points (payload : Json) : res (list Json) :=
  data ← get payload "data";
  nested ← (if is_dict data then get data "prices" else Ok JNull);
  match as_list nested with
  | Some points => Ok points
  | None =>
      match as_list data with
      | Some points => Ok points
      | None =>
          top ← get payload "prices";
          match as_list top with
          | Some points => Ok points
          | None => Ok []
          end
      end
  end.

Section prices.
Variable rt : Builtins.
(** [historical_price_usd(symbol, start_iso, end_iso)]: the decoded reply of
    the price API, or the exception the request ends with. *)
Variable historical_price_usd : string -> string -> string -> res Json.

Definition parse_ts (p : Json) : res datetime :=
  ts ← get p "timestamp";
  if negb (truthy ts) then Ok datetime_min_utc
  else
    match ts with
    | JStr s => fromisoformat rt (replace "Z" "+00:00" s)
    | _ => Raise AttributeError
    end.

Definition no_points_msg (symbol ondate : string) : string :=
  "No price points returned for " +:+ symbol +:+ " on " +:+ ondate.

(** The body of the [try]. *)
Definition fx_rate_body (symbol ondate : string) : res float :=
  let start := ondate +:+ "T00:00:00Z" in
  let end_ := ondate +:+ "T23:59:59Z" in
  payload ← historical_price_usd symbol start end_;
  points ← _extract_price_points payload;
  match points with
  | [] =>
      match STABLE_FALLBACK !! symbol with
      | Some rate => Ok rate
      | None => Raise (RuntimeError (no_points_msg symbol ondate))
      end
  | _ =>
      latest ← max_key parse_ts dt_gt points;
      v ← subscript latest "value";
      py_float rt v
  end.

Definition fx_rate_usd_end_of_day (symbol ondate : string) : res float :=
  try_except (fx_rate_body symbol ondate)
    (fun e =>
       match STABLE_FALLBACK !! symbol with
       | Some rate => Ok rate
       | None => Raise e
       end).
End prices.

(** *** The requests behind the helpers, and the snapshot of a wallet *)

Record Token : Type := mkToken {
  address : string;
  decimals : Z
}.

Definition TOKENS : gmap string Token :=
  <["USDC" := mkToken "0xA0b86991c6218b36c1d19d4a2e9eb0ce3606eb48" 6]>
    (<["USDT" := mkToken "0xdAC17F958D2ee523a2206206994597C13D831ec7" 6]>
       (<["WETH" := mkToken "0xC02aaA39b223FE8D0A0e5C4F27eAD9083C756Cc2" 18]> ∅)).

(** [TOKENS[k]] *)
Definition token (k : string) : res Token :=
  match TOKENS !! k with
  | Some t => Ok t
  | None => Raise KeyError
  end.

(** The row [eth_snapshot_with_usd] returns: one value per column. *)
Record Row : Type := mkRow {
  wallet : string;
  date : string;
  block_closest_before : Z;
  eth : float;
  usdc : float;
  usdt : float;
  weth : float;
  eth_usd_rate : float;
  usdc_usd_rate : float;
  usdt_usd_rate : float;
  weth_usd_rate : float;
  eth_usd_value : float;
  usdc_usd_value : float;
  usdt_usd_value : float;
  weth_usd_value : float;
  total_usd_value : float
}.

(** [x == s] for a decoded value and a string. *)
Definition eq_str (x : Json) (s : string) : bool :=
  match x with
  | JStr t => String.eqb t s
  | _ => false
  end.

Section requests.
Variable rt : Builtins.
Variable cv : Conversions.
Variable ALCHEMY_KEY : string.
(** [os.environ.get("ETHERSCAN_KEY")] *)
Variable ETHERSCAN_KEY : option string.
(** [requests.post(url, json=payload, timeout=30)] and
    [requests.get(url, params=params, timeout=30)]: the reply, whose body is
    what [r.json()] makes of it, or the exception the request ends with. *)
Variable requests_post : string -> Json -> res (Btc.Response (res Json)).
Variable requests_get : string -> Json -> res (Btc.Response (res Json)).

Definition ALCHEMY_RPC : string :=
  "https://eth-mainnet.g.alchemy.com/v2/" +:+ ALCHEMY_KEY.

Definition rpc_payload (method : string) (params : Json) : Json :=
  JObj [("jsonrpc", JStr "2.0"); ("id", JInt 1); ("method", JStr method);
        ("params", params)].

Definition rpc (method : string) (params : Json) : res Json :=
  r ← requests_post ALCHEMY_RPC (rpc_payload method params);
  _ ← Btc.raise_for_status r;
  j ← Btc.body r;
  has_error ← py_in "error" j;
  if has_error : bool then
    err ← subscript j "error";
    Raise (RuntimeError (str_of cv err))
  else subscript j "result".

Definition etherscan_params (apikey : string) (ts_unix : Z) : Json :=
  JObj [("chainid", JInt 1); ("module", JStr "block");
        ("action", JStr "getblocknobytime"); ("timestamp", JInt ts_unix);
        ("closest", JStr "before"); ("apikey", JStr apikey)].

Definition get_block_by_time_etherscan (ts_unix : Z) : res Z :=
  let apikey := default EmptyString ETHERSCAN_KEY in
  if String.eqb apikey EmptyString then Raise (RuntimeError "Set ETHERSCAN_KEY.")
  else
    r ← requests_get "https://api.etherscan.io/v2/api" (etherscan_params apikey ts_unix);
    _ ← Btc.raise_for_status r;
    j ← Btc.body r;
    status ← get j "status";
    if negb (eq_str status "1") then Raise (RuntimeError (str_of cv j))
    else
      result ← subscript j "result";
      py_int cv result.

Definition prices_url : string :=
  "https://api.g.alchemy.com/prices/v1/" +:+ ALCHEMY_KEY +:+ "/tokens/historical".

Definition price_request (symbol start_iso end_iso : string) : Json :=
  JObj [("symbol", JStr symbol); ("startTime", JStr start_iso);
        ("endTime", JStr end_iso)].

Definition historical_price_usd (symbol start_iso end_iso : string) : res Json :=
  let payload := price_request symbol start_iso end_iso in
  r ← requests_post prices_url payload;
  _ ← Btc.raise_for_status r;
  Btc.body r.

Definition eth_snapshot_with_usd (wallet ondate : string) : res Row :=
  ts ← cutoff_of_date cv ondate;
  block ← get_block_by_time_etherscan ts;
  wei ← eth_balance_at_block rpc wallet block;
  eth_amt ← div_pow10 rt wei 18;
  USDC ← token "USDC";
  usdc_raw ← erc20_balance_at_block rpc wallet (address USDC) block;
  USDT ← token "USDT";
  usdt_raw ← erc20_balance_at_block rpc wallet (address USDT) block;
  WETH ← token "WETH";
  weth_raw ← erc20_balance_at_block rpc wallet (address WETH) block;
  usdc_amt ← div_pow10 rt usdc_raw (decimals USDC);
  usdt_amt ← div_pow10 rt usdt_raw (decimals USDT);
  weth_amt ← div_pow10 rt weth_raw (decimals WETH);
  eth_usd_rate ← fx_rate_usd_end_of_day rt historical_price_usd "ETH" ondate;
  usdc_usd_rate ← fx_rate_usd_end_of_day rt historical_price_usd "USDC" ondate;
  usdt_usd_rate ← fx_rate_usd_end_of_day rt historical_price_usd "USDT" ondate;
  let weth_usd_rate := eth_usd_rate in
  let eth_usd_value := (eth_amt * eth_usd_rate)%float in
  let usdc_usd_value := (usdc_amt * usdc_usd_rate)%float in
  let usdt_usd_value := (usdt_amt * usdt_usd_rate)%float in
  let weth_usd_value := (weth_amt * weth_usd_rate)%float in
  let total_usd_value :=
    (eth_usd_value + usdc_usd_value + usdt_usd_value + weth_usd_value)%float in
  mret (mkRow wallet ondate block eth_amt usdc_amt usdt_amt weth_amt
          eth_usd_rate usdc_usd_rate usdt_usd_rate weth_usd_rate
          eth_usd_value usdc_usd_value usdt_usd_value weth_usd_value
          total_usd_value).
End requests.

End Eth.

(** ** solana_alchemy.py *)
Module Solana.

Definition STABLES : list string := ["USDC"; "USDT"; "USX"].

Definition COINGECKO_IDS : gmap string string :=
  <["JITOSOL" := "jito-staked-sol"]> ∅.

(** A function with a [while True] loop is run with a bound on the number
    of turns of the loop: it either finishes (returning or raising) or is
    still in the loop when the bound is reached. *)
Inductive run (A : Type) : Type :=
| Finished (r : res A)
| StillLooping.
Arguments Finished {A} r.
Arguments StillLooping {A}.

#[global] Instance run_ret : MRet run := fun A a => Finished (Ok a).

#[global] Instance run_bind : MBind run := fun A B f m =>
  match m with
  | Finished (Ok a) => f a
  | Finished (Raise e) => Finished (Raise e)
  | StillLooping => StillLooping
  end.

(** *** Replies of the node *)

Record SigInfo : Type := mkSigInfo {
  signature : string;
  blockTime : option Z
}.

(** An account key is a plain string or a dict with a [pubkey] member. *)
Inductive AccountKey : Type :=
| KeyDict (pubkey : string)
| KeyStr (s : string).

#[global] Instance AccountKey_eq_dec : EqDecision AccountKey.
Proof. solve_decision. Defined.

(** A member of a reply object where the reader tells the three apart: left
    out, sent as [null], or sent with a value. A member the reader only
    fetches with [.get(name)] is an [option]: [None] is what [.get] gives
    for a member left out and for one sent as [null]. *)
Inductive Member (A : Type) : Type :=
| Absent
| Null
| Holds (a : A).
Arguments Absent {A}.
Arguments Null {A}.
Arguments Holds {A} a.

Record UiTokenAmount : Type := mkUiTokenAmount {
  amount : option Z;
  decimals : option Z
}.

Record TokenBalance : Type := mkTokenBalance {
  tb_mint : option string;
  accountIndex : option Z;
  uiTokenAmount : Member UiTokenAmount
}.

Record Meta : Type := mkMeta {
  postBalances : list Z;
  postTokenBalances : option (list TokenBalance);
  preTokenBalances : option (list TokenBalance)
}.

Record Transaction : Type := mkTransaction {
  accountKeys : list AccountKey
}.

(** The [result] of [getTransaction] when it is not [null]. The node sends
    [meta] as [null] when it has no status metadata for the transaction. *)
Record TxReply : Type := mkTxReply {
  transaction : Member Transaction;
  meta : Member Meta
}.

Definition pubkey_of (k : AccountKey) : string :=
  match k with
  | KeyDict p => p
  | KeyStr s => s
  end.

(** [l.index(x)] *)
Fixpoint index_of (x : string) (l : list string) : option nat :=
  match l with
  | [] => None
  | y :: l' => if String.eqb y x then Some O else S <$> index_of x l'
  end.

Section node.
Variable rt : Builtins.
(** [rpc("getSignaturesForAddress", [address, cfg])]: the reply to the
    [n]-th request (from 0) of one search, given the address, the [limit]
    and the [before] member of [cfg] when it has one. *)
Variable getSignaturesForAddress :
  string -> nat -> Z -> option string -> res (list SigInfo).
(** [rpc("getTransaction", [signature, ...])]; [None] is a [null] result. *)
Variable getTransaction : string -> res (option TxReply).

(** [for s in sigs] *)
Fixpoint scan_page (ts_unix : Z) (sigs : list SigInfo) : option string :=
  match sigs with
  | [] => None
  | s :: rest =>
      match blockTime s with
      | None => scan_page ts_unix rest
      | Some bt =>
          if bool_decide (bt <= ts_unix) then Some (signature s)
          else scan_page ts_unix rest
      end
  end.

(** The [before] member of [cfg]: present when [before] is a non-empty
    string. *)
Definition cfg_before (before : option string) : option string :=
  match before with
  | Some b => if negb (String.eqb b EmptyString) then Some b else None
  | None => None
  end.

(** [while True], with [fuel] turns allowed and [n] requests made so far. *)
Fixpoint search_loop (fuel : nat) (n : nat) (address : string) (ts_unix : Z)
    (page_limit : Z) (before : option string) : run (option string) :=
  match fuel with
  | O => StillLooping
  | S k =>
      match getSignaturesForAddress address n page_limit (cfg_before before) with
      | Raise e => Finished (Raise e)
      | Ok sigs =>
          match sigs with
          | [] => Finished (Ok None)
          | first :: _ =>
              match scan_page ts_unix sigs with
              | Some sig => Finished (Ok (Some sig))
              | None =>
                  search_loop k (S n) address ts_unix page_limit
                    (Some (signature (List.last sigs first)))
              end
          end
      end
  end.

Definition find_last_signature_before_ts (fuel : nat) (address : string)
    (ts_unix : Z) (page_limit : Z) : run (option string) :=
  search_loop fuel 0%nat address ts_unix page_limit None.

(** *** The pages a search receives *)

(** The [before] the search holds when it makes its [n]-th request, should
    it get that far: the last signature of the page before. *)
Fixpoint before_at (address : string) (page_limit : Z) (n : nat) : option string :=
  match n with
  | O => None
  | S k =>
      match getSignaturesForAddress address k page_limit
              (cfg_before (before_at address page_limit k)) with
      | Ok (first :: rest) => Some (signature (List.last (first :: rest) first))
      | _ => before_at address page_limit k
      end
  end.

(** The reply to the [n]-th request of the search. *)
Definition page_at (address : string) (page_limit : Z) (n : nat)
    : res (list SigInfo) :=
  getSignaturesForAddress address n page_limit
    (cfg_before (before_at address page_limit n)).

(** The search takes a further turn after its [n]-th page: the page is not
    empty and has no signature confirmed at or before the cutoff. *)
Definition goes_on (address : string) (ts_unix : Z) (page_limit : Z) (n : nat)
    : Prop :=
  exists sigs, page_at address page_limit n = Ok sigs
               /\ sigs <> [] /\ scan_page ts_unix sigs = None.

(** The signatures received up to and including the [n]-th page, in the
    order received (newest first). *)
Fixpoint received (address : string) (page_limit : Z) (n : nat) : list SigInfo :=
  let page :=
    match page_at address page_limit n with
    | Ok sigs => sigs
    | Raise _ => []
    end in
  match n with
  | O => page
  | S k => received address page_limit k ++ page
  end.

(** A signature with a confirmation time at or before the cutoff. *)
Definition confirmed_by (ts_unix : Z) (s : SigInfo) : bool :=
  match blockTime s with
  | Some bt => bool_decide (bt <= ts_unix)
  | None => false
  end.

(** The search finishes, given enough turns. *)
Definition terminates (address : string) (ts_unix : Z) (page_limit : Z) : Prop :=
  exists fuel r,
    find_last_signature_before_ts fuel address ts_unix page_limit = Finished r.

(** The search is still in its loop after any number of turns. *)
Definition never_returns (address : string) (ts_unix : Z) (page_limit : Z) : Prop :=
  forall fuel,
    find_last_signature_before_ts fuel address ts_unix page_limit = StillLooping.

Definition could_not_fetch_msg (signature : string) : string :=
  "Could not fetch transaction details for " +:+ signature.

Definition wallet_not_found_msg : string :=
  "Wallet not found in transaction accountKeys; cannot read SOL snapshot from this tx.".

(** The test [not tx or "transaction" not in tx or "meta" not in tx] lets a
    member through that is there and [null]: subscripting it then raises
    [TypeError]. The account keys are read, and the wallet looked up in
    them, before [meta] is subscripted. *)
Definition sol_balance_from_transaction (wallet signature : string) : res Z :=
  tx ← getTransaction signature;
  match tx with
  | None => Raise (RuntimeError (could_not_fetch_msg signature))
  | Some reply =>
      match transaction reply, meta reply with
      | Absent, _ | _, Absent =>
          Raise (RuntimeError (could_not_fetch_msg signature))
      | Null, _ => Raise TypeError
      | Holds t, m =>
          let pubkeys := map pubkey_of (accountKeys t) in
          match index_of wallet pubkeys with
          | None => Raise (RuntimeError wallet_not_found_msg)
          | Some idx =>
              match m with
              | Holds m' =>
                  match postBalances m' !! idx with
                  | Some lamports => Ok lamports
                  | None => Raise IndexError
                  end
              | _ => Raise TypeError
              end
          end
      end
  end.

(** *** Token balances *)

Fixpoint pick_balance (pubkeys : list string) (token_account mint : string)
    (entries : list TokenBalance) : res (option float) :=
  match entries with
  | [] => Ok None
  | e :: rest =>
      if negb (bool_decide (tb_mint e = Some mint))
      then pick_balance pubkeys token_account mint rest
      else
        match accountIndex e with
        | None => pick_balance pubkeys token_account mint rest
        | Some idx =>
            if bool_decide (0 <= idx < Z.of_nat (length pubkeys))
               && bool_decide (pubkeys !! Z.to_nat idx = Some token_account)
            then
              (* [ui = e.get("uiTokenAmount", {})], then [ui.get(...)] *)
              match uiTokenAmount e with
              | Absent => pick_balance pubkeys token_account mint rest
              | Null => Raise AttributeError
              | Holds ui =>
                  match amount ui, decimals ui with
                  | Some amt_raw, Some dec =>
                      bal ← div_pow10 rt amt_raw dec; Ok (Some bal)
                  | _, _ => pick_balance pubkeys token_account mint rest
                  end
              end
            else pick_balance pubkeys token_account mint rest
        end
  end.

(** The function from the fetched transaction on. The same test as in
    [sol_balance_from_transaction] returns [None]; a [transaction] that is
    [null] is then subscripted ([TypeError]) and a [meta] that is [null] is
    asked for [.get] ([AttributeError]). *)
Definition balance_in_reply (token_account mint : string) (tx : option TxReply)
    : res (option float) :=
  match tx with
  | None => Ok None
  | Some reply =>
      match transaction reply, meta reply with
      | Absent, _ | _, Absent => Ok None
      | Null, _ => Raise TypeError
      | Holds t, Null => Raise AttributeError
      | Holds t, Holds m =>
          let pubkeys := map pubkey_of (accountKeys t) in
          let post_tb := default [] (postTokenBalances m) in
          let pre_tb := default [] (preTokenBalances m) in
          bal ← pick_balance pubkeys token_account mint post_tb;
          match bal with
          | Some b => Ok (Some b)
          | None => pick_balance pubkeys token_account mint pre_tb
          end
      end
  end.

Definition spl_balance_at_ts_via_last_tx (fuel : nat)
    (token_account mint : string) (ts_unix : Z) : run (option float) :=
  sig ← find_last_signature_before_ts fuel token_account ts_unix 1000;
  match sig with
  | None => mret None
  | Some s =>
      if String.eqb s EmptyString then mret None
      else Finished (tx ← getTransaction s; balance_in_reply token_account mint tx)
  end.
End node.

(** *** A node that serves a fixed history

    The signatures of an address, newest first. A request gets the first
    [limit] entries, or the first [limit] entries after the one whose
    signature is [before]. *)

Fixpoint after_signature (b : string) (hist : list SigInfo) : list SigInfo :=
  match hist with
  | [] => []
  | s :: rest =>
      if String.eqb (signature s) b then rest else after_signature b rest
  end.

Definition serve (hist : list SigInfo) (address : string) (n : nat)
    (limit : Z) (before : option string) : res (list SigInfo) :=
  Ok (take (Z.to_nat limit)
        (match before with
         | None => hist
         | Some b => after_signature b hist
         end)).

(** The [before] the search holds once it has gone through [consumed]. *)
Definition cursor_after (consumed : list SigInfo) (before : option string) : Prop :=
  match before with
  | None => consumed = []
  | Some b => exists front l, consumed = front ++ [l] /\ b = signature l
  end.

(** The account key at position [i] is the address: the address itself or
    a dict whose [pubkey] is the address. *)
Definition key_at (keys : list AccountKey) (i : nat) (address : string) : Prop :=
  keys !! i = Some (KeyDict address) \/ keys !! i = Some (KeyStr address).

#[global] Instance key_at_dec keys i address : Decision (key_at keys i address).
Proof. unfold key_at. apply _. Defined.

(** What an entry of a token-balance list gives for a token account:
    nothing unless it has the mint and the account's position among the
    account keys; then the raw amount and the decimals when it has both, and
    [AttributeError] when its [uiTokenAmount] is [null]. *)
Definition usable_entry (keys : list AccountKey) (token_account mint : string)
    (e : TokenBalance) : option (res (Z * Z)) :=
  if bool_decide (tb_mint e = Some mint) then
    idx ← accountIndex e;
    if bool_decide (0 <= idx) && bool_decide (key_at keys (Z.to_nat idx) token_account)
    then
      match uiTokenAmount e with
      | Absent => None
      | Null => Some (Raise AttributeError)
      | Holds ui =>
          amt_raw ← amount ui;
          dec ← decimals ui;
          Some (Ok (amt_raw, dec))
      end
    else None
  else None.

(** The balance of the first entry of a list that gives something, if there
    is one. *)
Definition first_usable (rt : Builtins) (mint : string) (keys : list AccountKey)
    (token_account : string) (entries : list TokenBalance) : res (option float) :=
  match head (omap (usable_entry keys token_account mint) entries) with
  | Some (Ok (amt_raw, dec)) => bal ← div_pow10 rt amt_raw dec; Ok (Some bal)
  | Some (Raise e) => Raise e
  | None => Ok None
  end.

(** *** Prices *)

Section prices.
Variable rt : Builtins.
(** [historical_price_usd(symbol, start_iso, end_iso)]: the decoded reply of
    the price API, or the exception the request ends with. *)
Variable historical_price_usd : string -> string -> string -> res Json.
(** The decoded reply of the CoinGecko history endpoint for a coin id and a
    [DD-MM-YYYY] date, or the exception the request ends with. *)
Variable coingecko_history : string -> string -> res Json.

(** The body of the [try] of [coingecko_price_on_date_usd]. *)
Definition coingecko_body (coin_id ondate : string) : res (option float) :=
  match split "-" ondate with
  | [yyyy; mm; dd] =>
      let date_str := dd +:+ "-" +:+ mm +:+ "-" +:+ yyyy in
      j ← coingecko_history coin_id date_str;
      market_data ← get_default j "market_data" (JObj []);
      current_price ← get_default market_data "current_price" (JObj []);
      price ← get current_price "usd";
      match price with
      | JNull => Ok None
      | _ => x ← py_float rt price; Ok (Some x)
      end
  | _ => Raise ValueError
  end.

Definition coingecko_price_on_date_usd (coin_id ondate : string) : option float :=
  match coingecko_body coin_id ondate with
  | Ok r => r
  | Raise _ => None
  end.

(** The body of the [try] of [price_on_date_usd]: [Some] when it returns,
    [None] when it falls through to the statements after the [try]. *)
Definition alchemy_body (symbol ondate : string) : res (option float) :=
  prices ← historical_price_usd symbol (ondate +:+ "T00:00:00Z")
                                       (ondate +:+ "T23:59:59Z");
  data ← get_default prices "data" (JList []);
  if truthy data then
    first ← subscript0 data;
    v ← subscript first "value";
    x ← py_float rt v;
    Ok (Some x)
  else Ok None.

Definition price_on_date_usd (symbol ondate : string) : option float :=
  match alchemy_body symbol ondate with
  | Ok (Some x) => Some x
  | _ =>
      match COINGECKO_IDS !! upper symbol with
      | Some coin_id =>
          if negb (String.eqb coin_id EmptyString)
          then coingecko_price_on_date_usd coin_id ondate
          else None
      | None => None
      end
  end.

Definition fallback_price (label : string) : option float :=
  if bool_decide (label ∈ STABLES) then Some 1%float else None.

(** [price_on_date_usd("SOL", ondate) or 0.0] *)
Definition sol_price (ondate : string) : float :=
  match price_on_date_usd "SOL" ondate with
  | Some p => if PrimFloat.eqb p 0%float then 0%float else p
  | None => 0%float
  end.
End prices.

(** *** Valuing one mint *)

Section wallet.
Variable rt : Builtins.
Variable getSignaturesForAddress :
  string -> nat -> Z -> option string -> res (list SigInfo).
Variable getTransaction : string -> res (option TxReply).
Variable historical_price_usd : string -> string -> string -> res Json.
Variable coingecko_history : string -> string -> res Json.
(** The variables of [solana_wallet_value_on_date] that its inner function
    reads: the token accounts by mint, the cutoff and the date. A search is
    allowed [fuel] turns of its loop. *)
Variable fuel : nat.
Variable m2tas : gmap string (list string).
Variable ts : Z.
Variable ondate : string.

(** [for ta in token_accounts], from the running [total] and [found_any]. *)
Fixpoint token_total (mint : string) (token_accounts : list string)
    (total : float) (found_any : bool) : run (float * bool) :=
  match token_accounts with
  | [] => mret (total, found_any)
  | ta :: rest =>
      bal ← spl_balance_at_ts_via_last_tx rt getSignaturesForAddress
              getTransaction fuel ta mint ts;
      match bal with
      | Some b => token_total mint rest (total + b)%float true
      | None => token_total mint rest total found_any
      end
  end.

(** The price the function multiplies by, when it has one. *)
Definition token_price (label price_symbol : string) : option float :=
  match price_on_date_usd rt historical_price_usd coingecko_history
          price_symbol ondate with
  | Some px => Some px
  | None => fallback_price label
  end.

Definition token_usd_value (mint label price_symbol : string) : run float :=
  let token_accounts := default [] (m2tas !! mint) in
  match token_accounts with
  | [] => mret 0%float
  | _ =>
      r ← token_total mint token_accounts 0%float false;
      if negb (snd r) then mret 0%float
      else
        match token_price label price_symbol with
        | None => mret 0%float
        | Some px => mret (fst r * px)%float
        end
  end.
End wallet.

(** *** Token accounts *)

Definition TOKEN_PROGRAM_ID : string := "TokenkegQfeZyiNwAJbNbGKPFXCWuBvf9Ss623VQ5DA".
Definition TOKEN_2022_PROGRAM_ID : string := "TokenzQdBNbLqP5VEhdkAS6EPFLC1PHnBqCXEpPxuEb".

Definition USDC_MINT : string := "EPjFWdd5AufqSSqeM2qN1xzybapC8G4wEGGkZwyTDt1v".
Definition USDT_MINT : string := "Es9vMFrzaCERmJfrF4H2FYD4KCoNkY11McCe8BenwNYB".
Definition USX_MINT : string := "6FrrzDk5mQARGc1TDYoyVnSyRdds1t4PbtohCD6p3tgG".
Definition JITOSOL_MINT : string := "J1toso1uCk3RLmjorhTtrVwY9HJ7X8V9yYac6Y7kGCPn".

(** An item of the [value] list of [getTokenAccountsByOwner]: [pubkey],
    [account] and its [data] are read by subscript, the members below
    with [.get]. *)
Record AccountInfo : Type := mkAccountInfo {
  info_mint : option string
}.

Record ParsedData : Type := mkParsedData {
  info : option AccountInfo
}.

Record AccountData : Type := mkAccountData {
  parsed : option ParsedData
}.

Record Account : Type := mkAccount {
  data : AccountData
}.

Record TokenAccount : Type := mkTokenAccount {
  pubkey : string;
  account : Account
}.

(** The second parameter of the request. *)
Inductive AccountFilter : Type :=
| ByProgram (programId : string)
| ByMint (mint : string).

(** The mint an item names: [item["account"]["data"].get("parsed", {})],
    [parsed.get("info", {})] and [info.get("mint")]. *)
Definition item_mint (item : TokenAccount) : option string :=
  let parsed := default (mkParsedData None) (parsed (data (account item))) in
  let info := default (mkAccountInfo None) (info parsed) in
  info_mint info.

(** One turn of the loop of [mint_to_token_accounts]:
    [out.setdefault(mint, []).append(pubkey)] when [mint] is not empty. *)
Definition add_account (out : gmap string (list string)) (item : TokenAccount)
    : gmap string (list string) :=
  match item_mint item with
  | Some mint =>
      if negb (String.eqb mint EmptyString)
      then <[mint := default [] (out !! mint) ++ [pubkey item]]> out
      else out
  | None => out
  end.

Section accounts.
(** [rpc("getTokenAccountsByOwner", [owner, filter, {"encoding": "jsonParsed"}])]:
    the [value] member of the result, when it has one. *)
Variable getTokenAccountsByOwner :
  string -> AccountFilter -> res (option (list TokenAccount)).

(** [for program_id in (...)], from the accounts gathered so far. *)
Fixpoint accounts_loop (owner : string) (program_ids : list string)
    (all_accounts : list TokenAccount) : res (list TokenAccount) :=
  match program_ids with
  | [] => Ok all_accounts
  | program_id :: rest =>
      r ← getTokenAccountsByOwner owner (ByProgram program_id);
      let vals := default [] r in
      accounts_loop owner rest (all_accounts ++ vals)
  end.

Definition get_token_accounts_by_owner (owner : string) : res (list TokenAccount) :=
  accounts_loop owner [TOKEN_PROGRAM_ID; TOKEN_2022_PROGRAM_ID] [].

Definition get_token_accounts_by_mint (owner mint : string)
    : res (list TokenAccount) :=
  r ← getTokenAccountsByOwner owner (ByMint mint);
  Ok (default [] r).

Definition mint_to_token_accounts (owner : string)
    : res (gmap string (list string)) :=
  items ← get_token_accounts_by_owner owner;
  Ok (foldl add_account ∅ items).

(** The loop that looks each of the four mints up by itself; what it finds
    is only printed. *)
Fixpoint mint_filter_check (wallet : string) (mints : list (string * string))
    : res unit :=
  match mints with
  | [] => Ok tt
  | (mint, label) :: rest =>
      accts ← get_token_accounts_by_mint wallet mint;
      mint_filter_check wallet rest
  end.
End accounts.

(** *** The requests behind the helpers *)

Section requests.
Variable cv : Conversions.
Variable ALCHEMY_KEY : string.
(** [requests.post(url, json=payload, timeout=30)] and
    [requests.get(url, params=params, timeout=30)]: the reply, whose body is
    what [r.json()] makes of it, or the exception the request ends with. *)
Variable requests_post : string -> Json -> res (Btc.Response (res Json)).
Variable requests_get : string -> Json -> res (Btc.Response (res Json)).

Definition ALCHEMY_RPC : string :=
  "https://solana-mainnet.g.alchemy.com/v2/" +:+ ALCHEMY_KEY.

Definition rpc_payload (method : string) (params : Json) : Json :=
  JObj [("jsonrpc", JStr "2.0"); ("id", JInt 1); ("method", JStr method);
        ("params", params)].

Definition rpc (method : string) (params : Json) : res Json :=
  r ← requests_post ALCHEMY_RPC (rpc_payload method params);
  _ ← Btc.raise_for_status r;
  j ← Btc.body r;
  has_error ← py_in "error" j;
  if has_error : bool then
    err ← subscript j "error";
    Raise (RuntimeError (str_of cv err))
  else subscript j "result".

Definition prices_url : string :=
  "https://api.g.alchemy.com/prices/v1/" +:+ ALCHEMY_KEY +:+ "/tokens/historical".

Definition price_request (symbol start_iso end_iso : string) : Json :=
  JObj [("symbol", JStr symbol); ("startTime", JStr start_iso);
        ("endTime", JStr end_iso)].

Definition historical_price_usd (symbol start_iso end_iso : string) : res Json :=
  let payload := price_request symbol start_iso end_iso in
  r ← requests_post prices_url payload;
  _ ← Btc.raise_for_status r;
  Btc.body r.

(** The request of [coingecko_price_on_date_usd], up to [r.json()]. *)
Definition coingecko_history (coin_id date_str : string) : res Json :=
  let url := "https://api.coingecko.com/api/v3/coins/" +:+ coin_id +:+ "/history" in
  r ← requests_get url (JObj [("date", JStr date_str); ("localization", JStr "false")]);
  _ ← Btc.raise_for_status r;
  Btc.body r.
End requests.

(** *** The valuation of a wallet *)

Section valuation.
Variable rt : Builtins.
Variable cv : Conversions.
Variable getSignaturesForAddress :
  string -> nat -> Z -> option string -> res (list SigInfo).
Variable getTransaction : string -> res (option TxReply).
Variable getTokenAccountsByOwner :
  string -> AccountFilter -> res (option (list TokenAccount)).
Variable historical_price_usd : string -> string -> string -> res Json.
Variable coingecko_history : string -> string -> res Json.
(** A search is allowed [fuel] turns of its loop. *)
Variable fuel : nat.

(** The SOL snapshot: [lamports / 1_000_000_000] is the true division by
    [10 ** 9]. *)
Definition sol_amount_of (wallet : string) (sig : option string) : res float :=
  match sig with
  | Some s =>
      if String.eqb s EmptyString then Ok 0%float
      else
        lamports ← sol_balance_from_transaction getTransaction wallet s;
        div_pow10 rt lamports 9
  | None => Ok 0%float
  end.

(** The function without its printing. *)
Definition solana_wallet_value_on_date (wallet ondate : string)
    : run (float * float * float * float * float * float * float) :=
  ts ← Finished (cutoff_of_date cv ondate);
  sig ← find_last_signature_before_ts getSignaturesForAddress fuel wallet ts 1000;
  sol_amount ← Finished (sol_amount_of wallet sig);
  let sol_price := sol_price rt historical_price_usd coingecko_history ondate in
  let sol_usd_value := (sol_amount * sol_price)%float in
  _ ← Finished (mint_filter_check getTokenAccountsByOwner wallet
                  [(USDC_MINT, "USDC"); (USDT_MINT, "USDT"); (USX_MINT, "USX");
                   (JITOSOL_MINT, "JITOSOL")]);
  m2tas ← Finished (mint_to_token_accounts getTokenAccountsByOwner wallet);
  let token_usd_value :=
    token_usd_value rt getSignaturesForAddress getTransaction historical_price_usd
      coingecko_history fuel m2tas ts ondate in
  usdc_usd ← token_usd_value USDC_MINT "USDC" "USDC";
  usdt_usd ← token_usd_value USDT_MINT "USDT" "USDT";
  usx_usd ← token_usd_value USX_MINT "USX" "USX";
  jito_usd ← token_usd_value JITOSOL_MINT "JITOSOL" "JITOSOL";
  mret (sol_amount, sol_price, sol_usd_value, usdc_usd, usdt_usd, usx_usd, jito_usd).
End valuation.

End Solana.

(** ** Sample data: replies the readers can be run on *)
Module Samples.

(** *** HTTP replies *)

Definition ok_reply : Btc.Response string := Btc.mkResponse 200 "[]".
Definition unavailable : Btc.Response string := Btc.mkResponse 503 "".
Definition not_found : Btc.Response string := Btc.mkResponse 404 "".

(** Three replies 503, then a 200. *)
Definition flaky_session (n : nat) : res (Btc.Response string) :=
  if bool_decide (n < 3)%nat then Ok unavailable else Ok ok_reply.

Definition missing_session (n : nat) : res (Btc.Response string) := Ok not_found.

Definition down_session (n : nat) : res (Btc.Response string) :=
  if bool_decide (n < 4)%nat then Raise ConnectionError else Raise Timeout.

(** *** An address history *)

Definition confirmed_at (t : Z) : option Btc.TxStatus :=
  Some (Btc.mkTxStatus true (Some t)).

Definition pays (address : string) (v : Z) : Btc.TxOut :=
  Btc.mkTxOut (Some address) (Some v).

Definition spends (address : string) (prev_txid : string) (prev_vout : Z) : Btc.TxIn :=
  Btc.mkTxIn (Some prev_txid) (Some prev_vout) (Some (Btc.mkPrevOut (Some address))).

(** tx1 pays A 500 at time 100. *)
Definition tx1 : Btc.Tx :=
  Btc.mkTx "tx1" (confirmed_at 100) [spends "B" "tx0" 0] [pays "A" 500].

(** tx2 spends the output of tx1 at time 200, pays 300 to B and 200 of
    change back to A. *)
Definition tx2 : Btc.Tx :=
  Btc.mkTx "tx2" (confirmed_at 200) [spends "A" "tx1" 0] [pays "B" 300; pays "A" 200].

(** A transaction still in the mempool. *)
Definition tx3 : Btc.Tx :=
  Btc.mkTx "tx3" (Some (Btc.mkTxStatus false None)) [spends "A" "tx2" 1] [pays "C" 200].

(** The history as the explorer returns it, newest first. *)
Definition history_A : list Btc.Tx := [tx3; tx2; tx1].

(** A history in which a transaction id comes back after its output was
    spent. *)
Definition tx1_again : Btc.Tx :=
  Btc.mkTx "tx1" (confirmed_at 300) [] [pays "A" 500].

Definition history_repeat : list Btc.Tx := [tx1_again; tx2; tx1].

(** Two transactions of one block: ta pays A 600, and tb spends that output
    and pays it on to B. *)
Definition ta : Btc.Tx :=
  Btc.mkTx "ta" (confirmed_at 100) [spends "B" "t0" 0] [pays "A" 600].

Definition tb : Btc.Tx :=
  Btc.mkTx "tb" (confirmed_at 100) [spends "A" "ta" 0] [pays "B" 600].

(** The two as an explorer that lists the newest first returns them: tb
    comes after ta in the block. *)
Definition history_block : list Btc.Tx := [tb; ta].

(** An explorer that serves [history_A] one transaction per page. *)
Definition explorer_A (n : nat) (path : string) : res (list Btc.Tx) :=
  if String.eqb path "/address/A/txs" then Ok [tx3]
  else if String.eqb path "/address/A/txs/chain/tx3" then Ok [tx2]
  else if String.eqb path "/address/A/txs/chain/tx2" then Ok [tx1]
  else Ok [].

(** An explorer that never runs out of pages. *)
Definition endless_explorer (n : nat) (path : string) : res (list Btc.Tx) :=
  Ok [tx1].

(** *** Conversions for plain decimal numbers and UTC timestamps *)

Definition digit_val (c : ascii) : option Z :=
  let n := Z.of_N (N_of_ascii c) in
  if bool_decide (48 <= n <= 57) then Some (n - 48) else None.

Fixpoint dec_value (s : string) (acc : Z) : option Z :=
  match s with
  | EmptyString => Some acc
  | String c s' =>
      match digit_val c with
      | Some d => dec_value s' (10 * acc + d)
      | None => None
      end
  end.

Definition number_at (s : string) (pos len : nat) : option Z :=
  match substring pos len s with
  | EmptyString => None
  | digits => dec_value digits 0
  end.

(** Days from 0001-01-01 to the given date of the proleptic Gregorian
    calendar. *)
Definition days_from_civil (y m d : Z) : Z :=
  let y' := if (m <=? 2)%Z then y - 1 else y in
  let era := y' / 400 in
  let yoe := y' - era * 400 in
  let mp := (m + 9) mod 12 in
  let doy := (153 * mp + 2) / 5 + d - 1 in
  let doe := yoe * 365 + yoe / 4 - yoe / 100 + doy in
  era * 146097 + doe - 306.

(** [fromisoformat] on [YYYY-MM-DDTHH:MM:SS], alone (naive) or followed by
    [+00:00] (aware). *)
Definition iso_seconds (s : string) : res datetime :=
  match number_at s 0 4, number_at s 5 2, number_at s 8 2,
        number_at s 11 2, number_at s 14 2, number_at s 17 2 with
  | Some y, Some mo, Some d, Some h, Some mi, Some sec =>
      let wall :=
        ((days_from_civil y mo d * 24 + h) * 60 + mi) * 60 + sec in
      if (String.length s =? 19)%nat then Ok (mkDatetime (wall * 1000000) None)
      else if String.eqb (substring 19 6 s) "+00:00" && (String.length s =? 25)%nat
      then Ok (mkDatetime (wall * 1000000) (Some 0))
      else Raise ValueError
  | _, _, _, _, _, _ => Raise ValueError
  end.

(** The digits of a decimal text and the number of them after the point. *)
Fixpoint decimal_parts (s : string) (mant : Z) (scale : option Z) : option (Z * Z) :=
  match s with
  | EmptyString => Some (mant, default 0 scale)
  | String c s' =>
      if Ascii.eqb c "."%char then
        match scale with
        | None => decimal_parts s' mant (Some 0)
        | Some _ => None
        end
      else
        match digit_val c with
        | Some d => decimal_parts s' (10 * mant + d) ((fun k => k + 1) <$> scale)
        | None => None
        end
  end.

Definition float_of_Z (n : Z) : float := PrimFloat.of_uint63 (Uint63.of_Z n).

Definition ratio (n d : Z) : res float :=
  Ok (float_of_Z n / float_of_Z (10 ^ d))%float.

Definition decimal_float (s : string) : res float :=
  match s with
  | EmptyString => Raise ValueError
  | _ =>
      match decimal_parts s 0 None with
      | Some (m, k) => ratio m k
      | None => Raise ValueError
      end
  end.

Definition rt : Builtins :=
  mkBuiltins decimal_float (fun n => Ok (float_of_Z n)) iso_seconds ratio.

(** *** Replies of the price API *)

Definition point (ts v : string) : Json :=
  JObj [("value", JStr v); ("timestamp", JStr ts)].

Definition two_points : list Json :=
  [point "2025-12-31T10:00:00Z" "1.0"; point "2025-12-31T20:00:00Z" "1.5"].

(** The three shapes of a reply holding these points. *)
Definition nested_payload : Json :=
  JObj [("data", JObj [("symbol", JStr "ETH"); ("prices", JList two_points)])].

Definition bare_payload : Json :=
  JObj [("symbol", JStr "ETH"); ("currency", JStr "usd"); ("data", JList two_points)].

Definition top_payload : Json := JObj [("prices", JList two_points)].

Definition prices_two (symbol start_iso end_iso : string) : res Json :=
  Ok bare_payload.

Definition prices_none (symbol start_iso end_iso : string) : res Json :=
  Ok (JObj [("symbol", JStr symbol); ("data", JList [])]).

Definition prices_down (symbol start_iso end_iso : string) : res Json :=
  Raise ConnectionError.

(** A reply whose points cannot be read: a timestamp that is no date. *)
Definition prices_garbled (symbol start_iso end_iso : string) : res Json :=
  Ok (JObj [("data", JList [point "yesterday" "1.0"])]).

Definition coingecko_2 (coin_id date_str : string) : res Json :=
  Ok (JObj [("market_data",
             JObj [("current_price", JObj [("usd", JFloat 2%float)])])]).

Definition coingecko_nothing (coin_id date_str : string) : res Json :=
  Ok (JObj []).

(** *** A Solana wallet *)

Definition sig (s : string) (t : Z) : Solana.SigInfo := Solana.mkSigInfo s (Some t).

Definition wallet_history : list Solana.SigInfo :=
  [sig "s5" 500; sig "s4" 400; Solana.mkSigInfo "s3x" None; sig "s3" 300;
   sig "s2" 200; sig "s1" 100].

(** A node that serves the wallet W and its two token accounts. *)
Definition node (address : string) : nat -> Z -> option string -> res (list Solana.SigInfo) :=
  if String.eqb address "W" then Solana.serve wallet_history address
  else if String.eqb address "T1" then Solana.serve [sig "a2" 350; sig "a1" 150] address
  else if String.eqb address "T2" then Solana.serve [sig "b1" 120] address
  else Solana.serve [] address.

(** A node whose pages never end and never hold a confirmation time. *)
Definition stuck_node (address : string) (n : nat) (limit : Z)
    (before : option string) : res (list Solana.SigInfo) :=
  Ok [Solana.mkSigInfo "s" None].

Definition token_entry (mint : string) (idx raw dec : Z) : Solana.TokenBalance :=
  Solana.mkTokenBalance (Some mint) (Some idx)
    (Solana.Holds (Solana.mkUiTokenAmount (Some raw) (Some dec))).

Definition reply (keys : list Solana.AccountKey) (post : list Z)
    (post_tb pre_tb : option (list Solana.TokenBalance)) : option Solana.TxReply :=
  Some (Solana.mkTxReply (Solana.Holds (Solana.mkTransaction keys))
          (Solana.Holds (Solana.mkMeta post post_tb pre_tb))).

Definition transactions (signature : string) : res (option Solana.TxReply) :=
  if String.eqb signature "s2" then
    Ok (reply [Solana.KeyDict "payer"; Solana.KeyStr "W"; Solana.KeyDict "T1"]
          [10; 777; 5] None None)
  else if String.eqb signature "a1" then
    Ok (reply [Solana.KeyDict "W"; Solana.KeyDict "T1"] [1; 2]
          (Some [token_entry "OTHER" 1 9 0; token_entry "MINT" 1 1500000 6]) None)
  else if String.eqb signature "b1" then
    Ok (reply [Solana.KeyDict "W"; Solana.KeyDict "T2"] [1; 2]
          None (Some [token_entry "MINT" 1 2500000 6]))
  else if String.eqb signature "s1" then
    Ok (Some (Solana.mkTxReply
                (Solana.Holds (Solana.mkTransaction [Solana.KeyStr "W"]))
                Solana.Null))
  else Ok None.

Definition accounts : gmap string (list string) := <["MINT" := ["T1"; "T2"]]> ∅.

(** *** The explorer over HTTP *)

(** The sample history by URL, one transaction a page. *)
Definition explorer_url (url : string) : res (list Btc.Tx) :=
  if String.eqb url "https://blockstream.info/api/address/A/txs" then Ok [tx3]
  else if String.eqb url "https://blockstream.info/api/address/A/txs/chain/tx3"
  then Ok [tx2]
  else if String.eqb url "https://blockstream.info/api/address/A/txs/chain/tx2"
  then Ok [tx1]
  else Ok [].

(** The same behind a connection that answers 503 three times before every
    reply. *)
Definition flaky_esplora (n : nat) (url : string) (k : nat)
    : res (Btc.Response (res (list Btc.Tx))) :=
  if bool_decide (k < 3)%nat then Ok (Btc.mkResponse 503 (Raise ValueError))
  else Ok (Btc.mkResponse 200 (explorer_url url)).

(** *** Further conversions, for plain input *)

(** [int(s)] on a run of decimal digits. *)
Definition decimal_int (s : string) : res Z :=
  match s with
  | EmptyString => Raise ValueError
  | _ =>
      match dec_value s 0 with
      | Some v => Ok v
      | None => Raise ValueError
      end
  end.

(** [int(x)] on a float: the integer part. *)
Definition truncate (x : float) : res Z :=
  match Prim2SF x with
  | S754_zero _ => Ok 0
  | S754_infinity _ => Raise OverflowError
  | S754_nan => Raise ValueError
  | S754_finite s m e =>
      let v := if (0 <=? e)%Z then Z.pos m * 2 ^ e else Z.pos m / 2 ^ (- e) in
      Ok (if s then - v else v)
  end.

Fixpoint dec_digits (fuel : nat) (n : Z) (acc : string) : string :=
  match fuel with
  | O => acc
  | S k =>
      let acc' := String (hex_char (n mod 10)) acc in
      if (n / 10 =? 0)%Z then acc' else dec_digits k (n / 10) acc'
  end.

Definition show_int (n : Z) : string :=
  let digits m := dec_digits (S (Z.to_nat (Z.log2 m))) m EmptyString in
  if (n <? 0)%Z then "-" +:+ digits (- n) else digits n.

(** [repr(x)] for a value without floats and a text without quotes. *)
Fixpoint repr (x : Json) : string :=
  match x with
  | JNull => "None"
  | JBool b => if b then "True" else "False"
  | JInt n => show_int n
  | JFloat _ => "nan"
  | JStr s => "'" +:+ s +:+ "'"
  | JList items =>
      "[" +:+ (fix go (l : list Json) : string :=
                 match l with
                 | [] => EmptyString
                 | [y] => repr y
                 | y :: l' => repr y +:+ ", " +:+ go l'
                 end) items +:+ "]"
  | JObj fields =>
      "{" +:+ (fix go (l : list (string * Json)) : string :=
                 match l with
                 | [] => EmptyString
                 | [(k, v)] => "'" +:+ k +:+ "': " +:+ repr v
                 | (k, v) :: l' => "'" +:+ k +:+ "': " +:+ repr v +:+ ", " +:+ go l'
                 end) fields +:+ "}"
  end.

(** [str(x)] *)
Definition show (x : Json) : string :=
  match x with
  | JStr s => s
  | _ => repr x
  end.

Definition cv : Conversions := mkConversions decimal_int truncate show.

(** *** An Ethereum node, the block explorer and the price API *)

Definition http_ok (j : Json) : res (Btc.Response (res Json)) :=
  Ok (Btc.mkResponse 200 (Ok j)).

Definition rpc_result (v : Json) : Json :=
  JObj [("jsonrpc", JStr "2.0"); ("id", JInt 1); ("result", v)].

Definition rpc_error : Json :=
  JObj [("jsonrpc", JStr "2.0"); ("id", JInt 1);
        ("error", JObj [("code", JInt (-32601)); ("message", JStr "Method not found")])].

(** The wallet holds 2 ETH and 1500000 raw units of every token asked for;
    every price request is answered with the two sample points. *)
Definition eth_post (url : string) (payload : Json) : res (Btc.Response (res Json)) :=
  if String.eqb url "https://eth-mainnet.g.alchemy.com/v2/KEY" then
    match subscript payload "method" with
    | Ok m =>
        if Eth.eq_str m "eth_getBalance" then http_ok (rpc_result (JStr "0x1bc16d674ec80000"))
        else if Eth.eq_str m "eth_call" then http_ok (rpc_result (JStr "0x16e360"))
        else http_ok rpc_error
    | Raise _ => http_ok rpc_error
    end
  else http_ok bare_payload.

Definition etherscan_get (url : string) (params : Json) : res (Btc.Response (res Json)) :=
  http_ok (JObj [("status", JStr "1"); ("message", JStr "OK");
                 ("result", JStr "24136052")]).

(** A price API that answers every request with the status 503. *)
Definition prices_unavailable (url : string) (payload : Json)
    : res (Btc.Response (res Json)) :=
  Ok (Btc.mkResponse 503 (Raise ValueError)).

(** The same for the retrying session, which is answered at the fourth
    call. *)
Definition prices_flaky (url : string) (payload : Json) (k : nat)
    : res (Btc.Response (res Json)) :=
  if bool_decide (k < 3)%nat then Ok (Btc.mkResponse 503 (Raise ValueError))
  else http_ok bare_payload.

(** *** A Solana wallet with a USDC account *)

(** The wallet H, its USDC account HU, and an address G that the last
    transaction found for it does not name. *)
Definition holder_node (address : string)
    : nat -> Z -> option string -> res (list Solana.SigInfo) :=
  if String.eqb address "H"
  then Solana.serve [sig "h2" 1767300000; sig "h1" 1767000000] address
  else if String.eqb address "HU" then Solana.serve [sig "u1" 1766000000] address
  else if String.eqb address "G" then Solana.serve [sig "h1" 1767000000] address
  else Solana.serve [] address.

Definition holder_transactions (signature : string) : res (option Solana.TxReply) :=
  if String.eqb signature "h1" then
    Ok (reply [Solana.KeyDict "H"; Solana.KeyDict "HU"] [2500000000; 2039280] None None)
  else if String.eqb signature "u1" then
    Ok (reply [Solana.KeyDict "H"; Solana.KeyDict "HU"] [1; 2]
          (Some [token_entry Solana.USDC_MINT 1 1500000 6]) None)
  else Ok None.

(** The same transactions when the node has no status metadata for u1 and
    sends its [meta] as [null], and when it leaves the member out. *)
Definition null_meta_transactions (signature : string) : res (option Solana.TxReply) :=
  if String.eqb signature "u1" then
    Ok (Some (Solana.mkTxReply
                (Solana.Holds (Solana.mkTransaction
                                 [Solana.KeyDict "H"; Solana.KeyDict "HU"]))
                Solana.Null))
  else holder_transactions signature.

Definition no_meta_transactions (signature : string) : res (option Solana.TxReply) :=
  if String.eqb signature "u1" then
    Ok (Some (Solana.mkTxReply
                (Solana.Holds (Solana.mkTransaction
                                 [Solana.KeyDict "H"; Solana.KeyDict "HU"]))
                Solana.Absent))
  else holder_transactions signature.

Definition token_account (address mint : string) : Solana.TokenAccount :=
  Solana.mkTokenAccount address
    (Solana.mkAccount
       (Solana.mkAccountData
          (Some (Solana.mkParsedData (Some (Solana.mkAccountInfo (Some mint))))))).

Definition holder_accounts (owner : string) (f : Solana.AccountFilter)
    : res (option (list Solana.TokenAccount)) :=
  match f with
  | Solana.ByProgram p =>
      if String.eqb p Solana.TOKEN_PROGRAM_ID
      then Ok (Some [token_account "HU" Solana.USDC_MINT])
      else Ok None
  | Solana.ByMint m =>
      if String.eqb m Solana.USDC_MINT
      then Ok (Some [token_account "HU" Solana.USDC_MINT])
      else Ok (Some [])
  end.

End Samples.

(** * Facts *)

(** ** The retry wrapper *)

Section retry_facts.
Context {B : Type}.
Variable session_request : nat -> res (Btc.Response B).
Variable url : string.

Abbreviation att := (Btc.attempt session_request).
Abbreviation loop := (Btc.retry_loop session_request url).
Abbreviation retried_run := (Btc.retried_run session_request).

Lemma retried_run_shift n k :
  retried_run n (S k) -> retried_run (S n) k.
Proof.
  intros H j Hj. destruct (H (S j)) as [e He]; [lia |].
  exists e. by replace (S n + j)%nat with (n + S j)%nat by lia.
Qed.

Lemma retried_run_head n k :
  retried_run n (S k) -> exists e, att n = Raise e /\ Btc.retried e = true.
Proof.
  intros H. destruct (H 0%nat) as [e He]; [lia |].
  exists e. by replace (n + 0)%nat with n in He by lia.
Qed.

Lemma retry_loop_returns attempts n last_exc slept k resp :
  (k < length attempts)%nat -> retried_run n k -> att (n + k)%nat = Ok resp ->
  Btc.outcome (loop attempts n last_exc slept) = Ok resp
  /\ Btc.calls (loop attempts n last_exc slept) = S (n + k).
Proof.
  revert n last_exc slept k.
  induction attempts as [| a rest IH]; intros n last_exc slept k Hk Hrun Hok;
    simpl in Hk; [lia |].
  destruct k as [| k].
  - rewrite Nat.add_0_r in *. simpl. rewrite Hok. simpl. done.
  - destruct (retried_run_head _ _ Hrun) as (e & He & Hr).
    simpl. rewrite He, Hr.
    rewrite Nat.add_succ_r in *.
    apply (IH (S n)); [lia | by apply retried_run_shift | done].
Qed.

Lemma retry_loop_reraises attempts n last_exc slept k e :
  (k < length attempts)%nat -> retried_run n k ->
  att (n + k)%nat = Raise e -> Btc.retried e = false ->
  Btc.outcome (loop attempts n last_exc slept) = Raise e
  /\ Btc.calls (loop attempts n last_exc slept) = S (n + k).
Proof.
  revert n last_exc slept k.
  induction attempts as [| a rest IH]; intros n last_exc slept k Hk Hrun He Hnr;
    simpl in Hk; [lia |].
  destruct k as [| k].
  - rewrite Nat.add_0_r in *. simpl. rewrite He, Hnr. done.
  - destruct (retried_run_head _ _ Hrun) as (e' & He' & Hr).
    simpl. rewrite He', Hr.
    rewrite Nat.add_succ_r in *.
    apply (IH (S n)); [lia | by apply retried_run_shift | done | done].
Qed.

Lemma retry_loop_exhausted attempts n last_exc slept e m :
  length attempts = S m -> retried_run n (S m) ->
  att (n + m)%nat = Raise e ->
  Btc.outcome (loop attempts n last_exc slept)
    = Raise (RuntimeErrorFrom (Btc.exhausted_msg url) e)
  /\ Btc.calls (loop attempts n last_exc slept) = S (n + m).
Proof.
  revert n last_exc slept m.
  induction attempts as [| a rest IH]; intros n last_exc slept m Hlen Hrun He;
    [discriminate |].
  destruct (retried_run_head _ _ Hrun) as (e' & He' & Hr).
  simpl. rewrite He', Hr.
  destruct m as [| m].
  - destruct rest; [| discriminate]. simpl.
    rewrite Nat.add_0_r in *.
    rewrite He' in He. injection He as ->. done.
  - rewrite Nat.add_succ_r in *.
    apply (IH (S n)); [simpl in Hlen; lia | by apply retried_run_shift | done].
Qed.

Lemma retry_loop_calls attempts n last_exc slept :
  (n <= Btc.calls (loop attempts n last_exc slept) <= n + length attempts)%nat
  /\ (attempts <> [] -> (n < Btc.calls (loop attempts n last_exc slept))%nat)
  /\ forall k, (n <= k)%nat -> (S k < Btc.calls (loop attempts n last_exc slept))%nat ->
       exists e, att k = Raise e /\ Btc.retried e = true.
Proof.
  revert n last_exc slept.
  induction attempts as [| a rest IH]; intros n last_exc slept; simpl.
  - split; [lia |]. split; [done |]. intros; lia.
  - destruct (att n) as [resp | e] eqn:E; simpl.
    + split; [lia |]. split; [lia |]. intros; lia.
    + destruct (Btc.retried e) eqn:Hr; simpl.
      * match goal with |- context [loop rest (S n) ?l ?s] =>
          destruct (IH (S n) l s) as (Hb & _ & Hk) end.
        split; [lia |]. split; [lia |].
        intros k Hnk Hlt. destruct (decide (k = n)) as [-> | Hne].
        -- eauto.
        -- apply Hk; [lia | done].
      * split; [lia |]. split; [lia |]. intros; lia.
Qed.
End retry_facts.

(** The exceptions on which the wrapper goes on to a further attempt:
    connection failure, timeout, truncated transfer, and the HTTP statuses
    429, 500, 502, 503 and 504. *)
Lemma retried_iff e :
  Btc.retried e = true <->
  e = ConnectionError \/ e = Timeout \/ e = ChunkedEncodingError
  \/ exists st, e = HTTPError (Some st) /\ st ∈ [429; 500; 502; 503; 504].
Proof.
  split.
  - destruct e as [| | | st | | | | | | | |]; simpl; try discriminate; auto.
    intros H%bool_decide_eq_true. unfold Btc.transient_status in H.
    do 3 right. rewrite !elem_of_cons, elem_of_nil in H.
    destruct H as [-> | [-> | [-> | [-> | [-> | []]]]]];
      eexists; (split; [reflexivity |]); rewrite !elem_of_cons; tauto.
  - intros [-> | [-> | [-> | (st & -> & H)]]]; try done.
    simpl. apply bool_decide_eq_true. unfold Btc.transient_status.
    rewrite !elem_of_cons, elem_of_nil in H.
    destruct H as [-> | [-> | [-> | [-> | [-> | []]]]]];
      rewrite !elem_of_cons; tauto.
Qed.

Lemma attempt_status {B} (session_request : nat -> res (Btc.Response B)) n resp :
  session_request n = Ok resp ->
  Btc.attempt session_request n =
    if bool_decide (400 <= Btc.status_code resp < 600)
    then Raise (HTTPError (Some (Btc.status_code resp))) else Ok resp.
Proof.
  intros H. unfold Btc.attempt, Btc.raise_for_status. rewrite H. simpl.
  by case_bool_decide.
Qed.

(** C4: the wrapper calls the session at least once and at most five times;
    a further call is made only after an attempt failed on a connection
    failure, a timeout, a truncated transfer or an HTTP status among 429,
    500, 502, 503, 504; the first attempt that returns ends the run with
    its response, and the first attempt that fails otherwise ends it with
    that exception (for an HTTP 404 on the first attempt: one call); HTTP
    503 three times and then a success gives that response after four
    calls; and when all five attempts fail, the run raises a [RuntimeError]
    naming the URL, raised from the exception of the fifth attempt. *)
Theorem request_with_retry_policy :
  forall (B : Type) (session_request : nat -> res (Btc.Response B)) (url : string),
    let run := Btc.request_with_retry session_request url in
    let att := Btc.attempt session_request in
    (1 <= Btc.calls run <= 5)%nat
    /\ (forall k, (S k < Btc.calls run)%nat ->
          exists e, att k = Raise e /\
            (e = ConnectionError \/ e = Timeout \/ e = ChunkedEncodingError
             \/ exists st, e = HTTPError (Some st)
                           /\ st ∈ [429; 500; 502; 503; 504]))
    /\ (forall k resp, (k < 5)%nat -> Btc.retried_run session_request 0 k ->
          att k = Ok resp ->
          Btc.outcome run = Ok resp /\ Btc.calls run = S k)
    /\ (forall k e, (k < 5)%nat -> Btc.retried_run session_request 0 k ->
          att k = Raise e -> Btc.retried e = false ->
          Btc.outcome run = Raise e /\ Btc.calls run = S k)
    /\ (forall resp, session_request 0%nat = Ok resp ->
          400 <= Btc.status_code resp < 600 ->
          Btc.status_code resp ∉ [429; 500; 502; 503; 504] ->
          Btc.outcome run = Raise (HTTPError (Some (Btc.status_code resp)))
          /\ Btc.calls run = 1%nat)
    /\ (forall r0 r1 r2 r3,
          session_request 0%nat = Ok r0 -> Btc.status_code r0 = 503 ->
          session_request 1%nat = Ok r1 -> Btc.status_code r1 = 503 ->
          session_request 2%nat = Ok r2 -> Btc.status_code r2 = 503 ->
          session_request 3%nat = Ok r3 -> ~ 400 <= Btc.status_code r3 < 600 ->
          Btc.outcome run = Ok r3 /\ Btc.calls run = 4%nat)
    /\ (forall e, Btc.retried_run session_request 0 5 -> att 4%nat = Raise e ->
          Btc.outcome run = Raise (RuntimeErrorFrom (Btc.exhausted_msg url) e)
          /\ Btc.calls run = 5%nat
          /\ Btc.exhausted_msg url = "Request failed after 5 retries: " +:+ url).
Proof.
  intros B session_request url run att.
  pose proof (retry_loop_calls session_request url (seq 1 Btc.MAX_RETRIES)
                0%nat None []) as (Hbound & Hpos & Hprev).
  fold (Btc.request_with_retry session_request url) in Hbound, Hpos, Hprev.
  fold run in Hbound, Hpos, Hprev. simpl in Hbound.
  assert (Hret : forall k resp, (k < 5)%nat ->
            Btc.retried_run session_request 0 k -> att k = Ok resp ->
            Btc.outcome run = Ok resp /\ Btc.calls run = S k).
  { intros k resp Hk Hrun Hok.
    apply (retry_loop_returns session_request url (seq 1 Btc.MAX_RETRIES)
             0%nat None [] k resp); [simpl; lia | done | done]. }
  assert (Hrr : forall k e, (k < 5)%nat ->
            Btc.retried_run session_request 0 k -> att k = Raise e ->
            Btc.retried e = false ->
            Btc.outcome run = Raise e /\ Btc.calls run = S k).
  { intros k e Hk Hrun He Hnr.
    apply (retry_loop_reraises session_request url (seq 1 Btc.MAX_RETRIES)
             0%nat None [] k e); [simpl; lia | done | done | done]. }
  split_and!.
  - specialize (Hpos ltac:(discriminate)). lia.
  - lia.
  - intros k Hk. destruct (Hprev k ltac:(lia) Hk) as (e & He & Hr).
    exists e. split; [done |]. by apply retried_iff.
  - exact Hret.
  - exact Hrr.
  - intros resp H0 Hrange Hnot.
    apply (Hrr 0%nat); [lia | intros j Hj; lia | |].
    + unfold att. rewrite (attempt_status _ _ _ H0).
      by rewrite bool_decide_eq_true_2.
    + destruct (Btc.retried (HTTPError (Some (Btc.status_code resp)))) eqn:E;
        [| done].
      apply retried_iff in E.
      destruct E as [E | [E | [E | (st & [= <-] & Hin)]]]; try discriminate.
      contradiction.
  - intros r0 r1 r2 r3 H0 S0 H1 S1 H2 S2 H3 S3.
    apply (Hret 3%nat); [lia | |].
    + intros j Hj. exists (HTTPError (Some 503)). split; [| done].
      assert (j = 0 \/ j = 1 \/ j = 2)%nat as [-> | [-> | ->]] by lia; simpl.
      * rewrite (attempt_status _ _ _ H0), S0. done.
      * rewrite (attempt_status _ _ _ H1), S1. done.
      * rewrite (attempt_status _ _ _ H2), S2. done.
    + unfold att. rewrite (attempt_status _ _ _ H3).
      by rewrite bool_decide_eq_false_2.
  - intros e Hrun He.
    destruct (retry_loop_exhausted session_request url (seq 1 Btc.MAX_RETRIES)
                0%nat None [] e 4%nat) as [Ho Hc]; [done | done | done |].
    split_and!; done.
Qed.

(** The three runs of the specification's retry example. *)
Example retry_503_then_ok :
  let run := Btc.request_with_retry Samples.flaky_session "https://blockstream.info/api/x" in
  Btc.outcome run = Ok Samples.ok_reply /\ Btc.calls run = 4%nat
  /\ Btc.sleeps run = [1; 2; 3]%nat.
Proof. vm_compute. done. Qed.

Example retry_404_once :
  let run := Btc.request_with_retry Samples.missing_session "https://blockstream.info/api/x" in
  Btc.outcome run = Raise (HTTPError (Some 404)) /\ Btc.calls run = 1%nat
  /\ Btc.sleeps run = [].
Proof. vm_compute. done. Qed.

Example retry_exhausted :
  let run := Btc.request_with_retry Samples.down_session "u" in
  Btc.outcome run
    = Raise (RuntimeErrorFrom "Request failed after 5 retries: u" Timeout)
  /\ Btc.calls run = 5%nat /\ Btc.sleeps run = [1; 2; 3; 4]%nat.
Proof. vm_compute. done. Qed.

(** ** Sorting by a key *)

Section sort_facts.
Context {A : Type} (key : A -> Z).

Abbreviation le_key := (fun a b : A => key a <= key b).
Abbreviation class k := (fun a : A => key a = k).

Lemma filter_insert_key (k : Z) (x : A) (l : list A) :
  filter (class k) (insert_key key x l) = filter (class k) (x :: l).
Proof.
  induction l as [| y l IH]; cbn [insert_key]; [done |].
  case_bool_decide as Hle; [done |].
  rewrite filter_cons, IH, !filter_cons.
  destruct (decide (key y = k)), (decide (key x = k)); try done. lia.
Qed.

Lemma sort_key_classes (k : Z) (l : list A) :
  filter (class k) (sort_key key l) = filter (class k) l.
Proof.
  induction l as [| x l IH]; [done |].
  change (sort_key key (x :: l)) with (insert_key key x (sort_key key l)).
  by rewrite filter_insert_key, !filter_cons, IH.
Qed.

Lemma elem_of_insert_key (z x : A) (l : list A) :
  z ∈ insert_key key x l <-> z = x \/ z ∈ l.
Proof.
  induction l as [| y l IH]; cbn [insert_key].
  - rewrite list_elem_of_singleton, elem_of_nil. tauto.
  - case_bool_decide; rewrite !elem_of_cons; [tauto |]. rewrite IH. tauto.
Qed.

Lemma insert_key_sorted (x : A) (l : list A) :
  StronglySorted le_key l -> StronglySorted le_key (insert_key key x l).
Proof.
  induction 1 as [| y l Hs IH Hall]; cbn [insert_key].
  - repeat constructor.
  - case_bool_decide as Hle.
    + constructor; [by constructor |]. constructor; [done |].
      eapply Forall_impl; [exact Hall |]. simpl. intros; lia.
    + constructor; [done |]. apply Forall_forall. intros z Hz.
      apply elem_of_insert_key in Hz as [-> | Hz]; [lia |].
      by eapply Forall_forall in Hall.
Qed.

Lemma sort_key_sorted (l : list A) : StronglySorted le_key (sort_key key l).
Proof.
  induction l as [| x l IH]; [constructor |].
  change (sort_key key (x :: l)) with (insert_key key x (sort_key key l)).
  by apply insert_key_sorted.
Qed.


Lemma classes_head_elem (x : A) (a b : list A) :
  (forall k, filter (class k) (x :: a) = filter (class k) b) -> x ∈ b.
Proof.
  intros H. specialize (H (key x)).
  rewrite filter_cons_True in H by done.
  assert (Hx : x ∈ filter (class (key x)) b) by (rewrite <- H; left).
  by apply list_elem_of_filter in Hx as [_ ?].
Qed.

Lemma sorted_classes_eq (a b : list A) :
  StronglySorted le_key a -> StronglySorted le_key b ->
  (forall k, filter (class k) a = filter (class k) b) -> a = b.
Proof.
  intros Ha. revert b. induction Ha as [| x a Ha IH Hxa]; intros b Hb Hcl.
  - destruct b as [| y b]; [done |].
    specialize (Hcl (key y)). rewrite filter_cons_True in Hcl by done. done.
  - destruct Hb as [| y b Hb Hyb].
    + specialize (Hcl (key x)). rewrite filter_cons_True in Hcl by done. done.
    + assert (key y <= key x) as Hyx.
      { pose proof (classes_head_elem x a (y :: b) Hcl) as Hin.
        apply elem_of_cons in Hin as [-> | Hin]; [lia |].
        by eapply Forall_forall in Hyb. }
      assert (key x <= key y) as Hxy.
      { pose proof (classes_head_elem y b (x :: a) (fun k => eq_sym (Hcl k))) as Hin.
        apply elem_of_cons in Hin as [-> | Hin]; [lia |].
        by eapply Forall_forall in Hxa. }
      pose proof (Hcl (key x)) as H0.
      rewrite !filter_cons_True in H0 by (simpl; lia).
      injection H0 as -> H0. f_equal. apply IH; [done |].
      intros k. specialize (Hcl k). rewrite !filter_cons in Hcl.
      destruct (decide (key y = k)); [by injection Hcl | done].
Qed.

End sort_facts.

(** ** The UTXO replay against its specification *)

Lemma eligible_loop_filter (cutoff : Z) (l acc : list Btc.Tx) :
  foldl (fun eligible tx =>
           match Btc.tx_block_time tx with
           | Some bt => if bool_decide (bt <= cutoff) then eligible ++ [tx] else eligible
           | None => eligible
           end) acc l
  = acc ++ List.filter (Btc.retained cutoff) l.
Proof.
  revert acc. induction l as [| tx l IH]; intros acc; simpl.
  - by rewrite app_nil_r.
  - rewrite IH. unfold Btc.retained.
    destruct (Btc.tx_block_time tx) as [bt |]; [| done].
    destruct (bool_decide (bt <= cutoff)); [| done].
    by rewrite <- app_assoc.
Qed.

Lemma eligible_txs_retained (cutoff : Z) (history : list Btc.Tx) :
  Btc.eligible_txs cutoff history = List.filter (Btc.retained cutoff) history.
Proof. unfold Btc.eligible_txs. by rewrite eligible_loop_filter. Qed.

Lemma spend_spent_key (address : string) (m : gmap (string * Z) Z) (i : Btc.TxIn) :
  Btc.spend address m i =
    match Btc.spent_key address i with
    | Some k => delete k m
    | None => m
    end.
Proof.
  unfold Btc.spend, Btc.spent_key.
  destruct (Btc.prevout i) as [prev |]; simpl; [| done].
  case_bool_decide; [| done].
  by destruct (Btc.vin_txid i), (Btc.vin_vout i).
Qed.

Lemma filter_not_spent_cons (k : string * Z) (ks : list (string * Z))
    (m : gmap (string * Z) Z) :
  filter (fun kv : (string * Z) * Z => kv.1 ∉ k :: ks) m
  = filter (fun kv : (string * Z) * Z => kv.1 ∉ ks) (delete k m).
Proof.
  apply map_eq. intros j. apply option_eq. intros v.
  rewrite !map_lookup_filter_Some, lookup_delete_Some, not_elem_of_cons.
  simpl. intuition congruence.
Qed.

Lemma spend_loop_filter (address : string) (vins : list Btc.TxIn)
    (m : gmap (string * Z) Z) :
  foldl (Btc.spend address) m vins
  = filter (fun kv : (string * Z) * Z => kv.1 ∉ omap (Btc.spent_key address) vins) m.
Proof.
  revert m. induction vins as [| i vins IH]; intros m; simpl.
  - symmetry. apply map_filter_id. intros j v _. apply not_elem_of_nil.
  - rewrite IH, spend_spent_key.
    destruct (Btc.spent_key address i) as [k |]; [| done].
    by rewrite filter_not_spent_cons.
Qed.

Lemma paid_output_key (address t : string) (o : Z * Btc.TxOut)
    (kv : (string * Z) * Z) :
  Btc.paid_output address t o = Some kv -> kv.1 = (t, o.1).
Proof.
  unfold Btc.paid_output. case_bool_decide; [| done]. by intros [= <-].
Qed.

Lemma paid_keys_indices (address t : string) (ios : list (Z * Btc.TxOut))
    (k : string * Z) :
  k ∈ (omap (Btc.paid_output address t) ios).*1 -> k.2 ∈ ios.*1.
Proof.
  intros (kv & -> & Hkv)%list_elem_of_fmap.
  apply list_elem_of_omap in Hkv as (o & Ho & Hp).
  apply paid_output_key in Hp. rewrite Hp. simpl.
  apply list_elem_of_fmap. by exists o.
Qed.

Lemma receive_loop_union (address t : string) (ios : list (Z * Btc.TxOut))
    (m : gmap (string * Z) Z) :
  NoDup ios.*1 ->
  foldl (Btc.receive address t) m ios
  = list_to_map (omap (Btc.paid_output address t) ios) ∪ m.
Proof.
  revert m. induction ios as [| o ios IH]; intros m Hnd.
  - simpl. by rewrite (left_id ∅ (∪)).
  - rewrite fmap_cons in Hnd. apply NoDup_cons in Hnd as [Hfresh Hnd].
    cbn [foldl]. rewrite IH by done.
    assert (Hom : omap (Btc.paid_output address t) (o :: ios)
                  = match Btc.paid_output address t o with
                    | Some kv => kv :: omap (Btc.paid_output address t) ios
                    | None => omap (Btc.paid_output address t) ios
                    end) by reflexivity.
    rewrite Hom. unfold Btc.receive, Btc.paid_output.
    case_bool_decide; [| done].
    rewrite list_to_map_cons, <- insert_union_l. symmetry. apply insert_union_r.
    apply not_elem_of_list_to_map_1. intros Hin.
    apply paid_keys_indices in Hin. done.
Qed.

Lemma enumerate_indices {A} (l : list A) :
  (Btc.enumerate l).*1 = Z.of_nat <$> seq 0 (length l).
Proof.
  unfold Btc.enumerate. rewrite fmap_imap.
  apply (imap_seq_0 l Z.of_nat).
Qed.

Lemma enumerate_NoDup {A} (l : list A) : NoDup (Btc.enumerate l).*1.
Proof.
  rewrite enumerate_indices. apply NoDup_fmap_2; [| apply NoDup_seq].
  intros x y. lia.
Qed.

Lemma apply_tx_reference (address : string) (m : gmap (string * Z) Z)
    (tx : Btc.Tx) :
  Btc.apply_tx address m tx = Btc.reference_step address m tx.
Proof.
  unfold Btc.apply_tx, Btc.reference_step, Btc.paid_outputs, Btc.spent_keys.
  rewrite receive_loop_union by apply enumerate_NoDup.
  by rewrite spend_loop_filter.
Qed.

Lemma replay_reference (address : string) (txs : list Btc.Tx) :
  Btc.replay address txs = Btc.reference_replay address txs.
Proof.
  unfold Btc.replay, Btc.reference_replay. generalize (∅ : gmap (string * Z) Z).
  induction txs as [| tx txs IH]; intros m; simpl; [done |].
  by rewrite apply_tx_reference, IH.
Qed.

Lemma balance_of_history_reference (address : string) (cutoff : Z)
    (history : list Btc.Tx) :
  Btc.balance_of_history address cutoff history
  = Btc.reference_balance address cutoff history.
Proof.
  unfold Btc.balance_of_history, Btc.reference_balance.
  by rewrite eligible_txs_retained, replay_reference.
Qed.


(** ** The replay and its record of spends *)

Lemma spend_traced_live (address : string) (st : Btc.Traced) (i : Btc.TxIn) :
  Btc.live (Btc.spend_traced address st i) = Btc.spend address (Btc.live st) i.
Proof.
  unfold Btc.spend_traced, Btc.spend.
  destruct (Btc.prevout i); [| done]. case_bool_decide; [| done].
  by destruct (Btc.vin_txid i), (Btc.vin_vout i).
Qed.

Lemma spend_loop_traced_live (address : string) (vins : list Btc.TxIn)
    (st : Btc.Traced) :
  Btc.live (foldl (Btc.spend_traced address) st vins)
  = foldl (Btc.spend address) (Btc.live st) vins.
Proof.
  revert st. induction vins as [| i vins IH]; intros st; simpl; [done |].
  by rewrite IH, spend_traced_live.
Qed.

Lemma receive_loop_traced_live (address t : string) (ios : list (Z * Btc.TxOut))
    (st : Btc.Traced) :
  Btc.live (foldl (Btc.receive_traced address t) st ios)
  = foldl (Btc.receive address t) (Btc.live st) ios.
Proof.
  revert st. induction ios as [| o ios IH]; intros st; simpl; [done |].
  by rewrite IH.
Qed.

Lemma apply_tx_traced_live (address : string) (st : Btc.Traced) (tx : Btc.Tx) :
  Btc.live (Btc.apply_tx_traced address st tx)
  = Btc.apply_tx address (Btc.live st) tx.
Proof.
  unfold Btc.apply_tx_traced, Btc.apply_tx.
  by rewrite receive_loop_traced_live, spend_loop_traced_live.
Qed.

Lemma replay_loop_traced_live (address : string) (txs : list Btc.Tx)
    (st : Btc.Traced) :
  Btc.live (foldl (Btc.apply_tx_traced address) st txs)
  = foldl (Btc.apply_tx address) (Btc.live st) txs.
Proof.
  revert st. induction txs as [| tx txs IH]; intros st; simpl; [done |].
  by rewrite IH, apply_tx_traced_live.
Qed.

(** Dropping the record gives back the replay of the reader. *)
Lemma replay_traced_live (address : string) (txs : list Btc.Tx) :
  Btc.live (Btc.replay_traced address txs) = Btc.replay address txs.
Proof. apply replay_loop_traced_live. Qed.

Lemma spend_traced_log (address : string) (st : Btc.Traced) (i : Btc.TxIn) :
  Btc.spent_log (Btc.spend_traced address st i)
  = Btc.spent_log st ++ option_list (Btc.spent_key address i).
Proof.
  unfold Btc.spend_traced, Btc.spent_key.
  destruct (Btc.prevout i); simpl; [| by rewrite app_nil_r].
  case_bool_decide; [| by rewrite app_nil_r].
  destruct (Btc.vin_txid i), (Btc.vin_vout i); simpl; by rewrite ?app_nil_r.
Qed.

Lemma omap_cons_option {A B} (f : A -> option B) (x : A) (l : list A) :
  omap f (x :: l) = option_list (f x) ++ omap f l.
Proof. simpl. by destruct (f x). Qed.

Lemma spend_loop_traced_log (address : string) (vins : list Btc.TxIn)
    (st : Btc.Traced) :
  Btc.spent_log (foldl (Btc.spend_traced address) st vins)
  = Btc.spent_log st ++ omap (Btc.spent_key address) vins.
Proof.
  revert st. induction vins as [| i vins IH]; intros st.
  - by rewrite app_nil_r.
  - cbn [foldl]. by rewrite IH, spend_traced_log, omap_cons_option, app_assoc.
Qed.

Lemma receive_loop_traced_log (address t : string) (ios : list (Z * Btc.TxOut))
    (st : Btc.Traced) :
  Btc.spent_log (foldl (Btc.receive_traced address t) st ios) = Btc.spent_log st.
Proof.
  revert st. induction ios as [| o ios IH]; intros st; simpl; [done |].
  by rewrite IH.
Qed.

Lemma apply_tx_traced_log (address : string) (st : Btc.Traced) (tx : Btc.Tx) :
  Btc.spent_log (Btc.apply_tx_traced address st tx)
  = Btc.spent_log st ++ Btc.spent_keys address tx.
Proof.
  unfold Btc.apply_tx_traced, Btc.spent_keys.
  by rewrite receive_loop_traced_log, spend_loop_traced_log.
Qed.

Lemma replay_loop_traced_log (address : string) (txs : list Btc.Tx)
    (st : Btc.Traced) :
  Btc.spent_log (foldl (Btc.apply_tx_traced address) st txs)
  = Btc.spent_log st ++ (txs ≫= Btc.spent_keys address).
Proof.
  revert st. induction txs as [| tx txs IH]; intros st.
  - by rewrite app_nil_r.
  - cbn [foldl]. rewrite IH, apply_tx_traced_log.
    change ((tx :: txs) ≫= Btc.spent_keys address)
      with (Btc.spent_keys address tx ++ (txs ≫= Btc.spent_keys address)).
    by rewrite app_assoc.
Qed.

(** The record holds the keys that the inputs of the tracked address name,
    in the order of the replay. *)
Lemma replay_traced_log (address : string) (txs : list Btc.Tx) :
  Btc.spent_log (Btc.replay_traced address txs) = txs ≫= Btc.spent_keys address.
Proof. apply replay_loop_traced_log. Qed.

Lemma spend_None (address : string) (m : gmap (string * Z) Z) (i : Btc.TxIn)
    (k : string * Z) :
  m !! k = None -> Btc.spend address m i !! k = None.
Proof.
  intros Hk. unfold Btc.spend.
  destruct (Btc.prevout i); [| done]. case_bool_decide; [| done].
  destruct (Btc.vin_txid i), (Btc.vin_vout i); try done.
  apply lookup_delete_None. by right.
Qed.

Lemma spend_loop_None (address : string) (vins : list Btc.TxIn)
    (m : gmap (string * Z) Z) (k : string * Z) :
  m !! k = None -> foldl (Btc.spend address) m vins !! k = None.
Proof.
  revert m. induction vins as [| i vins IH]; intros m Hk; simpl; [done |].
  by apply IH, spend_None.
Qed.

Lemma spend_named_key (address : string) (m : gmap (string * Z) Z) (i : Btc.TxIn)
    (k : string * Z) :
  Btc.spent_key address i = Some k -> Btc.spend address m i !! k = None.
Proof. intros Hk. rewrite spend_spent_key, Hk. apply lookup_delete_eq. Qed.

(** After the spend loop none of the keys its inputs name is live. *)
Lemma spend_loop_spent (address : string) (vins : list Btc.TxIn)
    (m : gmap (string * Z) Z) (k : string * Z) :
  k ∈ omap (Btc.spent_key address) vins ->
  foldl (Btc.spend address) m vins !! k = None.
Proof.
  revert m. induction vins as [| i vins IH]; intros m Hk.
  - by apply elem_of_nil in Hk.
  - rewrite omap_cons_option in Hk. cbn [foldl].
    apply elem_of_app in Hk as [Hk | Hk]; [| by apply IH].
    destruct (Btc.spent_key address i) as [k' |] eqn:Hi; simpl in Hk.
    + apply list_elem_of_singleton in Hk as ->.
      by apply spend_loop_None, spend_named_key.
    + by apply elem_of_nil in Hk.
Qed.

(** The receive loop of a transaction touches the keys of that transaction
    only. *)
Lemma receive_loop_other (address t : string) (ios : list (Z * Btc.TxOut))
    (m : gmap (string * Z) Z) (k : string * Z) :
  k.1 <> t -> foldl (Btc.receive address t) m ios !! k = m !! k.
Proof.
  intros Hk. revert m. induction ios as [| o ios IH]; intros m; simpl; [done |].
  rewrite IH. unfold Btc.receive. case_bool_decide; [| done].
  apply lookup_insert_ne. intros <-. done.
Qed.

Lemma apply_tx_traced_inv (address : string) (tx : Btc.Tx) (rest : list Btc.Tx)
    (st : Btc.Traced) :
  Forall (fun k => k.1 ∉ Btc.txid <$> tx :: rest) (Btc.spent_keys address tx) ->
  Btc.traced_inv (tx :: rest) st ->
  Btc.traced_inv rest (Btc.apply_tx_traced address st tx).
Proof.
  intros Hnew Hinv k Hk.
  rewrite apply_tx_traced_log in Hk.
  assert (Hid : k.1 ∉ Btc.txid <$> tx :: rest).
  { apply elem_of_app in Hk as [Hk | Hk]; [by apply Hinv |].
    by eapply Forall_forall in Hnew. }
  rewrite fmap_cons in Hid. apply not_elem_of_cons in Hid as [Hne Hrest].
  split; [| done].
  rewrite apply_tx_traced_live. unfold Btc.apply_tx.
  rewrite receive_loop_other by done.
  apply elem_of_app in Hk as [Hk | Hk].
  - apply spend_loop_None. by apply Hinv.
  - by apply spend_loop_spent.
Qed.

Lemma replay_loop_inv (address : string) (txs : list Btc.Tx) (st : Btc.Traced) :
  Btc.spends_follow address txs = true -> Btc.traced_inv txs st ->
  Btc.no_double_spend (foldl (Btc.apply_tx_traced address) st txs).
Proof.
  revert st. induction txs as [| tx txs IH]; intros st Hord Hinv.
  - intros k Hk. by apply Hinv.
  - cbn [Btc.spends_follow] in Hord. apply andb_true_iff in Hord as [Hnew Hord].
    apply bool_decide_eq_true in Hnew. cbn [foldl].
    apply IH; [done |]. by apply apply_tx_traced_inv.
Qed.

(** When every spend comes after the output it names, no key that a spend
    named is live at the end. *)
Lemma replay_traced_no_double_spend (address : string) (txs : list Btc.Tx) :
  Btc.spends_follow address txs = true ->
  Btc.no_double_spend (Btc.replay_traced address txs).
Proof.
  intros Hord. apply replay_loop_inv; [done |].
  intros k Hk. by apply elem_of_nil in Hk.
Qed.

Lemma spend_nonneg (address : string) (m : gmap (string * Z) Z) (i : Btc.TxIn) :
  Btc.nonneg_values m -> Btc.nonneg_values (Btc.spend address m i).
Proof.
  intros Hm. unfold Btc.spend.
  destruct (Btc.prevout i); [| done]. case_bool_decide; [| done].
  destruct (Btc.vin_txid i), (Btc.vin_vout i); try done.
  by apply map_Forall_delete.
Qed.

Lemma receive_nonneg (address t : string) (m : gmap (string * Z) Z)
    (o : Z * Btc.TxOut) :
  0 <= default 0 (Btc.value o.2) -> Btc.nonneg_values m ->
  Btc.nonneg_values (Btc.receive address t m o).
Proof.
  intros Ho Hm. unfold Btc.receive. case_bool_decide; [| done].
  by apply map_Forall_insert_2.
Qed.

Lemma elem_of_enumerate {A} (l : list A) (o : Z * A) :
  o ∈ Btc.enumerate l -> o.2 ∈ l.
Proof.
  unfold Btc.enumerate. intros (i & x & -> & Hx)%elem_of_lookup_imap.
  by eapply list_elem_of_lookup_2.
Qed.

Lemma apply_tx_nonneg (address : string) (m : gmap (string * Z) Z) (tx : Btc.Tx) :
  Btc.nonneg_outputs tx -> Btc.nonneg_values m ->
  Btc.nonneg_values (Btc.apply_tx address m tx).
Proof.
  intros Htx Hm. unfold Btc.apply_tx.
  assert (Hspent : Btc.nonneg_values (foldl (Btc.spend address) m (Btc.vin tx))).
  { revert m Hm. induction (Btc.vin tx) as [| i vins IH]; intros m Hm; simpl;
      [done |]. apply IH. by apply spend_nonneg. }
  assert (Hall : Forall (fun o : Z * Btc.TxOut => 0 <= default 0 (Btc.value o.2))
                   (Btc.enumerate (Btc.vout tx))).
  { apply Forall_forall. intros o Ho%elem_of_enumerate.
    unfold Btc.nonneg_outputs in Htx. by eapply Forall_forall in Htx. }
  revert Hspent. generalize (foldl (Btc.spend address) m (Btc.vin tx)).
  induction Hall as [| o ios Ho _ IH]; intros m' Hm'; simpl; [done |].
  apply IH. by apply receive_nonneg.
Qed.

Lemma replay_nonneg (address : string) (txs : list Btc.Tx) :
  Forall Btc.nonneg_outputs txs -> Btc.nonneg_values (Btc.replay address txs).
Proof.
  intros Hall. unfold Btc.replay.
  assert (H0 : Btc.nonneg_values (∅ : gmap (string * Z) Z)) by apply map_Forall_empty.
  revert H0. generalize (∅ : gmap (string * Z) Z).
  induction Hall as [| tx txs Htx _ IH]; intros m Hm; simpl; [done |].
  apply IH. by apply apply_tx_nonneg.
Qed.

Lemma sum_values_nonneg (m : gmap (string * Z) Z) :
  Btc.nonneg_values m -> 0 <= Btc.sum_values m.
Proof.
  unfold Btc.sum_values, Btc.nonneg_values.
  apply (map_fold_weak_ind
           (fun r (m : gmap (string * Z) Z) =>
              map_Forall (fun _ v => 0 <= v) m -> 0 <= r)).
  - done.
  - intros k v m' r Hk IH Hall.
    apply map_Forall_insert in Hall as [Hv Hall]; [| done].
    specialize (IH Hall). lia.
Qed.

Lemma insert_key_Permutation {A} (key : A -> Z) (x : A) (l : list A) :
  insert_key key x l ≡ₚ x :: l.
Proof.
  induction l as [| y l IH]; cbn [insert_key]; [done |].
  case_bool_decide; [done |]. rewrite IH. apply Permutation_swap.
Qed.

Lemma sort_key_Permutation {A} (key : A -> Z) (l : list A) :
  sort_key key l ≡ₚ l.
Proof.
  induction l as [| x l IH]; [done |].
  change (sort_key key (x :: l)) with (insert_key key x (sort_key key l)).
  by rewrite insert_key_Permutation, IH.
Qed.

(** C9 at two transactions of one block: the explorer lists tb, which
    spends the output of ta, before ta. Both are confirmed at the same time,
    so the sort leaves them in that order; the [pop] for ("ta", 0) finds
    nothing, then ta assigns the key. The ids are distinct, the values
    nonnegative and the order ascending, and yet the output that tb spent
    is live at the end and counted: the balance is 600, also for the
    reader run against an explorer that serves the two. Listed the other
    way round the same two transactions give 0. *)
Theorem utxo_spend_before_output :
  let eligible := sort_key Btc.sort_time (Btc.eligible_txs 150 Samples.history_block) in
  let st := Btc.replay_traced "A" eligible in
  eligible = [Samples.tb; Samples.ta]
  /\ NoDup (Btc.txid <$> eligible)
  /\ Forall Btc.nonneg_outputs eligible
  /\ StronglySorted (fun a b => Btc.sort_time a <= Btc.sort_time b) eligible
  /\ Btc.spent_log st = [("ta", 0)]
  /\ Btc.live st !! ("ta", 0) = Some 600
  /\ ~ Btc.no_double_spend st
  /\ Btc.balance_of_history "A" 150 Samples.history_block = 600
  /\ Btc.btc_balance_at_timestamp (Btc.serve_txs Samples.history_block 25 "A")
       "A" 150 200 = Ok 600
  /\ Btc.balance_of_history "A" 150 [Samples.ta; Samples.tb] = 0.
Proof.
  assert (Hel : sort_key Btc.sort_time (Btc.eligible_txs 150 Samples.history_block)
                = [Samples.tb; Samples.ta]) by (by vm_compute).
  assert (Hlog : Btc.spent_log (Btc.replay_traced "A" [Samples.tb; Samples.ta])
                 = [("ta", 0)]) by (by vm_compute).
  assert (Hlive : Btc.live (Btc.replay_traced "A" [Samples.tb; Samples.ta])
                  !! ("ta", 0) = Some 600) by (by vm_compute).
  cbv zeta. rewrite Hel. split_and!.
  - done.
  - repeat constructor; rewrite ?elem_of_cons, ?elem_of_nil; intuition discriminate.
  - repeat constructor; vm_compute; discriminate.
  - rewrite <- Hel. apply sort_key_sorted.
  - exact Hlog.
  - exact Hlive.
  - intros Hno. specialize (Hno ("ta", 0)).
    rewrite Hlog, Hlive in Hno. specialize (Hno ltac:(left)). discriminate.
  - by vm_compute.
  - by vm_compute.
  - by vm_compute.
Qed.

(** The replay when every spend comes after the output it names: the
    record of the traced replay is the list of the keys that the inputs of
    the tracked address name and its live set is that of the reader; no key
    a spend named is live at the end; and for a history whose eligible
    transactions, once sorted, are in such an order, the balance is the sum
    of the live values, at least 0 when no output value is negative. *)
Theorem utxo_replay_in_order :
  (forall address txs,
     Btc.live (Btc.replay_traced address txs) = Btc.replay address txs
     /\ Btc.spent_log (Btc.replay_traced address txs) = txs ≫= Btc.spent_keys address)
  /\ (forall address txs,
        Btc.spends_follow address txs = true ->
        Btc.no_double_spend (Btc.replay_traced address txs))
  /\ (forall address txs,
        Forall Btc.nonneg_outputs txs -> 0 <= Btc.sum_values (Btc.replay address txs))
  /\ (forall address cutoff history,
        let eligible := sort_key Btc.sort_time (Btc.eligible_txs cutoff history) in
        let st := Btc.replay_traced address eligible in
        Forall Btc.nonneg_outputs history ->
        Btc.spends_follow address eligible = true ->
        StronglySorted (fun a b => Btc.sort_time a <= Btc.sort_time b) eligible
        /\ Btc.no_double_spend st
        /\ Btc.balance_of_history address cutoff history
           = Btc.sum_values (Btc.live st)
        /\ 0 <= Btc.balance_of_history address cutoff history).
Proof.
  split_and!.
  - intros address txs. split; [apply replay_traced_live | apply replay_traced_log].
  - apply replay_traced_no_double_spend.
  - intros address txs Hall. by apply sum_values_nonneg, replay_nonneg.
  - intros address cutoff history eligible st Hall Hord.
    assert (Hperm : eligible ≡ₚ Btc.eligible_txs cutoff history)
      by apply sort_key_Permutation.
    split_and!.
    + apply sort_key_sorted.
    + by apply replay_traced_no_double_spend.
    + unfold st. by rewrite replay_traced_live.
    + apply sum_values_nonneg, replay_nonneg.
      fold eligible. rewrite Hperm, eligible_txs_retained.
      apply Forall_forall. intros tx Htx%list_elem_of_In%filter_In.
      destruct Htx as [Htx%list_elem_of_In _]. by eapply Forall_forall in Hall.
Qed.

(** The history of A at cutoff 250: tx2 spends the output of tx1 after tx1
    has paid it. *)
Lemma utxo_replay_in_order_witness :
  let eligible := sort_key Btc.sort_time (Btc.eligible_txs 250 Samples.history_A) in
  let st := Btc.replay_traced "A" eligible in
  Btc.no_double_spend st
  /\ Btc.spent_log st = [("tx1", 0)]
  /\ Btc.balance_of_history "A" 250 Samples.history_A = Btc.sum_values (Btc.live st)
  /\ 0 <= Btc.balance_of_history "A" 250 Samples.history_A.
Proof.
  destruct (proj2 (proj2 (proj2 utxo_replay_in_order)) "A" 250 Samples.history_A)
    as (_ & Hnds & Hbal & Hpos).
  - repeat constructor; vm_compute; discriminate.
  - by vm_compute.
  - split_and!; [exact Hnds | by vm_compute | exact Hbal | exact Hpos].
Defined.

(** The order matters both ways: the two transactions of one block do not
    satisfy it when tb is listed first, and neither does a history in which
    a transaction id comes back after its output was spent; there too the
    key is both in the record and live. *)
Example utxo_replay_out_of_order :
  Btc.spends_follow "A" [Samples.tb; Samples.ta] = false
  /\ Btc.spends_follow "A" [Samples.ta; Samples.tb] = true
  /\ (let eligible :=
        sort_key Btc.sort_time (Btc.eligible_txs 1000 Samples.history_repeat) in
      let st := Btc.replay_traced "A" eligible in
      Btc.sort_time <$> eligible = [100; 200; 300]
      /\ Btc.spends_follow "A" eligible = false
      /\ Btc.spent_log st = [("tx1", 0)]
      /\ Btc.live st !! ("tx1", 0) = Some 500).
Proof. by vm_compute. Qed.

(** The reader run end to end on an explorer that serves the history of A
    one transaction per page. *)
Example btc_balance_sample :
  Btc.btc_balance_at_timestamp Samples.explorer_A "A" 150 200 = Ok 500
  /\ Btc.btc_balance_at_timestamp Samples.explorer_A "A" 250 200 = Ok 200
  /\ Btc.btc_balance_at_timestamp Samples.explorer_A "A" 99 200 = Ok 0.
Proof. by vm_compute. Qed.

(** ** The paging loops *)

Section fetch_facts.
Variable esplora_get_json : nat -> string -> res (list Btc.Tx).

Abbreviation fetch_loop := (Btc.fetch_loop esplora_get_json).

Lemma get_address_txs_path (n : nat) (address : string) (last_seen : option string) :
  exists path, Btc.get_address_txs esplora_get_json n address last_seen
               = esplora_get_json n path.
Proof.
  unfold Btc.get_address_txs. destruct last_seen as [l |]; [| by eexists].
  destruct (negb (String.eqb l EmptyString)); by eexists.
Qed.

Lemma fetch_loop_fetches (iters n : nat) (address : string)
    (last_seen : option string) (all_txs : list Btc.Tx) :
  (n <= Btc.fetches (fetch_loop iters n address last_seen all_txs) <= n + iters)%nat.
Proof.
  revert n last_seen all_txs.
  induction iters as [| k IH]; intros n last_seen all_txs; simpl; [lia |].
  destruct (Btc.get_address_txs esplora_get_json n address last_seen)
    as [page | e]; simpl; [| lia].
  destruct (last page) as [t |]; simpl; [| lia].
  specialize (IH (S n) (Some (Btc.txid t)) (all_txs ++ page)). lia.
Qed.

Lemma fetch_loop_no_error (iters n : nat) (address : string)
    (last_seen : option string) (all_txs : list Btc.Tx) :
  (forall m path, exists page, esplora_get_json m path = Ok page) ->
  exists txs, Btc.history (fetch_loop iters n address last_seen all_txs) = Ok txs.
Proof.
  intros Hok. revert n last_seen all_txs.
  induction iters as [| k IH]; intros n last_seen all_txs; simpl; [by eexists |].
  destruct (get_address_txs_path n address last_seen) as [path ->].
  destruct (Hok n path) as [page ->].
  destruct (last page) as [t |]; simpl; [apply IH | by eexists].
Qed.

Lemma fetch_loop_capped (iters n : nat) (address : string)
    (last_seen : option string) (all_txs : list Btc.Tx) :
  (forall m path, exists page, esplora_get_json m path = Ok page /\ page <> []) ->
  Btc.fetches (fetch_loop iters n address last_seen all_txs) = (n + iters)%nat
  /\ exists txs, Btc.history (fetch_loop iters n address last_seen all_txs) = Ok txs
                 /\ (length all_txs + iters <= length txs)%nat.
Proof.
  intros Hok. revert n last_seen all_txs.
  induction iters as [| k IH]; intros n last_seen all_txs; simpl.
  - split; [lia |]. exists all_txs. split; [done | lia].
  - destruct (get_address_txs_path n address last_seen) as [path ->].
    destruct (Hok n path) as (page & -> & Hne).
    destruct (last page) as [t |] eqn:Hlast.
    + destruct (IH (S n) (Some (Btc.txid t)) (all_txs ++ page)) as (Hf & txs & Hh & Hlen).
      split; [lia |]. exists txs. split; [done |].
      rewrite length_app in Hlen. destruct page; [done |]. simpl in Hlen. lia.
    + apply last_None in Hlast. done.
Qed.
End fetch_facts.

Section search_facts.
Variable getSignaturesForAddress :
  string -> nat -> Z -> option string -> res (list Solana.SigInfo).
Variable address : string.
Variable ts_unix : Z.
Variable page_limit : Z.

Abbreviation search fuel n before :=
  (Solana.search_loop getSignaturesForAddress fuel n address ts_unix page_limit before).
Abbreviation before_at := (Solana.before_at getSignaturesForAddress address page_limit).
Abbreviation page_at := (Solana.page_at getSignaturesForAddress address page_limit).
Abbreviation goes_on :=
  (Solana.goes_on getSignaturesForAddress address ts_unix page_limit).
Abbreviation received := (Solana.received getSignaturesForAddress address page_limit).

Lemma scan_page_find (sigs : list Solana.SigInfo) :
  Solana.scan_page ts_unix sigs
  = Solana.signature <$> List.find (Solana.confirmed_by ts_unix) sigs.
Proof.
  induction sigs as [| s sigs IH]; simpl; [done |].
  unfold Solana.confirmed_by at 1. destruct (Solana.blockTime s) as [bt |]; [| done].
  by destruct (bool_decide (bt <= ts_unix)).
Qed.

Lemma scan_page_app (l1 l2 : list Solana.SigInfo) :
  Solana.scan_page ts_unix (l1 ++ l2)
  = match Solana.scan_page ts_unix l1 with
    | Some s => Some s
    | None => Solana.scan_page ts_unix l2
    end.
Proof.
  induction l1 as [| s l1 IH]; simpl; [done |].
  destruct (Solana.blockTime s) as [bt |]; [| done].
  by destruct (bool_decide (bt <= ts_unix)).
Qed.

Lemma search_goes_on (fuel n : nat) :
  goes_on n -> search (S fuel) n (before_at n) = search fuel (S n) (before_at (S n)).
Proof.
  intros (sigs & Hp & Hne & Hscan). unfold Solana.page_at in Hp.
  cbn [Solana.search_loop Solana.before_at]. rewrite Hp.
  destruct sigs as [| first rest]; [done |]. by rewrite Hscan.
Qed.

Lemma search_skip (N fuel : nat) :
  (forall j, (j < N)%nat -> goes_on j) ->
  search (N + fuel) 0 None = search fuel N (before_at N).
Proof.
  revert fuel. induction N as [| N IH]; intros fuel Hgo; [done |].
  replace (S N + fuel)%nat with (N + S fuel)%nat by lia.
  rewrite IH by (intros; apply Hgo; lia).
  apply search_goes_on, Hgo. lia.
Qed.

Lemma received_no_match (N : nat) :
  (forall j, (j < N)%nat -> goes_on j) ->
  Solana.scan_page ts_unix (received N)
  = match page_at N with
    | Ok sigs => Solana.scan_page ts_unix sigs
    | Raise _ => None
    end.
Proof.
  intros Hgo. destruct N as [| N]; cbn [Solana.received].
  - by destruct (page_at 0).
  - assert (Hprev : Solana.scan_page ts_unix (received N) = None).
    { clear -Hgo. induction N as [| N IH]; cbn [Solana.received].
      - destruct (Hgo 0%nat) as (sigs & -> & _ & Hs); [lia | done].
      - rewrite scan_page_app, IH by (intros; apply Hgo; lia).
        destruct (Hgo (S N)) as (sigs & -> & _ & Hs); [lia | done]. }
    rewrite scan_page_app, Hprev. by destruct (page_at (S N)).
Qed.

(** The search stops at the first page that is empty, holds a signature
    confirmed at or before the cutoff, or fails; it then returns the first
    such signature among all it received, in the order received. *)
Lemma search_stops (N fuel : nat) :
  (forall j, (j < N)%nat -> goes_on j) -> (N < fuel)%nat ->
  Solana.find_last_signature_before_ts getSignaturesForAddress fuel address
    ts_unix page_limit
  = match page_at N with
    | Raise e => Solana.Finished (Raise e)
    | Ok sigs =>
        match sigs, Solana.scan_page ts_unix sigs with
        | _ :: _, None =>
            search (fuel - S N) (S N) (before_at (S N))
        | _, _ => Solana.Finished (Ok (Solana.scan_page ts_unix (received N)))
        end
    end.
Proof.
  intros Hgo Hlt. unfold Solana.find_last_signature_before_ts.
  replace fuel with (N + S (fuel - S N))%nat at 1 by lia.
  rewrite search_skip by done. rewrite received_no_match by done.
  cbn [Solana.search_loop Solana.before_at]. unfold Solana.page_at.
  destruct (getSignaturesForAddress address N page_limit
              (Solana.cfg_before (before_at N))) as [sigs | e]; [| done].
  destruct sigs as [| first rest]; [done |].
  by destruct (Solana.scan_page ts_unix (first :: rest)).
Qed.

Lemma search_never_returns :
  (forall n, goes_on n) ->
  Solana.never_returns getSignaturesForAddress address ts_unix page_limit.
Proof.
  intros Hgo fuel. unfold Solana.find_last_signature_before_ts.
  replace fuel with (fuel + 0)%nat by lia. by rewrite search_skip.
Qed.
End search_facts.

Lemma after_signature_last (front : list Solana.SigInfo) (l : Solana.SigInfo)
    (rest : list Solana.SigInfo) :
  NoDup (Solana.signature <$> (front ++ l :: rest)) ->
  Solana.after_signature (Solana.signature l) (front ++ l :: rest) = rest.
Proof.
  induction front as [| a front IH].
  - simpl. by rewrite String.eqb_refl.
  - rewrite <- app_comm_cons, fmap_cons. intros [Ha Hnd]%NoDup_cons.
    cbn [Solana.after_signature].
    destruct (String.eqb_spec (Solana.signature a) (Solana.signature l)) as [Heq | _];
      [| by apply IH].
    exfalso. apply Ha. rewrite Heq. apply list_elem_of_fmap.
    exists l. split; [done |]. apply elem_of_app. right. left.
Qed.

Section serve_facts.
Variable hist : list Solana.SigInfo.
Variable address : string.
Variable ts_unix : Z.
Variable page_limit : Z.
Hypothesis limit_pos : 0 < page_limit.
Hypothesis distinct : NoDup (Solana.signature <$> hist).
Hypothesis nonempty : Forall (fun s => Solana.signature s <> EmptyString) hist.

Lemma serve_page (n : nat) (consumed remaining : list Solana.SigInfo)
    (before : option string) :
  hist = consumed ++ remaining -> Solana.cursor_after consumed before ->
  Solana.serve hist address n page_limit (Solana.cfg_before before)
  = Ok (take (Z.to_nat page_limit) remaining).
Proof using distinct nonempty.
  intros Hh Hcur. unfold Solana.serve. do 2 f_equal.
  destruct before as [b |]; simpl in Hcur.
  - destruct Hcur as (front & l & -> & ->).
    assert (Hl : Solana.signature l <> EmptyString).
    { eapply Forall_forall in nonempty; [exact nonempty |]. rewrite Hh.
      rewrite !elem_of_app. left. right. left. }
    simpl. destruct (String.eqb_spec (Solana.signature l) EmptyString) as [? | _];
      [done |]. simpl.
    rewrite Hh, <- app_assoc. simpl. apply after_signature_last.
    by rewrite Hh, <- app_assoc in distinct.
  - by subst consumed.
Qed.

Lemma serve_search (fuel n : nat) (consumed remaining : list Solana.SigInfo)
    (before : option string) :
  hist = consumed ++ remaining -> Solana.scan_page ts_unix consumed = None ->
  Solana.cursor_after consumed before -> (length remaining < fuel)%nat ->
  Solana.search_loop (Solana.serve hist) fuel n address ts_unix page_limit before
  = Solana.Finished (Ok (Solana.scan_page ts_unix hist)).
Proof using limit_pos distinct nonempty.
  revert n consumed remaining before.
  induction fuel as [| fuel IH]; intros n consumed remaining before Hh Hnone Hcur Hlen;
    [lia |].
  cbn [Solana.search_loop]. rewrite (serve_page n consumed remaining) by done.
  destruct (Z.to_nat page_limit) as [| L] eqn:HL; [lia |].
  destruct remaining as [| r rem].
  - simpl. by rewrite Hh, app_nil_r, Hnone.
  - cbn [take].
    assert (Hsplit : hist = (consumed ++ r :: take L rem) ++ drop L rem).
    { by rewrite <- app_assoc, <- app_comm_cons, take_drop. }
    destruct (Solana.scan_page ts_unix (r :: take L rem)) as [s |] eqn:Hs.
    + by rewrite Hsplit, !scan_page_app, Hnone, Hs.
    + apply (IH (S n) (consumed ++ r :: take L rem) (drop L rem)).
      * done.
      * by rewrite scan_page_app, Hnone.
      * destruct (exists_last (l := r :: take L rem) ltac:(done)) as (front & l & Hl).
        exists (consumed ++ front), l. rewrite Hl, last_last.
        by rewrite <- app_assoc.
      * rewrite length_drop. simpl in Hlen. lia.
Qed.

(** Against a node that serves a fixed history, the search returns the
    first signature of the history confirmed at or before the cutoff, or
    none if there is none. *)
Lemma serve_find_last (fuel : nat) :
  (length hist < fuel)%nat ->
  Solana.find_last_signature_before_ts (Solana.serve hist) fuel address
    ts_unix page_limit
  = Solana.Finished
      (Ok (Solana.signature <$> List.find (Solana.confirmed_by ts_unix) hist)).
Proof using limit_pos distinct nonempty.
  intros Hlen. rewrite <- scan_page_find.
  by apply (serve_search fuel 0%nat [] hist None).
Qed.
End serve_facts.

Lemma never_returns_not_terminates
    (node : string -> nat -> Z -> option string -> res (list Solana.SigInfo))
    (address : string) (ts_unix page_limit : Z) :
  Solana.never_returns node address ts_unix page_limit ->
  ~ Solana.terminates node address ts_unix page_limit.
Proof. intros Hn (fuel & r & Hr). by rewrite Hn in Hr. Qed.

Lemma stops_terminates
    (node : string -> nat -> Z -> option string -> res (list Solana.SigInfo))
    (address : string) (ts_unix page_limit : Z) (N : nat) :
  (forall j, (j < N)%nat -> Solana.goes_on node address ts_unix page_limit j) ->
  ~ Solana.goes_on node address ts_unix page_limit N ->
  Solana.terminates node address ts_unix page_limit.
Proof.
  intros Hgo Hstop. exists (S N).
  rewrite (search_stops node address ts_unix page_limit N (S N)) by (done || lia).
  destruct (Solana.page_at node address page_limit N) as [sigs | e] eqn:Hp;
    [| by eexists].
  destruct sigs as [| first rest]; [by eexists |].
  destruct (Solana.scan_page ts_unix (first :: rest)) eqn:Hs; [by eexists |].
  exfalso. apply Hstop. by exists (first :: rest).
Qed.

(** C6, as the code has it: the UTXO history loop requests at most
    [max_pages] pages whatever the replies, raises nothing of its own, and
    when every page comes back non-empty it stops at the cap and returns
    the pages gathered so far; the Solana signature loop has no cap: it
    finishes when some page is empty, holds a signature confirmed at or
    before the cutoff, or fails (so it does against a node that serves a
    finite history), and it never returns when every page is non-empty
    without such a signature. *)
Theorem paging_loops_termination :
  (forall esplora_get_json address max_pages,
     (Btc.fetches (Btc.fetch_history esplora_get_json address max_pages)
      <= Z.to_nat max_pages)%nat)
  /\ (forall esplora_get_json address,
        (Btc.fetches (Btc.fetch_history esplora_get_json address 200) <= 200)%nat)
  /\ (forall esplora_get_json address max_pages,
        (forall m path, exists page, esplora_get_json m path = Ok page) ->
        exists txs,
          Btc.history (Btc.fetch_history esplora_get_json address max_pages) = Ok txs)
  /\ (forall esplora_get_json address max_pages,
        (forall m path, exists page, esplora_get_json m path = Ok page /\ page <> []) ->
        Btc.fetches (Btc.fetch_history esplora_get_json address max_pages)
          = Z.to_nat max_pages
        /\ exists txs,
             Btc.history (Btc.fetch_history esplora_get_json address max_pages) = Ok txs
             /\ (Z.to_nat max_pages <= length txs)%nat)
  /\ (forall node address ts_unix page_limit N,
        (forall j, (j < N)%nat -> Solana.goes_on node address ts_unix page_limit j) ->
        ~ Solana.goes_on node address ts_unix page_limit N ->
        Solana.terminates node address ts_unix page_limit)
  /\ (forall hist address ts_unix page_limit,
        0 < page_limit -> NoDup (Solana.signature <$> hist) ->
        Forall (fun s => Solana.signature s <> EmptyString) hist ->
        Solana.terminates (Solana.serve hist) address ts_unix page_limit)
  /\ (forall node address ts_unix page_limit,
        (forall n, Solana.goes_on node address ts_unix page_limit n) ->
        Solana.never_returns node address ts_unix page_limit
        /\ ~ Solana.terminates node address ts_unix page_limit).
Proof.
  split_and!.
  - intros. unfold Btc.fetch_history.
    pose proof (fetch_loop_fetches esplora_get_json (Z.to_nat max_pages) 0 address
                  None []). lia.
  - intros. unfold Btc.fetch_history.
    pose proof (fetch_loop_fetches esplora_get_json (Z.to_nat 200) 0 address
                  None []) as H. change (Z.to_nat 200) with 200%nat in *. lia.
  - intros. by apply fetch_loop_no_error.
  - intros esplora address max_pages Hok. unfold Btc.fetch_history.
    destruct (fetch_loop_capped esplora (Z.to_nat max_pages) 0 address None [] Hok)
      as (Hf & txs & Hh & Hlen).
    split; [done |]. exists txs. split; [done |]. simpl in Hlen. lia.
  - apply stops_terminates.
  - intros hist address ts_unix page_limit Hpos Hnd Hne.
    exists (S (length hist)). eexists.
    apply serve_find_last; [done | done | done | lia].
  - intros node address ts_unix page_limit Hgo.
    pose proof (search_never_returns node address ts_unix page_limit Hgo).
    split; [done |]. by apply never_returns_not_terminates.
Qed.

(** The two loops on sample streams: an explorer that never runs out of
    pages is left after [max_pages] requests, with what was gathered; the
    search of the wallet history ends. *)
Lemma paging_loops_termination_witness :
  Btc.fetches (Btc.fetch_history Samples.endless_explorer "A" 7) = 7%nat
  /\ Btc.history (Btc.fetch_history Samples.endless_explorer "A" 3)
     = Ok [Samples.tx1; Samples.tx1; Samples.tx1]
  /\ Solana.terminates Samples.node "W" 250 2.
Proof.
  split_and!.
  - refine (proj1 (proj1 (proj2 (proj2 (proj2 paging_loops_termination)))
                     Samples.endless_explorer "A" 7 _)).
    intros m path. by exists [Samples.tx1].
  - by vm_compute.
  - exists 10%nat. eexists. by vm_compute.
Defined.

(** ** Reading a balance from a transaction *)

Lemma index_of_Some (x : string) (l : list string) (i : nat) :
  Solana.index_of x l = Some i
  <-> l !! i = Some x /\ forall j, (j < i)%nat -> l !! j <> Some x.
Proof.
  revert i. induction l as [| y l IH]; intros i; cbn [Solana.index_of].
  - split; [done | by intros [? _]].
  - destruct (String.eqb_spec y x) as [-> | Hne].
    + split.
      * intros [= <-]. split; [done | intros; lia].
      * intros [_ Hmin]. destruct i as [| i]; [done |].
        exfalso. by apply (Hmin 0%nat); [lia |].
    + destruct i as [| i].
      * split; [by destruct (Solana.index_of x l) | by intros [[= ->] _]].
      * rewrite fmap_Some. split.
        -- intros (i' & Hi' & [= ->]). apply IH in Hi' as [? Hmin].
           split; [done |]. intros [| j] Hj; simpl; [congruence |].
           apply Hmin. lia.
        -- intros [H Hmin]. exists i. split; [| done].
           apply IH. split; [done |]. intros j Hj. apply (Hmin (S j)). lia.
Qed.

Lemma index_of_None (x : string) (l : list string) :
  x ∉ l -> Solana.index_of x l = None.
Proof.
  induction l as [| y l IH]; cbn [Solana.index_of]; [done |].
  intros [Hne Hnot]%not_elem_of_cons.
  destruct (String.eqb_spec y x) as [-> | _]; [done |]. by rewrite IH.
Qed.

Lemma pubkey_at (keys : list Solana.AccountKey) (i : nat) (address : string) :
  map Solana.pubkey_of keys !! i = Some address
  <-> keys !! i = Some (Solana.KeyDict address)
      \/ keys !! i = Some (Solana.KeyStr address).
Proof.
  change (map Solana.pubkey_of keys) with (Solana.pubkey_of <$> keys).
  rewrite list_lookup_fmap.
  destruct (keys !! i) as [[p | s] |]; simpl.
  - split; [intros [= ->]; by left | intros [[= ->] | [=]]; done].
  - split; [intros [= ->]; by right | intros [[=] | [= ->]]; done].
  - split; [done | intros [[=] | [=]]].
Qed.

Lemma pubkey_absent (keys : list Solana.AccountKey) (address : string) :
  address ∉ map Solana.pubkey_of keys
  <-> (Solana.KeyDict address ∉ keys) /\ (Solana.KeyStr address ∉ keys).
Proof.
  change (map Solana.pubkey_of keys) with (Solana.pubkey_of <$> keys).
  rewrite list_elem_of_fmap. split.
  - intros Hnot. split; intros Hin; apply Hnot; eexists; (split; [| exact Hin]); done.
  - intros [Hd Hs] ([p | s'] & -> & Hin); simpl in *; done.
Qed.

(** The wallet is first named at position [idx] of the account keys. *)
Lemma index_of_pubkeys (keys : list Solana.AccountKey) (wallet : string) (idx : nat) :
  Solana.index_of wallet (map Solana.pubkey_of keys) = Some idx
  <-> (keys !! idx = Some (Solana.KeyDict wallet)
       \/ keys !! idx = Some (Solana.KeyStr wallet))
      /\ forall j, (j < idx)%nat ->
           keys !! j <> Some (Solana.KeyDict wallet)
           /\ keys !! j <> Some (Solana.KeyStr wallet).
Proof.
  rewrite index_of_Some, pubkey_at. split; intros [Hat Hmin]; (split; [done |]);
    intros j Hj; specialize (Hmin j Hj).
  - rewrite pubkey_at in Hmin. tauto.
  - rewrite pubkey_at. tauto.
Qed.

(** C5: the search pages backward, sending the last signature of each page
    as the next [before]; as soon as a page is empty or holds a signature
    confirmed at or before the cutoff it returns the first such signature
    among all it has received, newest first ([None] when there is none);
    against a node that serves a finite history of distinct signatures this
    is the first such signature of the whole history. The balance read
    returns the entry of [postBalances] at the first position at which an
    account key is the wallet (as a plain string or as the [pubkey] of a
    dict), and nothing else; it raises when the wallet is not among the
    account keys, when the request fails, when the transaction or one of
    its members [transaction] and [meta] is missing, and ([TypeError]) when
    one of them is [null]. *)
Theorem solana_search_and_balance_read :
  (forall node address ts_unix page_limit N fuel sigs,
     (forall j, (j < N)%nat -> Solana.goes_on node address ts_unix page_limit j) ->
     Solana.page_at node address page_limit N = Ok sigs ->
     sigs = [] \/ Solana.scan_page ts_unix sigs <> None ->
     (N < fuel)%nat ->
     Solana.find_last_signature_before_ts node fuel address ts_unix page_limit
     = Solana.Finished
         (Ok (Solana.signature <$>
                List.find (Solana.confirmed_by ts_unix)
                  (Solana.received node address page_limit N))))
  /\ (forall node address page_limit n first rest,
        Solana.page_at node address page_limit n = Ok (first :: rest) ->
        Solana.before_at node address page_limit (S n)
        = Some (Solana.signature (List.last (first :: rest) first)))
  /\ (forall hist address ts_unix page_limit fuel,
        0 < page_limit -> NoDup (Solana.signature <$> hist) ->
        Forall (fun s => Solana.signature s <> EmptyString) hist ->
        (length hist < fuel)%nat ->
        Solana.find_last_signature_before_ts (Solana.serve hist) fuel address
          ts_unix page_limit
        = Solana.Finished
            (Ok (Solana.signature <$> List.find (Solana.confirmed_by ts_unix) hist)))
  /\ (forall getTransaction wallet signature keys post post_tb pre_tb idx lamports,
        getTransaction signature
          = Ok (Some (Solana.mkTxReply (Solana.Holds (Solana.mkTransaction keys))
                        (Solana.Holds (Solana.mkMeta post post_tb pre_tb)))) ->
        keys !! idx = Some (Solana.KeyDict wallet)
        \/ keys !! idx = Some (Solana.KeyStr wallet) ->
        (forall j, (j < idx)%nat ->
           keys !! j <> Some (Solana.KeyDict wallet)
           /\ keys !! j <> Some (Solana.KeyStr wallet)) ->
        post !! idx = Some lamports ->
        Solana.sol_balance_from_transaction getTransaction wallet signature
        = Ok lamports)
  /\ (forall getTransaction wallet signature lamports,
        Solana.sol_balance_from_transaction getTransaction wallet signature
          = Ok lamports ->
        exists keys post post_tb pre_tb idx,
          getTransaction signature
            = Ok (Some (Solana.mkTxReply (Solana.Holds (Solana.mkTransaction keys))
                          (Solana.Holds (Solana.mkMeta post post_tb pre_tb))))
          /\ (keys !! idx = Some (Solana.KeyDict wallet)
              \/ keys !! idx = Some (Solana.KeyStr wallet))
          /\ (forall j, (j < idx)%nat ->
                keys !! j <> Some (Solana.KeyDict wallet)
                /\ keys !! j <> Some (Solana.KeyStr wallet))
          /\ post !! idx = Some lamports)
  /\ (forall getTransaction wallet signature keys m,
        getTransaction signature
          = Ok (Some (Solana.mkTxReply (Solana.Holds (Solana.mkTransaction keys)) m)) ->
        m <> Solana.Absent ->
        Solana.KeyDict wallet ∉ keys -> Solana.KeyStr wallet ∉ keys ->
        Solana.sol_balance_from_transaction getTransaction wallet signature
        = Raise (RuntimeError Solana.wallet_not_found_msg))
  /\ (forall getTransaction wallet signature e,
        getTransaction signature = Raise e ->
        Solana.sol_balance_from_transaction getTransaction wallet signature
        = Raise e)
  /\ (forall getTransaction wallet signature tx,
        getTransaction signature = Ok tx ->
        (tx = None \/ exists r, tx = Some r /\
           (Solana.transaction r = Solana.Absent \/ Solana.meta r = Solana.Absent)) ->
        Solana.sol_balance_from_transaction getTransaction wallet signature
        = Raise (RuntimeError (Solana.could_not_fetch_msg signature)))
  /\ (forall getTransaction wallet signature m,
        getTransaction signature = Ok (Some (Solana.mkTxReply Solana.Null m)) ->
        m <> Solana.Absent ->
        Solana.sol_balance_from_transaction getTransaction wallet signature
        = Raise TypeError)
  /\ (forall getTransaction wallet signature keys,
        getTransaction signature
          = Ok (Some (Solana.mkTxReply (Solana.Holds (Solana.mkTransaction keys))
                        Solana.Null)) ->
        Solana.KeyDict wallet ∈ keys \/ Solana.KeyStr wallet ∈ keys ->
        Solana.sol_balance_from_transaction getTransaction wallet signature
        = Raise TypeError).
Proof.
  split_and!.
  - intros node address ts_unix page_limit N fuel sigs Hgo Hp Hstop Hlt.
    rewrite (search_stops node address ts_unix page_limit N fuel) by done.
    rewrite Hp, <- scan_page_find.
    destruct sigs as [| first rest]; [done |].
    destruct Hstop as [? | Hs]; [done |].
    by destruct (Solana.scan_page ts_unix (first :: rest)).
  - intros node address page_limit n first rest Hp. unfold Solana.page_at in Hp.
    cbn [Solana.before_at]. by rewrite Hp.
  - intros. by apply serve_find_last.
  - intros getTransaction wallet signature keys post post_tb pre_tb idx lamports
      Hg Hidx Hmin Hpost.
    unfold Solana.sol_balance_from_transaction. rewrite Hg. simpl.
    rewrite (proj2 (index_of_pubkeys keys wallet idx)) by done.
    by rewrite Hpost.
  - intros getTransaction wallet signature lamports.
    unfold Solana.sol_balance_from_transaction.
    destruct (getTransaction signature) as [[[[| | [keys]] [| | [post post_tb pre_tb]]] |] | e];
      simpl; try done;
      destruct (Solana.index_of wallet (map Solana.pubkey_of keys)) as [idx |] eqn:Hi;
      try done.
    destruct (post !! idx) as [l |] eqn:Hl; [| done]. intros [= ->].
    apply index_of_pubkeys in Hi as [Hat Hmin].
    by exists keys, post, post_tb, pre_tb, idx.
  - intros getTransaction wallet signature keys m Hg Hm Hd Hs.
    unfold Solana.sol_balance_from_transaction. rewrite Hg. simpl.
    rewrite index_of_None by (by apply pubkey_absent).
    by destruct m.
  - intros getTransaction wallet signature e Hg.
    unfold Solana.sol_balance_from_transaction. by rewrite Hg.
  - intros getTransaction wallet signature tx Hg Hbad.
    unfold Solana.sol_balance_from_transaction. rewrite Hg. simpl.
    destruct Hbad as [-> | (r & -> & Hr)]; [done |].
    destruct r as [[| | t] [| | m]]; simpl in Hr; destruct Hr; done.
  - intros getTransaction wallet signature m Hg Hm.
    unfold Solana.sol_balance_from_transaction. rewrite Hg. simpl.
    by destruct m.
  - intros getTransaction wallet signature keys Hg Hin.
    unfold Solana.sol_balance_from_transaction. rewrite Hg. simpl.
    destruct (Solana.index_of wallet (map Solana.pubkey_of keys)) as [idx |] eqn:Hi;
      [done |].
    exfalso.
    assert (Hnot : wallet ∉ map Solana.pubkey_of keys).
    { intros Hw. apply list_elem_of_lookup in Hw as [i Hw].
      assert (Hex : exists i', Solana.index_of wallet (map Solana.pubkey_of keys) = Some i').
      { clear -Hw. revert i Hw.
        induction (map Solana.pubkey_of keys) as [| y l IH]; intros i Hw; [done |].
        cbn [Solana.index_of]. destruct (String.eqb_spec y wallet) as [-> | Hne];
          [by eexists |].
        destruct i as [| i]; simpl in Hw; [congruence |].
        destruct (IH i Hw) as [i' ->]. by eexists. }
      destruct Hex as [i' Hi']. congruence. }
    apply pubkey_absent in Hnot as [Hd Hs]. tauto.
Qed.

(** The search and the read on the sample wallet: pages of two, cutoff 250.
    The transaction s1 comes without its metadata. *)
Example solana_search_sample :
  Solana.find_last_signature_before_ts Samples.node 10 "W" 250 2
    = Solana.Finished (Ok (Some "s2"))
  /\ Solana.find_last_signature_before_ts Samples.node 10 "W" 50 2
     = Solana.Finished (Ok None)
  /\ Solana.sol_balance_from_transaction Samples.transactions "W" "s2" = Ok 777
  /\ Solana.sol_balance_from_transaction Samples.transactions "payer" "s2" = Ok 10
  /\ Solana.sol_balance_from_transaction Samples.transactions "Q" "s2"
     = Raise (RuntimeError Solana.wallet_not_found_msg)
  /\ Solana.sol_balance_from_transaction Samples.transactions "W" "zz"
     = Raise (RuntimeError "Could not fetch transaction details for zz")
  /\ Solana.sol_balance_from_transaction Samples.transactions "W" "s1"
     = Raise TypeError
  /\ Solana.sol_balance_from_transaction Samples.transactions "Q" "s1"
     = Raise (RuntimeError Solana.wallet_not_found_msg).
Proof. by vm_compute. Qed.

(** ** Token balances *)

Section token_facts.
Variable rt : Builtins.
Variable node : string -> nat -> Z -> option string -> res (list Solana.SigInfo).
Variable getTransaction : string -> res (option Solana.TxReply).
Variable prices : string -> string -> string -> res Json.
Variable coingecko : string -> string -> res Json.
Variable fuel : nat.
Variable m2tas : gmap string (list string).
Variable ts : Z.
Variable ondate : string.
Variable mint : string.

Abbreviation spl ta :=
  (Solana.spl_balance_at_ts_via_last_tx rt node getTransaction fuel ta mint ts).
Abbreviation token_total :=
  (Solana.token_total rt node getTransaction fuel ts mint).
Abbreviation token_usd_value :=
  (Solana.token_usd_value rt node getTransaction prices coingecko fuel m2tas ts
     ondate mint).

Lemma pick_balance_first_usable (keys : list Solana.AccountKey)
    (token_account : string) (entries : list Solana.TokenBalance) :
  Solana.pick_balance rt (map Solana.pubkey_of keys) token_account mint entries
  = Solana.first_usable rt mint keys token_account entries.
Proof.
  unfold Solana.first_usable.
  induction entries as [| e entries IH]; cbn [Solana.pick_balance]; [done |].
  assert (Hom : omap (Solana.usable_entry keys token_account mint) (e :: entries)
                = match Solana.usable_entry keys token_account mint e with
                  | Some x => x :: omap (Solana.usable_entry keys token_account mint) entries
                  | None => omap (Solana.usable_entry keys token_account mint) entries
                  end) by reflexivity.
  rewrite Hom. clear Hom. unfold Solana.usable_entry at 1.
  case_bool_decide as Hm; simpl; [| done].
  destruct (Solana.accountIndex e) as [idx |]; simpl; [| done].
  destruct (decide (Solana.key_at keys (Z.to_nat idx) token_account)) as [Hk | Hk].
  - assert (Hp : map Solana.pubkey_of keys !! Z.to_nat idx = Some token_account)
      by (by apply pubkey_at).
    assert (Hlt : (Z.to_nat idx < length (map Solana.pubkey_of keys))%nat)
      by (eapply lookup_lt_Some; exact Hp).
    rewrite (bool_decide_eq_true_2 (Solana.key_at _ _ _)) by done.
    rewrite (bool_decide_eq_true_2 (_ !! _ = Some _)) by done.
    destruct (decide (0 <= idx)) as [Hge | Hneg].
    + rewrite (bool_decide_eq_true_2 (0 <= idx < _)) by lia.
      rewrite (bool_decide_eq_true_2 (0 <= idx)) by done. simpl.
      destruct (Solana.uiTokenAmount e) as [| | ui]; simpl; [done | done |].
      destruct (Solana.amount ui); simpl; [| done].
      by destruct (Solana.decimals ui).
    + rewrite (bool_decide_eq_false_2 (0 <= idx < _)) by lia.
      by rewrite (bool_decide_eq_false_2 (0 <= idx)) by done.
  - rewrite (bool_decide_eq_false_2 (Solana.key_at _ _ _)) by done.
    rewrite (bool_decide_eq_false_2 (_ !! _ = Some _)) by (by rewrite pubkey_at).
    by rewrite !andb_false_r.
Qed.

Lemma token_total_sum (tas : list string) (bals : list (option float))
    (total : float) (found_any : bool) :
  Forall2 (fun ta b => spl ta = Solana.Finished (Ok b)) tas bals ->
  token_total tas total found_any
  = Solana.Finished
      (Ok (foldl PrimFloat.add total (omap id bals),
           match omap id bals with [] => found_any | _ => true end)).
Proof.
  intros H. revert total found_any.
  induction H as [| ta b tas bals Hb _ IH]; intros total found_any;
    cbn [Solana.token_total]; [done |].
  rewrite Hb. cbn [mbind Solana.run_bind]. destruct b as [x |]; rewrite IH.
  - change (omap id (Some x :: bals)) with (x :: omap id bals).
    cbn [foldl]. by destruct (omap id bals).
  - by change (omap id (None :: bals)) with (omap id bals).
Qed.

Lemma token_total_none (tas : list string) (total : float) (found_any : bool) :
  Forall (fun ta => spl ta = Solana.Finished (Ok None)) tas ->
  token_total tas total found_any = Solana.Finished (Ok (total, found_any)).
Proof.
  induction 1 as [| ta tas Hta _ IH]; cbn [Solana.token_total]; [done |].
  rewrite Hta. cbn [mbind Solana.run_bind]. done.
Qed.

(** The loop over the token accounts ends with the first exception of a
    per-account read. *)
Lemma token_total_raises (front : list string) (bals : list (option float))
    (ta : string) (back : list string) (e : exn) (total : float) (found_any : bool) :
  Forall2 (fun a b => spl a = Solana.Finished (Ok b)) front bals ->
  spl ta = Solana.Finished (Raise e) ->
  token_total (front ++ ta :: back) total found_any = Solana.Finished (Raise e).
Proof.
  intros H He. revert total found_any.
  induction H as [| a b front bals Hb _ IH]; intros total found_any;
    cbn [app Solana.token_total].
  - by rewrite He.
  - rewrite Hb. cbn [mbind Solana.run_bind]. destruct b; apply IH.
Qed.
End token_facts.

(** The amount of one mint: a mint without token accounts is valued 0
    without any request; a mint none of whose token accounts yields a
    balance is valued 0; when some do, the amount is the sum, account after
    account, of the balances found, and the value is that amount times the
    price (0 without a price). The balance of one token account comes from
    the first entry of [postTokenBalances] with the mint, the position at
    which an account key is the token account, an amount and the decimals,
    and from [preTokenBalances] when there is none; a reply that is [null]
    or lacks [transaction] or [meta] yields no balance. *)
Theorem token_amount_is_sum_of_accounts :
  forall rt node getTransaction prices coingecko fuel m2tas ts ondate
         mint label price_symbol,
    let value :=
      Solana.token_usd_value rt node getTransaction prices coingecko fuel m2tas
        ts ondate mint label price_symbol in
    let token_accounts := default [] (m2tas !! mint) in
    let spl ta :=
      Solana.spl_balance_at_ts_via_last_tx rt node getTransaction fuel ta mint ts in
    (token_accounts = [] -> value = Solana.Finished (Ok 0%float))
    /\ (Forall (fun ta => spl ta = Solana.Finished (Ok None)) token_accounts ->
        value = Solana.Finished (Ok 0%float))
    /\ (forall bals,
          Forall2 (fun ta b => spl ta = Solana.Finished (Ok b)) token_accounts bals ->
          Solana.token_total rt node getTransaction fuel ts mint token_accounts
            0%float false
          = Solana.Finished
              (Ok (foldl PrimFloat.add 0%float (omap id bals),
                   match omap id bals with [] => false | _ => true end))
          /\ (omap id bals <> [] ->
              value = Solana.Finished
                (Ok match Solana.token_price rt prices coingecko ondate label
                            price_symbol with
                    | Some px => (foldl PrimFloat.add 0%float (omap id bals) * px)%float
                    | None => 0%float
                    end)))
    /\ (forall token_account keys post post_tb pre_tb,
          Solana.balance_in_reply rt token_account mint
            (Some (Solana.mkTxReply (Solana.Holds (Solana.mkTransaction keys))
                     (Solana.Holds (Solana.mkMeta post post_tb pre_tb))))
          = match Solana.first_usable rt mint keys token_account
                    (default [] post_tb) with
            | Ok None =>
                Solana.first_usable rt mint keys token_account (default [] pre_tb)
            | r => r
            end)
    /\ (forall token_account tx,
          tx = None
          \/ (exists r, tx = Some r
                /\ (Solana.transaction r = Solana.Absent
                    \/ Solana.meta r = Solana.Absent)) ->
          Solana.balance_in_reply rt token_account mint tx = Ok None)
    /\ (forall token_account s,
          Solana.find_last_signature_before_ts node fuel token_account ts 1000
            = Solana.Finished (Ok (Some s)) ->
          s <> EmptyString ->
          spl token_account
          = Solana.Finished
              (tx ← getTransaction s; Solana.balance_in_reply rt token_account mint tx))
    /\ (forall token_account,
          Solana.find_last_signature_before_ts node fuel token_account ts 1000
            = Solana.Finished (Ok None) ->
          spl token_account = Solana.Finished (Ok None)).
Proof.
  intros rt node getTransaction prices coingecko fuel m2tas ts ondate mint label
    price_symbol. cbv zeta. unfold Solana.token_usd_value.
  generalize (default [] (m2tas !! mint)). intros tas.
  split_and!.
  - by intros ->.
  - intros Hall. destruct tas as [| ta tas']; [done |].
    by rewrite (token_total_none rt node getTransaction fuel ts mint _ _ _ Hall).
  - intros bals Hbals.
    pose proof (token_total_sum rt node getTransaction fuel ts mint tas
                  bals 0%float false Hbals) as Htot.
    split; [done |]. intros Hsome.
    destruct tas as [| ta tas'].
    { inversion Hbals; subst. done. }
    rewrite Htot. cbn [mbind Solana.run_bind snd fst].
    destruct (omap id bals); [done |]. cbn [negb].
    by destruct (Solana.token_price rt prices coingecko ondate label price_symbol).
  - intros token_account keys post post_tb pre_tb.
    unfold Solana.balance_in_reply. cbn [Solana.transaction Solana.meta
      Solana.accountKeys Solana.postTokenBalances Solana.preTokenBalances].
    rewrite !pick_balance_first_usable.
    destruct (Solana.first_usable rt mint keys token_account
                (default [] post_tb)) as [[b |] | e]; done.
  - intros token_account tx [-> | (r & -> & Hr)]; [done |].
    unfold Solana.balance_in_reply.
    destruct r as [[| | t] [| | m]]; simpl in Hr; destruct Hr; done.
  - intros token_account s Hs Hne. unfold Solana.spl_balance_at_ts_via_last_tx.
    rewrite Hs. cbn [mbind Solana.run_bind].
    by destruct (String.eqb_spec s EmptyString).
  - intros token_account Hs. unfold Solana.spl_balance_at_ts_via_last_tx.
    by rewrite Hs.
Qed.

(** C7 at a transaction that the node returns with [meta] set to [null]:
    the test for a missing [meta] lets it through, the read of the token
    balances raises [AttributeError], and the exception ends the loop over
    the token accounts, the value of the mint and the valuation of the
    wallet. For the wallet H, whose USDC account was last touched by such a
    transaction, there is no valuation; had the node left [meta] out, the
    USDC amount would be 0.0 and the valuation returned. *)
Theorem token_amount_null_meta :
  (forall rt node getTransaction fuel token_account mint ts s t,
     Solana.find_last_signature_before_ts node fuel token_account ts 1000
       = Solana.Finished (Ok (Some s)) ->
     s <> EmptyString ->
     getTransaction s = Ok (Some (Solana.mkTxReply (Solana.Holds t) Solana.Null)) ->
     Solana.spl_balance_at_ts_via_last_tx rt node getTransaction fuel token_account
       mint ts
     = Solana.Finished (Raise AttributeError))
  /\ (forall rt node getTransaction prices coingecko fuel m2tas ts ondate mint label
             price_symbol front bals ta back,
        m2tas !! mint = Some (front ++ ta :: back) ->
        Forall2 (fun a b =>
                   Solana.spl_balance_at_ts_via_last_tx rt node getTransaction fuel a
                     mint ts = Solana.Finished (Ok b)) front bals ->
        Solana.spl_balance_at_ts_via_last_tx rt node getTransaction fuel ta mint ts
          = Solana.Finished (Raise AttributeError) ->
        Solana.token_usd_value rt node getTransaction prices coingecko fuel m2tas ts
          ondate mint label price_symbol
        = Solana.Finished (Raise AttributeError))
  /\ Solana.spl_balance_at_ts_via_last_tx Samples.rt Samples.holder_node
       Samples.null_meta_transactions 10 "HU" Solana.USDC_MINT 1767225599
     = Solana.Finished (Raise AttributeError)
  /\ Solana.solana_wallet_value_on_date Samples.rt Samples.cv Samples.holder_node
       Samples.null_meta_transactions Samples.holder_accounts Samples.prices_two
       Samples.coingecko_nothing 10 "H" "2025-12-31"
     = Solana.Finished (Raise AttributeError)
  /\ Solana.solana_wallet_value_on_date Samples.rt Samples.cv Samples.holder_node
       Samples.no_meta_transactions Samples.holder_accounts Samples.prices_two
       Samples.coingecko_nothing 10 "H" "2025-12-31"
     = Solana.Finished
         (Ok (2.5%float, 1%float, 2.5%float, 0%float, 0%float, 0%float, 0%float)).
Proof.
  split_and!.
  - intros rt node getTransaction fuel token_account mint ts s t Hs Hne Hg.
    unfold Solana.spl_balance_at_ts_via_last_tx. rewrite Hs.
    cbn [mbind Solana.run_bind].
    destruct (String.eqb_spec s EmptyString) as [? | _]; [done |].
    by rewrite Hg.
  - intros rt node getTransaction prices coingecko fuel m2tas ts ondate mint label
      price_symbol front bals ta back Hm Hfront Hta.
    unfold Solana.token_usd_value. rewrite Hm.
    change (default [] (Some (front ++ ta :: back))) with (front ++ ta :: back).
    pose proof (token_total_raises rt node getTransaction fuel ts mint front bals ta
                  back AttributeError 0%float false Hfront Hta) as Hr.
    destruct front; cbn [app] in *; by rewrite Hr.
  - by vm_compute.
  - by vm_compute.
  - by vm_compute.
Qed.

(** The valuation of the sample wallet at cutoff 200: the account T1 holds
    1.5 (read from [postTokenBalances]) and T2 holds 2.5 (read from
    [preTokenBalances]); the stablecoin price is 1. *)
Example token_value_sample :
  Solana.token_total Samples.rt Samples.node Samples.transactions 10 200 "MINT"
    ["T1"; "T2"] 0%float false
    = Solana.Finished (Ok (4%float, true))
  /\ Solana.token_usd_value Samples.rt Samples.node Samples.transactions
       Samples.prices_none Samples.coingecko_nothing 10 Samples.accounts 200
       "2025-12-31" "MINT" "USDC" "USDC"
     = Solana.Finished (Ok 4%float)
  /\ Solana.token_usd_value Samples.rt Samples.node Samples.transactions
       Samples.prices_none Samples.coingecko_nothing 10 Samples.accounts 200
       "2025-12-31" "OTHER" "USDC" "USDC"
     = Solana.Finished (Ok 0%float)
  /\ Solana.token_usd_value Samples.rt Samples.node Samples.transactions
       Samples.prices_none Samples.coingecko_nothing 10 Samples.accounts 100
       "2025-12-31" "MINT" "USDC" "USDC"
     = Solana.Finished (Ok 0%float).
Proof. by vm_compute. Qed.

(** ** The [balanceOf] call *)

Lemma hex_digit_lower (c : ascii) :
  is_hex_digit c = true ->
  is_hex_digit (ascii_lower c) = true
  /\ hex_digit_val (ascii_lower c) = hex_digit_val c
  /\ ascii_lower c <> "x"%char.
Proof.
  destruct c as [[] [] [] [] [] [] [] []]; vm_compute; intros H;
    try discriminate H; split_and!; congruence.
Qed.

Lemma hex_digit_range (c : ascii) (d : Z) :
  hex_digit_val c = Some d -> 0 <= d < 16.
Proof.
  unfold hex_digit_val. repeat case_bool_decide; intros [= <-]; lia.
Qed.

Lemma all_hex_lower (s : string) : all_hex s = true -> all_hex (lower s) = true.
Proof.
  induction s as [| c s IH]; simpl; [done |].
  intros [Hc Hs]%andb_true_iff. apply andb_true_iff.
  split; [by apply hex_digit_lower | by apply IH].
Qed.

Lemma length_lower (s : string) : String.length (lower s) = String.length s.
Proof. induction s as [| c s IH]; simpl; [done | by rewrite IH]. Qed.

Lemma unhex_lower (s : string) : all_hex s = true -> unhex (lower s) = unhex s.
Proof.
  revert s.
  assert (H : forall n s, (String.length s <= n)%nat -> all_hex s = true ->
                unhex (lower s) = unhex s).
  { induction n as [| n IH]; intros s Hlen Hs.
    - destruct s; [done | simpl in Hlen; lia].
    - destruct s as [| a [| b s]]; [done | done |].
      simpl in Hs. apply andb_true_iff in Hs as [Ha Hs].
      apply andb_true_iff in Hs as [Hb Hs].
      cbn [lower unhex].
      destruct (hex_digit_lower a Ha) as (_ & -> & _).
      destruct (hex_digit_lower b Hb) as (_ & -> & _).
      rewrite IH; [done | simpl in Hlen; lia | done]. }
  intros s. by apply (H (String.length s)).
Qed.

(** A text without the letter x has no [0x] to replace. *)
Lemma replace_0x_lower_hex (s : string) :
  all_hex s = true -> replace "0x" "" (lower s) = lower s.
Proof.
  unfold replace. induction s as [| c s IH]; [done |].
  simpl all_hex. intros [Hc Hs]%andb_true_iff. specialize (IH Hs).
  cbn [lower replace_from].
  assert (Hp : String.prefix "0x" (String (ascii_lower c) (lower s)) = false).
  { cbn [String.prefix]. destruct (Ascii.ascii_dec "0" (ascii_lower c)); [| done].
    destruct s as [| c' s']; [done |]. cbn [lower String.prefix].
    simpl in Hs. apply andb_true_iff in Hs as [Hc' _].
    destruct (hex_digit_lower c' Hc') as (_ & _ & Hx).
    by destruct (Ascii.ascii_dec "x" (ascii_lower c')). }
  rewrite Hp. by rewrite IH.
Qed.

Lemma replace_strip_0x (s : string) :
  replace "0x" "" (String "0" (String "x" s)) = replace "0x" "" s.
Proof.
  unfold replace. cbn [replace_from String.prefix].
  destruct (Ascii.ascii_dec "0" "0"); [| done].
  destruct (Ascii.ascii_dec "x" "x"); [| done].
  by destruct s.
Qed.

Lemma unhex_app (a b : string) (la lb : list Z) :
  unhex a = Some la -> unhex b = Some lb -> unhex (a +:+ b) = Some (la ++ lb).
Proof.
  revert a la.
  assert (H : forall n a la, (String.length a <= n)%nat -> unhex a = Some la ->
                unhex b = Some lb -> unhex (a +:+ b) = Some (la ++ lb)).
  { induction n as [| n IH]; intros a la Hlen Ha Hb.
    - destruct a; [| simpl in Hlen; lia]. injection Ha as <-. done.
    - destruct a as [| x [| y a]]; [by injection Ha as <- | done |].
      cbn [unhex] in Ha.
      change (unhex (String x (String y a) +:+ b))
        with (match hex_digit_val x, hex_digit_val y, unhex (a +:+ b) with
              | Some x0, Some y0, Some l => Some ((16 * x0 + y0) :: l)
              | _, _, _ => None
              end).
      destruct (hex_digit_val x), (hex_digit_val y); try done.
      destruct (unhex a) as [l |] eqn:Hl; [| done]. injection Ha as <-.
      rewrite (IH a l); [done | simpl in Hlen; lia | done | done]. }
  intros a la. by apply (H (String.length a)).
Qed.

Lemma unhex_all_hex (n : nat) (s : string) :
  String.length s = (2 * n)%nat -> all_hex s = true ->
  exists l, unhex s = Some l /\ length l = n /\ Forall (fun b => 0 <= b < 256) l.
Proof.
  revert s. induction n as [| n IH]; intros s Hlen Hs.
  - destruct s; [| done]. exists []. by split_and!.
  - destruct s as [| a [| b s]]; [done | simpl in Hlen; lia |].
    simpl in Hs. apply andb_true_iff in Hs as [Ha Hs].
    apply andb_true_iff in Hs as [Hb Hs].
    destruct (IH s) as (l & Hl & Hn & Hr); [simpl in Hlen; lia | done |].
    unfold is_hex_digit in Ha, Hb. cbn [unhex].
    destruct (hex_digit_val a) as [x |] eqn:Hx; [| done].
    destruct (hex_digit_val b) as [y |] eqn:Hy; [| done].
    rewrite Hl. eexists. split; [done |]. split; [simpl; lia |].
    apply hex_digit_range in Hx, Hy. constructor; [lia | done].
Qed.

Lemma hex_value_nonneg (s : string) (acc v : Z) :
  hex_value s acc = Some v -> 0 <= acc -> 0 <= v.
Proof.
  revert acc. induction s as [| c s IH]; intros acc; simpl.
  - intros [= <-]. done.
  - destruct (hex_digit_val c) as [d |] eqn:Hd; [| done].
    intros H Hacc. apply hex_digit_range in Hd. apply (IH _ H). lia.
Qed.

Lemma int16_0x (digits : string) (v : Z) :
  digits <> EmptyString -> hex_value digits 0 = Some v ->
  int16 ("0x" +:+ digits) = Ok v /\ 0 <= v.
Proof.
  intros Hne Hv. split; [| by eapply hex_value_nonneg].
  destruct digits as [| a d]; [done |].
  change (int16 ("0x" +:+ String a d))
    with (match hex_value (String a d) 0 with
          | Some v => Ok v
          | None => Raise ValueError
          end).
  by rewrite Hv.
Qed.

Lemma length_append (a b : string) :
  String.length (a +:+ b) = (String.length a + String.length b)%nat.
Proof. induction a as [| c a IH]; simpl; [done | by rewrite IH]. Qed.

Lemma balance_of_data_plain (prefix h : string) :
  prefix = "0x" \/ prefix = "0X" \/ prefix = "" ->
  String.length h = 40%nat -> all_hex h = true ->
  Eth.balance_of_data (prefix +:+ h)
  = "0x70a08231" +:+ repeat_char 24 "0" +:+ lower h.
Proof.
  intros Hp Hlen Hh. unfold Eth.balance_of_data.
  assert (Hclean : replace "0x" "" (lower (prefix +:+ h)) = lower h).
  { destruct Hp as [-> | [-> | ->]].
    - change (lower ("0x" +:+ h)) with (String "0" (String "x" (lower h))).
      rewrite replace_strip_0x. by apply replace_0x_lower_hex.
    - change (lower ("0X" +:+ h)) with (String "0" (String "x" (lower h))).
      rewrite replace_strip_0x. by apply replace_0x_lower_hex.
    - by apply replace_0x_lower_hex. }
  rewrite Hclean. unfold rjust. by rewrite length_lower, Hlen.
Qed.

(** C8: for a holder address of 20 bytes (forty hexadecimal digits after
    [0x]), the call data is the selector 70a08231 followed by 32 bytes: 12
    zero bytes, then the 20 bytes of the address; the call is [eth_call] to
    the token contract at the block, and its hexadecimal result is read as
    an unsigned integer. *)
Theorem erc20_balance_of_encoding :
  forall (h : string),
    String.length h = 40%nat -> all_hex h = true ->
    let holder := "0x" +:+ h in
    let data := Eth.balance_of_data holder in
    data = "0x70a08231" +:+ repeat_char 24 "0" +:+ lower h
    /\ String.length data = 74%nat
    /\ (exists addr,
          unhex h = Some addr /\ length addr = 20%nat
          /\ Forall (fun b => 0 <= b < 256) addr
          /\ unhex (substring 2 72 data)
             = Some ([112; 160; 130; 49] ++ repeat 0 12 ++ addr))
    /\ (forall rpc token_contract block_number,
          Eth.erc20_balance_at_block rpc holder token_contract block_number
          = (out ← rpc "eth_call"
                     (JList [JObj [("to", JStr token_contract); ("data", JStr data)];
                             JStr (hex block_number)]);
             match out with
             | JStr s => int16 s
             | _ => Raise TypeError
             end))
    /\ (forall rpc token_contract block_number digits v,
          rpc "eth_call"
            (JList [JObj [("to", JStr token_contract); ("data", JStr data)];
                    JStr (hex block_number)])
            = Ok (JStr ("0x" +:+ digits)) ->
          digits <> EmptyString -> hex_value digits 0 = Some v ->
          Eth.erc20_balance_at_block rpc holder token_contract block_number = Ok v
          /\ 0 <= v).
Proof.
  intros h Hlen Hh holder data.
  assert (Hdata : data = "0x70a08231" +:+ repeat_char 24 "0" +:+ lower h)
    by (apply balance_of_data_plain; auto).
  split_and!.
  - done.
  - rewrite Hdata, !length_append, length_lower, Hlen. done.
  - destruct (unhex_all_hex 20 h Hlen Hh) as (addr & Ha & Hn & Hr).
    exists addr. split_and!; try done.
    rewrite Hdata.
    change ("0x70a08231" +:+ repeat_char 24 "0" +:+ lower h)
      with ("0x" +:+ ("70a08231000000000000000000000000" +:+ lower h)).
    assert (Hsub : forall s, String.length s = 72%nat ->
              substring 2 72 ("0x" +:+ s) = s).
    { intros s Hs. change (substring 2 72 ("0x" +:+ s)) with (substring 0 72 s).
      rewrite <- Hs. clear. induction s as [| c s IH]; simpl; [done | by rewrite IH]. }
    rewrite Hsub by (by rewrite length_append, length_lower, Hlen).
    apply (unhex_app _ _ ([112; 160; 130; 49] ++ repeat 0 12) addr); [done |].
    by rewrite unhex_lower.
  - done.
  - intros rpc token_contract block_number digits v Hrpc Hne Hv.
    unfold Eth.erc20_balance_at_block. fold holder. fold data. rewrite Hrpc.
    simpl. by apply int16_0x.
Qed.

(** The encoding for the holder 0xA0b8...eB48 (mixed case), and a reply of
    one million units. *)
Lemma erc20_balance_of_encoding_witness :
  Eth.balance_of_data "0xA0b86991c6218b36c1d19d4a2e9eb0ce3606eB48"
    = "0x70a08231000000000000000000000000a0b86991c6218b36c1d19d4a2e9eb0ce3606eb48"
  /\ int16 "0x00000000000000000000000000000000000000000000000000000000000f4240"
     = Ok 1000000.
Proof.
  split.
  - exact (proj1 (erc20_balance_of_encoding "A0b86991c6218b36c1d19d4a2e9eb0ce3606eB48"
                    eq_refl eq_refl)).
  - reflexivity.
Defined.

(** ** Prices *)

Section latest_facts.
Context {A : Type} (key : A -> res datetime).

Lemma latest_from_spec (best : A) (rest : list A) :
  latest_from key best rest ∈ best :: rest
  /\ forall x, x ∈ best :: rest ->
       key_instant key x <= key_instant key (latest_from key best rest).
Proof.
  revert best. induction rest as [| y rest IH]; intros best; cbn [latest_from].
  - split; [left |]. by intros x ->%list_elem_of_singleton.
  - case_bool_decide as Hlt.
    + destruct (IH y) as [Hin Hmax]. split; [by right |].
      intros x [-> | Hx]%elem_of_cons; [| by apply Hmax].
      specialize (Hmax y ltac:(left)). lia.
    + destruct (IH best) as [Hin Hmax]. split.
      * apply elem_of_cons in Hin as [-> | Hin]; [left | right; by right].
      * intros x [-> | [-> | Hx]%elem_of_cons]%elem_of_cons.
        -- apply Hmax. left.
        -- specialize (Hmax best ltac:(left)). lia.
        -- apply Hmax. by right.
Qed.

Lemma max_from_latest (best : A) (kbest : datetime) (off : Z) (rest : list A) :
  key best = Ok kbest -> dt_utcoffset kbest = Some off ->
  Forall (aware_key key) rest ->
  max_from key dt_gt best kbest rest = Ok (latest_from key best rest).
Proof.
  intros Hk Hoff Hall. revert best kbest off Hk Hoff.
  induction Hall as [| x rest (d & ox & Hx & Hox) _ IH]; intros best kbest off Hk Hoff;
    cbn [max_from latest_from]; [done |].
  rewrite Hx. cbn [mbind res_bind].
  assert (Hgt : dt_gt d kbest
                = Ok (bool_decide (key_instant key best < key_instant key x))).
  { unfold dt_gt, key_instant, instant. by rewrite Hk, Hx, Hoff, Hox. }
  rewrite Hgt. cbn [mbind res_bind].
  destruct (bool_decide (key_instant key best < key_instant key x));
    [by apply (IH x d ox) | by apply (IH best kbest off)].
Qed.

Lemma max_key_latest (x : A) (rest : list A) :
  Forall (aware_key key) (x :: rest) ->
  max_key key dt_gt (x :: rest) = Ok (latest_from key x rest).
Proof.
  intros [(d & off & Hd & Hoff) Hall]%Forall_cons. cbn [max_key].
  rewrite Hd. cbn [mbind res_bind]. by eapply max_from_latest.
Qed.
End latest_facts.

(** A point without a timestamp counts as [datetime.min], in UTC. *)
Lemma btc_parse_ts_missing (rt : Builtins) (p ts : Json) :
  get p "timestamp" = Ok ts -> truthy ts = false ->
  Btc.parse_ts rt p = Ok datetime_min_utc
  /\ key_instant (Btc.parse_ts rt) p = 0.
Proof.
  intros Hg Ht. unfold key_instant, Btc.parse_ts. rewrite Hg. cbn [mbind res_bind].
  by rewrite Ht.
Qed.

Lemma eth_parse_ts_missing (rt : Builtins) (p ts : Json) :
  get p "timestamp" = Ok ts -> truthy ts = false ->
  Eth.parse_ts rt p = Ok datetime_min_utc
  /\ key_instant (Eth.parse_ts rt) p = 0.
Proof.
  intros Hg Ht. unfold key_instant, Eth.parse_ts. rewrite Hg. cbn [mbind res_bind].
  by rewrite Ht.
Qed.

(** The Bitcoin lookup: for a reply with a non-empty list of points whose
    timestamps can be read (each is absent or an aware date), the rate is
    the value of the first point of greatest timestamp, a point without
    timestamp counting as [datetime.min]; so when some point is dated, the
    selected one has a timestamp. *)
Theorem btc_fx_rate_latest (rt : Builtins)
    (prices : string -> string -> string -> res Json)
    (symbol ondate : string) (payload p : Json) (points : list Json) :
  prices symbol (ondate +:+ "T00:00:00Z") (ondate +:+ "T23:59:59Z") = Ok payload ->
  Btc._extract_price_points payload = Ok (p :: points) ->
  Forall (aware_key (Btc.parse_ts rt)) (p :: points) ->
  let best := latest_from (Btc.parse_ts rt) p points in
  Btc.fx_rate_usd_end_of_day rt prices symbol ondate
    = (v ← subscript best "value"; py_float rt v)
  /\ best ∈ p :: points
  /\ (forall q, q ∈ p :: points ->
        key_instant (Btc.parse_ts rt) q <= key_instant (Btc.parse_ts rt) best)
  /\ (forall q ts, q ∈ p :: points -> 0 < key_instant (Btc.parse_ts rt) q ->
        get best "timestamp" = Ok ts -> truthy ts = true).
Proof.
  intros Hp He Hall best.
  destruct (latest_from_spec (Btc.parse_ts rt) p points) as [Hin Hmax].
  fold best in Hin, Hmax. split_and!; [| done | done |].
  - unfold Btc.fx_rate_usd_end_of_day. rewrite Hp. cbn [mbind res_bind].
    rewrite He. cbn [mbind res_bind]. by rewrite max_key_latest.
  - intros q ts Hq Hpos Hg. destruct (truthy ts) eqn:Ht; [done |].
    destruct (btc_parse_ts_missing rt best ts Hg Ht) as [_ H0].
    specialize (Hmax q Hq). lia.
Qed.

(** The Ethereum lookup: the same selection; if the value of the selected
    point cannot be read, a stablecoin gets its fallback rate and any other
    symbol the exception. *)
Theorem eth_fx_rate_latest (rt : Builtins)
    (prices : string -> string -> string -> res Json)
    (symbol ondate : string) (payload p : Json) (points : list Json) :
  prices symbol (ondate +:+ "T00:00:00Z") (ondate +:+ "T23:59:59Z") = Ok payload ->
  Eth._extract_price_points payload = Ok (p :: points) ->
  Forall (aware_key (Eth.parse_ts rt)) (p :: points) ->
  let best := latest_from (Eth.parse_ts rt) p points in
  Eth.fx_rate_usd_end_of_day rt prices symbol ondate
    = match (v ← subscript best "value"; py_float rt v) with
      | Ok rate => Ok rate
      | Raise e =>
          match Eth.STABLE_FALLBACK !! symbol with
          | Some rate => Ok rate
          | None => Raise e
          end
      end
  /\ best ∈ p :: points
  /\ (forall q, q ∈ p :: points ->
        key_instant (Eth.parse_ts rt) q <= key_instant (Eth.parse_ts rt) best)
  /\ (forall q ts, q ∈ p :: points -> 0 < key_instant (Eth.parse_ts rt) q ->
        get best "timestamp" = Ok ts -> truthy ts = true).
Proof.
  intros Hp He Hall best.
  destruct (latest_from_spec (Eth.parse_ts rt) p points) as [Hin Hmax].
  fold best in Hin, Hmax. split_and!; [| done | done |].
  - unfold Eth.fx_rate_usd_end_of_day, Eth.fx_rate_body, try_except.
    rewrite Hp. cbn [mbind res_bind]. rewrite He. cbn [mbind res_bind].
    by rewrite max_key_latest.
  - intros q ts Hq Hpos Hg. destruct (truthy ts) eqn:Ht; [done |].
    destruct (eth_parse_ts_missing rt best ts Hg Ht) as [_ H0].
    specialize (Hmax q Hq). lia.
Qed.

(** The Solana lookup returns the value of the first point of the reply,
    whatever the timestamps. *)
Lemma solana_price_first_point (rt : Builtins)
    (prices : string -> string -> string -> res Json)
    (coingecko : string -> string -> res Json)
    (symbol ondate : string) (payload p v : Json) (points : list Json) (x : float) :
  prices symbol (ondate +:+ "T00:00:00Z") (ondate +:+ "T23:59:59Z") = Ok payload ->
  get_default payload "data" (JList []) = Ok (JList (p :: points)) ->
  subscript p "value" = Ok v -> py_float rt v = Ok x ->
  Solana.price_on_date_usd rt prices coingecko symbol ondate = Some x.
Proof.
  intros Hp Hd Hv Hx. unfold Solana.price_on_date_usd, Solana.alchemy_body.
  rewrite Hp. cbn [mbind res_bind]. rewrite Hd. cbn [mbind res_bind truthy subscript0].
  rewrite Hv. cbn [mbind res_bind]. by rewrite Hx.
Qed.

(** C2, on the code: for the reply holding the points (10:00, 1.0) and
    (20:00, 1.5), the Bitcoin and Ethereum lookups return 1.5, the value of
    the point of greatest timestamp, and the Solana lookup returns 1.0, the
    value of the first point; when the points come nested under [prices],
    the Solana lookup reads none of them. *)
Theorem solana_price_not_latest :
  Btc.fx_rate_usd_end_of_day Samples.rt Samples.prices_two "SOL" "2025-12-31"
    = Ok 1.5%float
  /\ Eth.fx_rate_usd_end_of_day Samples.rt Samples.prices_two "SOL" "2025-12-31"
     = Ok 1.5%float
  /\ Solana.price_on_date_usd Samples.rt Samples.prices_two
       Samples.coingecko_nothing "SOL" "2025-12-31"
     = Some 1%float
  /\ Eth._extract_price_points Samples.nested_payload = Ok Samples.two_points
  /\ Solana.price_on_date_usd Samples.rt (fun _ _ _ => Ok Samples.nested_payload)
       Samples.coingecko_nothing "SOL" "2025-12-31"
     = None.
Proof. by vm_compute. Qed.

(** The selection of the Bitcoin and Ethereum lookups on the sample reply,
    and a point without timestamp losing to a dated one. *)
Lemma btc_fx_rate_latest_witness :
  Btc.fx_rate_usd_end_of_day Samples.rt Samples.prices_two "BTC" "2025-12-31"
    = Ok 1.5%float
  /\ latest_from (Btc.parse_ts Samples.rt)
       (JObj [("value", JStr "9.9")]) Samples.two_points
     = Samples.point "2025-12-31T20:00:00Z" "1.5".
Proof.
  split.
  - refine (eq_trans (proj1 (btc_fx_rate_latest Samples.rt Samples.prices_two "BTC"
                               "2025-12-31" Samples.bare_payload _ _ eq_refl eq_refl _))
                     _); [| by vm_compute].
    repeat constructor; eexists _, _; split; by vm_compute.
  - by vm_compute.
Defined.

Lemma eth_fx_rate_latest_witness :
  Eth.fx_rate_usd_end_of_day Samples.rt Samples.prices_two "ETH" "2025-12-31"
    = Ok 1.5%float.
Proof.
  refine (eq_trans (proj1 (eth_fx_rate_latest Samples.rt Samples.prices_two "ETH"
                             "2025-12-31" Samples.bare_payload _ _ eq_refl eq_refl _))
                   _); [| by vm_compute].
  repeat constructor; eexists _, _; split; by vm_compute.
Defined.

(** ** No price points, and the stablecoin fallback *)

Lemma stable_fallback_table (symbol : string) :
  Eth.STABLE_FALLBACK !! symbol
  = if decide (symbol = "USDC" \/ symbol = "USDT") then Some 1%float else None.
Proof.
  unfold Eth.STABLE_FALLBACK.
  destruct (decide (symbol = "USDC")) as [-> | H1].
  - rewrite lookup_insert_eq. by rewrite decide_True by auto.
  - rewrite lookup_insert_ne by done.
    destruct (decide (symbol = "USDT")) as [-> | H2].
    + rewrite lookup_insert_eq. by rewrite decide_True by auto.
    + rewrite lookup_insert_ne by done. rewrite lookup_empty.
      by rewrite decide_False by (intros [? | ?]; done).
Qed.

Lemma coingecko_ids_table (symbol : string) :
  Solana.COINGECKO_IDS !! symbol
  = if decide (symbol = "JITOSOL") then Some "jito-staked-sol" else None.
Proof.
  unfold Solana.COINGECKO_IDS.
  destruct (decide (symbol = "JITOSOL")) as [-> | H1].
  - by rewrite lookup_insert_eq.
  - rewrite lookup_insert_ne by done. apply lookup_empty.
Qed.

(** C3, as the code has it: when the price source yields no price points,
    the Ethereum lookup returns exactly 1.0 for USDC and USDT and fails
    with "No price points returned" for any other symbol; the Bitcoin
    lookup, which has no stablecoin table, fails with that error for every
    symbol; the Solana lookup raises nothing: it returns what the secondary
    source gives for a symbol listed there (JITOSOL) and "unavailable" for
    any other, and on "unavailable" its callers use 1.0 for the labels
    USDC, USDT and USX and 0 otherwise. *)
Theorem empty_price_points_policy :
  forall (rt : Builtins) (prices : string -> string -> string -> res Json)
         (symbol ondate : string) (payload : Json),
    prices symbol (ondate +:+ "T00:00:00Z") (ondate +:+ "T23:59:59Z") = Ok payload ->
    (Eth._extract_price_points payload = Ok [] ->
     Eth.fx_rate_usd_end_of_day rt prices symbol ondate
     = if decide (symbol = "USDC" \/ symbol = "USDT") then Ok 1%float
       else Raise (RuntimeError (Eth.no_points_msg symbol ondate)))
    /\ (Btc._extract_price_points payload = Ok [] ->
        Btc.fx_rate_usd_end_of_day rt prices symbol ondate
        = Raise (RuntimeError (Btc.no_points_msg symbol ondate)))
    /\ (forall coingecko data,
          get_default payload "data" (JList []) = Ok data -> truthy data = false ->
          let price := Solana.price_on_date_usd rt prices coingecko symbol ondate in
          price = (if decide (upper symbol = "JITOSOL")
                   then Solana.coingecko_price_on_date_usd rt coingecko
                          "jito-staked-sol" ondate
                   else None)
          /\ (price = None ->
              (forall label,
                 Solana.token_price rt prices coingecko ondate label symbol
                 = if decide (label = "USDC" \/ label = "USDT" \/ label = "USX")
                   then Some 1%float else None)
              /\ (symbol = "SOL" -> Solana.sol_price rt prices coingecko ondate = 0%float)
              /\ (forall node getTransaction fuel m2tas ts mint label r,
                    ~ (label = "USDC" \/ label = "USDT" \/ label = "USX") ->
                    Solana.token_total rt node getTransaction fuel ts mint
                      (default [] (m2tas !! mint)) 0%float false
                      = Solana.Finished (Ok r) ->
                    Solana.token_usd_value rt node getTransaction prices coingecko
                      fuel m2tas ts ondate mint label symbol
                    = Solana.Finished (Ok 0%float)))).
Proof.
  intros rt prices symbol ondate payload Hp. split_and!.
  - intros He. unfold Eth.fx_rate_usd_end_of_day, Eth.fx_rate_body, try_except.
    rewrite Hp. cbn [mbind res_bind]. rewrite He. cbn [mbind res_bind].
    rewrite stable_fallback_table. by destruct (decide _).
  - intros He. unfold Btc.fx_rate_usd_end_of_day.
    rewrite Hp. cbn [mbind res_bind]. by rewrite He.
  - intros coingecko data Hd Ht price.
    assert (Hprice : price = (if decide (upper symbol = "JITOSOL")
                              then Solana.coingecko_price_on_date_usd rt coingecko
                                     "jito-staked-sol" ondate
                              else None)).
    { unfold price, Solana.price_on_date_usd, Solana.alchemy_body.
      rewrite Hp. cbn [mbind res_bind]. rewrite Hd. cbn [mbind res_bind].
      rewrite Ht, coingecko_ids_table. by destruct (decide _). }
    split; [done |]. intros Hnone.
    assert (Htp : forall label,
              Solana.token_price rt prices coingecko ondate label symbol
              = if decide (label = "USDC" \/ label = "USDT" \/ label = "USX")
                then Some 1%float else None).
    { intros label. unfold Solana.token_price. fold price. rewrite Hnone.
      unfold Solana.fallback_price, Solana.STABLES.
      destruct (decide (label = "USDC" \/ label = "USDT" \/ label = "USX")) as [Hl | Hl].
      - rewrite bool_decide_eq_true_2; [done |].
        rewrite !elem_of_cons. tauto.
      - rewrite bool_decide_eq_false_2; [done |].
        rewrite !elem_of_cons, elem_of_nil. tauto. }
    split_and!.
    + done.
    + intros ->. unfold Solana.sol_price. fold price. by rewrite Hnone.
    + intros node getTransaction fuel m2tas ts mint label r Hl Htot.
      unfold Solana.token_usd_value.
      destruct (default [] (m2tas !! mint)) as [| ta tas]; [done |].
      rewrite Htot. cbn [mbind Solana.run_bind].
      destruct (negb r.2); [done |]. rewrite Htp. by rewrite decide_False.
Qed.

(** The three lookups on a reply without points. *)
Lemma empty_price_points_policy_witness :
  Eth.fx_rate_usd_end_of_day Samples.rt Samples.prices_none "USDC" "2025-12-31"
    = Ok 1%float
  /\ Eth.fx_rate_usd_end_of_day Samples.rt Samples.prices_none "ETH" "2025-12-31"
     = Raise (RuntimeError "No price points returned for ETH on 2025-12-31")
  /\ Btc.fx_rate_usd_end_of_day Samples.rt Samples.prices_none "BTC" "2025-12-31"
     = Raise (RuntimeError "No price points returned for BTC on 2025-12-31")
  /\ Solana.price_on_date_usd Samples.rt Samples.prices_none
       Samples.coingecko_nothing "SOL" "2025-12-31" = None
  /\ Solana.sol_price Samples.rt Samples.prices_none Samples.coingecko_nothing
       "2025-12-31" = 0%float.
Proof.
  pose proof (empty_price_points_policy Samples.rt Samples.prices_none "USDC"
                "2025-12-31" _ eq_refl) as (Heth & _ & _).
  split_and!; [exact (Heth eq_refl) | by vm_compute ..].
Defined.

(** Where the claim as worded fails: with no price points from the primary
    source, the Solana lookup returns the price of the secondary source
    for JITOSOL, which is no stablecoin; and the Bitcoin lookup raises for
    USDC. *)
Lemma secondary_price_returned :
  Solana.alchemy_body Samples.rt Samples.prices_none "JITOSOL" "2025-12-31" = Ok None
  /\ ("JITOSOL" ∉ Solana.STABLES)
  /\ Solana.price_on_date_usd Samples.rt Samples.prices_none Samples.coingecko_2
       "JITOSOL" "2025-12-31" = Some 2%float
  /\ Btc.fx_rate_usd_end_of_day Samples.rt Samples.prices_none "USDC" "2025-12-31"
     = Raise (RuntimeError "No price points returned for USDC on 2025-12-31").
Proof.
  split_and!; try by vm_compute.
  unfold Solana.STABLES. rewrite !elem_of_cons, elem_of_nil.
  intros [? | [? | [? | []]]]; discriminate.
Qed.

(** ** The Ethereum lookup never raises for a stablecoin *)

(** C10: for USDC and USDT the Ethereum lookup always returns a rate, and
    it is the fallback 1.0 whenever the body of its [try] raises: in the
    price request, in the extraction of the points, in reading or comparing
    the timestamps, or in reading the value of the selected point; and also
    when there are no points. *)
Theorem eth_stable_rate_never_raises :
  forall (rt : Builtins) (prices : string -> string -> string -> res Json)
         (symbol ondate : string),
    symbol = "USDC" \/ symbol = "USDT" ->
    let rate := Eth.fx_rate_usd_end_of_day rt prices symbol ondate in
    let reply := prices symbol (ondate +:+ "T00:00:00Z") (ondate +:+ "T23:59:59Z") in
    (exists x, rate = Ok x)
    /\ (forall e, Eth.fx_rate_body rt prices symbol ondate = Raise e ->
          rate = Ok 1%float)
    /\ (forall e, reply = Raise e -> rate = Ok 1%float)
    /\ (forall payload e,
          reply = Ok payload -> Eth._extract_price_points payload = Raise e ->
          rate = Ok 1%float)
    /\ (forall payload,
          reply = Ok payload -> Eth._extract_price_points payload = Ok [] ->
          rate = Ok 1%float)
    /\ (forall payload p points e,
          reply = Ok payload ->
          Eth._extract_price_points payload = Ok (p :: points) ->
          max_key (Eth.parse_ts rt) dt_gt (p :: points) = Raise e ->
          rate = Ok 1%float)
    /\ (forall payload p points latest e,
          reply = Ok payload ->
          Eth._extract_price_points payload = Ok (p :: points) ->
          max_key (Eth.parse_ts rt) dt_gt (p :: points) = Ok latest ->
          (v ← subscript latest "value"; py_float rt v) = Raise e ->
          rate = Ok 1%float).
Proof.
  intros rt prices symbol ondate Hs rate reply.
  assert (Hst : Eth.STABLE_FALLBACK !! symbol = Some 1%float).
  { rewrite stable_fallback_table. by rewrite decide_True. }
  assert (Hbody : forall e, Eth.fx_rate_body rt prices symbol ondate = Raise e ->
                    rate = Ok 1%float).
  { intros e He. unfold rate, Eth.fx_rate_usd_end_of_day, try_except.
    by rewrite He, Hst. }
  assert (Hstage : forall payload, reply = Ok payload ->
            Eth.fx_rate_body rt prices symbol ondate
            = (points ← Eth._extract_price_points payload;
               match points with
               | [] => Ok 1%float
               | _ => latest ← max_key (Eth.parse_ts rt) dt_gt points;
                      v ← subscript latest "value"; py_float rt v
               end)).
  { intros payload Hp. unfold Eth.fx_rate_body. fold reply. rewrite Hp.
    cbn [mbind res_bind]. destruct (Eth._extract_price_points payload) as [pts |];
      [| done]. cbn [mbind res_bind]. destruct pts; [by rewrite Hst | done]. }
  split_and!.
  - unfold rate, Eth.fx_rate_usd_end_of_day, try_except.
    destruct (Eth.fx_rate_body rt prices symbol ondate) as [x | e]; [by exists x |].
    rewrite Hst. by eexists.
  - exact Hbody.
  - intros e He. apply (Hbody e). unfold Eth.fx_rate_body. fold reply. by rewrite He.
  - intros payload e Hp He. apply (Hbody e). by rewrite (Hstage _ Hp), He.
  - intros payload Hp He. unfold rate, Eth.fx_rate_usd_end_of_day, try_except.
    by rewrite (Hstage _ Hp), He.
  - intros payload p points e Hp He Hm. apply (Hbody e).
    rewrite (Hstage _ Hp), He. cbn [mbind res_bind]. by rewrite Hm.
  - intros payload p points latest e Hp He Hm Hv. apply (Hbody e).
    rewrite (Hstage _ Hp), He. cbn [mbind res_bind]. rewrite Hm.
    cbn [mbind res_bind]. exact Hv.
Qed.

(** The fallback at work: the price API is down, or its reply cannot be
    read. *)
Lemma eth_stable_rate_never_raises_witness :
  Eth.fx_rate_usd_end_of_day Samples.rt Samples.prices_down "USDC" "2025-12-31"
    = Ok 1%float
  /\ Eth.fx_rate_body Samples.rt Samples.prices_garbled "USDT" "2025-12-31"
     = Raise ValueError
  /\ Eth.fx_rate_usd_end_of_day Samples.rt Samples.prices_garbled "USDT" "2025-12-31"
     = Ok 1%float
  /\ Eth.fx_rate_usd_end_of_day Samples.rt Samples.prices_garbled "ETH" "2025-12-31"
     = Raise ValueError.
Proof.
  split_and!.
  - exact (proj1 (proj2 (proj2 (eth_stable_rate_never_raises Samples.rt
             Samples.prices_down "USDC" "2025-12-31" (or_introl eq_refl))))
             ConnectionError eq_refl).
  - by vm_compute.
  - by vm_compute.
  - by vm_compute.
Defined.

(** A node whose every page holds one signature without a confirmation
    time: the search is still in its loop after any number of turns. *)
Lemma signature_search_never_returns :
  Solana.never_returns Samples.stuck_node "W" 1767225599 1000
  /\ ~ Solana.terminates Samples.stuck_node "W" 1767225599 1000.
Proof.
  assert (H : Solana.never_returns Samples.stuck_node "W" 1767225599 1000).
  { apply search_never_returns. intros n.
    exists [Solana.mkSigInfo "s" None]. by split_and!. }
  split; [done |]. by apply never_returns_not_terminates.
Qed.

(** * The rest of the scripts *)

(** ** The waits of the retry wrapper *)

Lemma retry_loop_sleeps {B} (session_request : nat -> res (Btc.Response B))
    (url : string) (len n : nat) (last_exc : option exn) (slept : list nat) :
  (S n + len = S Btc.MAX_RETRIES)%nat ->
  Btc.sleeps (Btc.retry_loop session_request url (seq (S n) len) n last_exc slept)
  = slept ++ seq (S n)
               (Btc.calls (Btc.retry_loop session_request url (seq (S n) len) n
                             last_exc slept) - S n).
Proof.
  revert n last_exc slept.
  induction len as [| len IH]; intros n last_exc slept Hlen.
  - simpl. rewrite Nat.sub_succ_r, Nat.sub_diag. simpl. by rewrite app_nil_r.
  - cbn [seq Btc.retry_loop].
    destruct (Btc.attempt session_request n) as [resp | e]; cbn [Btc.sleeps Btc.calls].
    { rewrite Nat.sub_diag. simpl. by rewrite app_nil_r. }
    destruct (Btc.retried e); cbn [Btc.sleeps Btc.calls];
      [| rewrite Nat.sub_diag; simpl; by rewrite app_nil_r].
    rewrite IH by lia.
    pose proof (retry_loop_calls session_request url (seq (S (S n)) len) (S n) (Some e)
                  (if bool_decide (S n < Btc.MAX_RETRIES)%nat
                   then slept ++ [S n] else slept)) as (Hb & Hpos & _).
    case_bool_decide as Hlt.
    + assert (Hne : seq (S (S n)) len <> []) by (destruct len; [lia | done]).
      specialize (Hpos Hne).
      match goal with |- context [Btc.calls ?r] => set (c := Btc.calls r) in * end.
      replace (c - S n)%nat with (S (c - S (S n))) by lia.
      by rewrite <- app_assoc.
    + assert (len = 0%nat) as -> by lia. cbn [seq Btc.retry_loop Btc.calls].
      rewrite Nat.sub_diag. by replace (S n - S (S n))%nat with 0%nat by lia.
Qed.

(** The wrapper sleeps once between two consecutive calls of the session
    and never after its last call: the attempts it slept after are
    1, ..., calls - 1, at most four of them. *)
Theorem retry_sleeps_between_calls :
  forall (B : Type) (session_request : nat -> res (Btc.Response B)) (url : string),
    let run := Btc.request_with_retry session_request url in
    Btc.sleeps run = seq 1 (Btc.calls run - 1)
    /\ (length (Btc.sleeps run) <= 4)%nat.
Proof.
  intros B session_request url run.
  assert (Hs : Btc.sleeps run = seq 1 (Btc.calls run - 1)).
  { exact (retry_loop_sleeps session_request url Btc.MAX_RETRIES 0 None []
             eq_refl). }
  split; [done |]. rewrite Hs, length_seq.
  pose proof (retry_loop_calls session_request url (seq 1 Btc.MAX_RETRIES)
                0%nat None []) as (Hb & _ & _).
  fold (Btc.request_with_retry session_request url) in Hb. fold run in Hb.
  simpl in Hb. lia.
Qed.

(** ** Paging through a served history *)

Lemma append_inj_r (p x y : string) : p +:+ x = p +:+ y -> x = y.
Proof. induction p as [| c p IH]; simpl; [done |]. intros [= H]. by apply IH. Qed.

Lemma chain_path_not_first (address l : string) :
  String.eqb (Btc.chain_path address l) ("/address/" +:+ address +:+ "/txs") = false.
Proof.
  apply String.eqb_neq. unfold Btc.chain_path. intros H.
  do 2 apply append_inj_r in H. simpl in H. discriminate.
Qed.

Lemma find_chain_path (address l : string) (hist : list Btc.Tx) :
  List.find (fun tx => String.eqb (Btc.chain_path address l)
                         (Btc.chain_path address (Btc.txid tx))) hist
  = List.find (fun tx => String.eqb (Btc.txid tx) l) hist.
Proof.
  induction hist as [| tx hist IH]; [done |]. cbn [List.find]. rewrite IH.
  destruct (String.eqb_spec (Btc.txid tx) l) as [-> | Hne].
  - by rewrite String.eqb_refl.
  - destruct (String.eqb_spec (Btc.chain_path address l)
                (Btc.chain_path address (Btc.txid tx))) as [Heq | _]; [| done].
    unfold Btc.chain_path in Heq. do 3 apply append_inj_r in Heq. congruence.
Qed.

Lemma after_txid_last (front : list Btc.Tx) (t : Btc.Tx) (rest : list Btc.Tx) :
  NoDup (Btc.txid <$> (front ++ t :: rest)) ->
  Btc.after_txid (Btc.txid t) (front ++ t :: rest) = rest
  /\ List.find (fun tx => String.eqb (Btc.txid tx) (Btc.txid t)) (front ++ t :: rest)
     = Some t.
Proof.
  induction front as [| a front IH].
  - simpl. by rewrite String.eqb_refl.
  - rewrite <- app_comm_cons, fmap_cons. intros [Ha Hnd]%NoDup_cons.
    cbn [Btc.after_txid List.find].
    destruct (String.eqb_spec (Btc.txid a) (Btc.txid t)) as [Heq | _];
      [| by apply IH].
    exfalso. apply Ha. rewrite Heq. apply list_elem_of_fmap.
    exists t. split; [done |]. apply elem_of_app. right. left.
Qed.

Section served_history.
Variable hist : list Btc.Tx.
Variable size : nat.
Variable address : string.
Hypothesis size_pos : (0 < size)%nat.
Hypothesis distinct : NoDup (Btc.txid <$> hist).
Hypothesis nonempty : Forall (fun t => Btc.txid t <> EmptyString) hist.

(** The request the loop makes once it holds [consumed] is answered by the
    page that follows. *)
Lemma serve_txs_page (n : nat) (consumed remaining : list Btc.Tx) :
  hist = consumed ++ remaining ->
  Btc.get_address_txs (Btc.serve_txs hist size address) n address
    (Btc.txid <$> last consumed)
  = Ok (take size remaining).
Proof using distinct nonempty.
  intros Hh. destruct (last consumed) as [t |] eqn:Hl.
  - apply last_Some in Hl as [front ->]. rewrite <- app_assoc in Hh. simpl in Hh.
    assert (Ht : Btc.txid t <> EmptyString).
    { eapply Forall_forall in nonempty; [exact nonempty |]. rewrite Hh.
      apply elem_of_app. right. left. }
    cbn [fmap option_fmap option_map Btc.get_address_txs].
    destruct (String.eqb_spec (Btc.txid t) EmptyString) as [? | _]; [done |].
    cbn [negb]. unfold Btc.serve_txs.
    change ("/address/" +:+ address +:+ "/txs/chain/" +:+ Btc.txid t)
      with (Btc.chain_path address (Btc.txid t)).
    rewrite chain_path_not_first, find_chain_path.
    rewrite Hh in distinct |- *.
    destruct (after_txid_last front t remaining distinct) as [Hafter ->].
    by rewrite Hafter.
  - apply last_None in Hl as ->. simpl in Hh. subst remaining.
    cbn [fmap option_fmap option_map Btc.get_address_txs]. unfold Btc.serve_txs.
    by rewrite String.eqb_refl.
Qed.

Lemma serve_txs_fetch (iters n : nat) (consumed remaining : list Btc.Tx) :
  hist = consumed ++ remaining ->
  Btc.history (Btc.fetch_loop (Btc.serve_txs hist size address) iters n address
                 (Btc.txid <$> last consumed) consumed)
  = Ok (consumed ++ take (iters * size) remaining).
Proof using size_pos distinct nonempty.
  revert n consumed remaining.
  induction iters as [| k IH]; intros n consumed remaining Hh.
  - simpl. by rewrite take_0, app_nil_r.
  - cbn [Btc.fetch_loop]. rewrite (serve_txs_page n consumed remaining Hh).
    destruct (last (take size remaining)) as [t |] eqn:Hl.
    + assert (Hcur : Some (Btc.txid t)
                     = Btc.txid <$> last (consumed ++ take size remaining)).
      { apply last_Some in Hl as [front Hf]. by rewrite Hf, app_assoc, last_snoc. }
      rewrite Hcur, (IH (S n) (consumed ++ take size remaining) (drop size remaining)).
      * by rewrite <- app_assoc, take_take_drop.
      * by rewrite <- app_assoc, take_drop.
    + apply last_None in Hl. cbn [Btc.history].
      destruct remaining as [| r remaining]; [by rewrite take_nil, app_nil_r |].
      destruct size; [lia | discriminate].
Qed.
End served_history.

(** Against an explorer that serves a fixed history of an address, newest
    first and [size] transactions a page (distinct, non-empty transaction
    ids), the paging loop gathers the [max_pages * size] newest
    transactions, in the order served: the whole history when it is no
    longer than that, and otherwise all but the oldest ones, which are
    left out without an error. The balance is the one of what was
    gathered. *)
Theorem served_history_newest_first :
  forall (hist : list Btc.Tx) (size : nat) (address : string) (max_pages : Z),
    (0 < size)%nat -> NoDup (Btc.txid <$> hist) ->
    Forall (fun t => Btc.txid t <> EmptyString) hist ->
    let explorer := Btc.serve_txs hist size address in
    let fetched := take (Z.to_nat max_pages * size) hist in
    Btc.history (Btc.fetch_history explorer address max_pages) = Ok fetched
    /\ (forall ts_cutoff,
          Btc.btc_balance_at_timestamp explorer address ts_cutoff max_pages
          = Ok (Btc.reference_balance address ts_cutoff fetched))
    /\ ((length hist <= Z.to_nat max_pages * size)%nat -> fetched = hist)
    /\ ((Z.to_nat max_pages * size < length hist)%nat ->
        hist = fetched ++ drop (Z.to_nat max_pages * size) hist
        /\ drop (Z.to_nat max_pages * size) hist <> []).
Proof.
  intros hist size address max_pages Hsize Hnd Hne explorer fetched.
  assert (Hf : Btc.history (Btc.fetch_history explorer address max_pages) = Ok fetched).
  { exact (serve_txs_fetch hist size address Hsize Hnd Hne (Z.to_nat max_pages)
             0%nat [] hist eq_refl). }
  split_and!.
  - exact Hf.
  - intros ts_cutoff. unfold Btc.btc_balance_at_timestamp. rewrite Hf.
    cbn [mbind res_bind mret res_ret]. by rewrite balance_of_history_reference.
  - intros Hlen. by apply take_ge.
  - intros Hlt. split; [symmetry; apply take_drop |].
    intros Hnil. apply (f_equal length) in Hnil. rewrite length_drop in Hnil.
    simpl in Hnil. lia.
Qed.

(** The sample history, served one transaction a page: three pages gather
    all of it, and with a cap of two pages the oldest transaction, which
    paid the address 500 at time 100, is left out, so that the balance at
    cutoff 150 comes out as 0 instead of 500. *)
Lemma served_history_newest_first_witness :
  Btc.history (Btc.fetch_history (Btc.serve_txs Samples.history_A 1 "A") "A" 2)
    = Ok [Samples.tx3; Samples.tx2]
  /\ Btc.btc_balance_at_timestamp (Btc.serve_txs Samples.history_A 1 "A") "A" 150 2
     = Ok 0
  /\ Btc.btc_balance_at_timestamp (Btc.serve_txs Samples.history_A 1 "A") "A" 150 3
     = Ok 500.
Proof.
  assert (Hnd : NoDup (Btc.txid <$> Samples.history_A)).
  { vm_compute. repeat constructor; rewrite ?elem_of_cons, ?elem_of_nil;
      intuition discriminate. }
  assert (Hne : Forall (fun t => Btc.txid t <> EmptyString) Samples.history_A).
  { repeat constructor; vm_compute; discriminate. }
  split_and!.
  - exact (proj1 (served_history_newest_first Samples.history_A 1 "A" 2
                    (Nat.lt_0_succ 0) Hnd Hne)).
  - by vm_compute.
  - by vm_compute.
Defined.

(** ** The explorer behind the retry wrapper *)

Lemma fetch_loop_ext (f g : nat -> string -> res (list Btc.Tx)) :
  (forall n path, f n path = g n path) ->
  forall (iters n : nat) (address : string) (last_seen : option string)
         (all_txs : list Btc.Tx),
    Btc.fetch_loop f iters n address last_seen all_txs
    = Btc.fetch_loop g iters n address last_seen all_txs.
Proof.
  intros Hfg iters. induction iters as [| k IH]; intros n address last_seen all_txs;
    [done |].
  cbn [Btc.fetch_loop].
  assert (Hp : Btc.get_address_txs f n address last_seen
               = Btc.get_address_txs g n address last_seen).
  { unfold Btc.get_address_txs. destruct last_seen as [l |]; [| done].
    by destruct (negb (String.eqb l EmptyString)). }
  rewrite Hp. destruct (Btc.get_address_txs g n address last_seen); [| done].
  destruct (last a); [apply IH | done].
Qed.

(** A page request settles on the first attempt that does not fail on a
    retried exception, if it comes among the first five: on the decoded
    body of its reply (or on the exception of the decoder, which is not
    retried), or on its exception. When every page request settles the way
    [explorer] answers, the balance is the one computed against
    [explorer]: retried failures leave no trace in the result. *)
Theorem esplora_retries_transparent :
  forall (session : nat -> string -> nat -> res (Btc.Response (res (list Btc.Tx))))
         (explorer : nat -> string -> res (list Btc.Tx))
         (address : string) (ts_cutoff max_pages : Z),
    (forall n path,
       exists k, (k < 5)%nat
         /\ Btc.retried_run (session n (Btc.ESPLORA_API +:+ path)) 0 k
         /\ ((exists r, Btc.attempt (session n (Btc.ESPLORA_API +:+ path)) k = Ok r
                        /\ Btc.body r = explorer n path)
             \/ (exists e, Btc.attempt (session n (Btc.ESPLORA_API +:+ path)) k = Raise e
                           /\ Btc.retried e = false
                           /\ explorer n path = Raise e))) ->
    Btc.btc_balance_at_timestamp (Btc.esplora_get_json session) address ts_cutoff
      max_pages
    = Btc.btc_balance_at_timestamp explorer address ts_cutoff max_pages.
Proof.
  intros session explorer address ts_cutoff max_pages Hsettle.
  unfold Btc.btc_balance_at_timestamp, Btc.fetch_history.
  rewrite (fetch_loop_ext (Btc.esplora_get_json session) explorer); [done |].
  intros n path. unfold Btc.esplora_get_json, Btc.esplora_request, Btc.request_with_retry.
  destruct (Hsettle n path) as (k & Hk & Hrun & [(r & Hr & Hb) | (e & He & Hnr & Hx)]).
  - destruct (retry_loop_returns (session n (Btc.ESPLORA_API +:+ path))
                (Btc.ESPLORA_API +:+ path) (seq 1 Btc.MAX_RETRIES) 0%nat None [] k r)
      as [-> _]; [simpl; lia | done | done |]. done.
  - destruct (retry_loop_reraises (session n (Btc.ESPLORA_API +:+ path))
                (Btc.ESPLORA_API +:+ path) (seq 1 Btc.MAX_RETRIES) 0%nat None [] k e)
      as [-> _]; [simpl; lia | done | done | done |]. by rewrite Hx.
Qed.

(** The sample explorer behind a connection that answers 503 three times
    before every reply. *)
Lemma esplora_retries_transparent_witness :
  Btc.btc_balance_at_timestamp (Btc.esplora_get_json Samples.flaky_esplora) "A" 250 200
  = Ok 200.
Proof.
  refine (eq_trans
            (esplora_retries_transparent Samples.flaky_esplora
               (fun n path => Samples.explorer_url (Btc.ESPLORA_API +:+ path))
               "A" 250 200 _) _); [| by vm_compute].
  intros n path. exists 3%nat. split; [lia |]. split.
  - intros j Hj. exists (HTTPError (Some 503)). split; [| done].
    unfold Btc.attempt, Samples.flaky_esplora.
    by rewrite bool_decide_eq_true_2 by (simpl; lia).
  - left. eexists. split; reflexivity.
Defined.

(** ** What the balance depends on *)

Lemma retained_class (cutoff k : Z) (h : list Btc.Tx) :
  filter (fun tx => Btc.sort_time tx = k) (List.filter (Btc.retained cutoff) h)
  = if decide (k <= cutoff)
    then filter (fun tx => Btc.tx_block_time tx = Some k) h
    else [].
Proof.
  induction h as [| tx h IH]; [by destruct (decide _) |].
  cbn [List.filter]. rewrite (filter_cons (fun tx => Btc.tx_block_time tx = Some k)).
  unfold Btc.retained at 1.
  destruct (Btc.tx_block_time tx) as [t |] eqn:Ht.
  - assert (Hst : Btc.sort_time tx = t) by (unfold Btc.sort_time; by rewrite Ht).
    case_bool_decide as Hle.
    + rewrite filter_cons, IH.
      destruct (decide (Btc.sort_time tx = k)) as [Hk | Hk]; rewrite Hst in Hk.
      * subst k. by rewrite !decide_True by done.
      * rewrite (decide_False (P := Some t = Some k)) by congruence. done.
    + rewrite IH. destruct (decide (k <= cutoff)); [| done].
      rewrite (decide_False (P := Some t = Some k)); [done |]. intros [= ->]. lia.
  - rewrite IH. by rewrite (decide_False (P := None = Some k)).
Qed.

(** The balance depends on the fetched history only through the
    transactions confirmed at each time up to the cutoff, in their fetched
    order: two histories that agree on these give the same balance. In
    particular a transaction that is unconfirmed, or confirmed after the
    cutoff, changes nothing wherever it stands. *)
Theorem btc_balance_depends_on_confirmed :
  forall (address : string) (cutoff : Z) (h1 h2 : list Btc.Tx),
    (forall t, t <= cutoff ->
       filter (fun tx => Btc.tx_block_time tx = Some t) h1
       = filter (fun tx => Btc.tx_block_time tx = Some t) h2) ->
    Btc.balance_of_history address cutoff h1 = Btc.balance_of_history address cutoff h2
    /\ (forall front back tx,
          h1 = front ++ tx :: back ->
          (forall t, Btc.tx_block_time tx = Some t -> cutoff < t) ->
          Btc.balance_of_history address cutoff h1
          = Btc.balance_of_history address cutoff (front ++ back)).
Proof.
  assert (Hmain : forall address cutoff h1 h2,
            (forall t, t <= cutoff ->
               filter (fun tx => Btc.tx_block_time tx = Some t) h1
               = filter (fun tx => Btc.tx_block_time tx = Some t) h2) ->
            Btc.balance_of_history address cutoff h1
            = Btc.balance_of_history address cutoff h2).
  { intros address cutoff h1 h2 Hcl. unfold Btc.balance_of_history.
    rewrite !eligible_txs_retained. do 2 f_equal.
    apply (sorted_classes_eq Btc.sort_time); [apply sort_key_sorted .. |].
    intros k. rewrite !sort_key_classes, !retained_class.
    destruct (decide (k <= cutoff)); [by apply Hcl | done]. }
  intros address cutoff h1 h2 Hcl. split; [by apply Hmain |].
  intros front back tx -> Hlate. apply Hmain. intros t Ht.
  rewrite !filter_app, filter_cons.
  destruct (decide (Btc.tx_block_time tx = Some t)) as [Heq | _]; [| done].
  specialize (Hlate t Heq). lia.
Qed.

(** The sample history in another order and without its unconfirmed
    transaction. *)
Lemma btc_balance_depends_on_confirmed_witness :
  Btc.balance_of_history "A" 250 Samples.history_A
  = Btc.balance_of_history "A" 250 [Samples.tx1; Samples.tx2].
Proof.
  refine (proj1 (btc_balance_depends_on_confirmed "A" 250 Samples.history_A
                   [Samples.tx1; Samples.tx2] _)).
  intros t _. unfold Samples.history_A. rewrite !filter_cons, !filter_nil.
  change (Btc.tx_block_time Samples.tx3) with (@None Z).
  change (Btc.tx_block_time Samples.tx2) with (Some 200).
  change (Btc.tx_block_time Samples.tx1) with (Some 100).
  rewrite (decide_False (P := None = Some t)) by done.
  destruct (decide (Some 200 = Some t)) as [[= <-] | ?];
    [by rewrite (decide_False (P := Some 100 = Some 200)) |].
  by destruct (decide (Some 100 = Some t)).
Defined.

(** ** The block parameter *)

Lemma hex_digit_val_hex_char (d : Z) :
  0 <= d < 16 -> hex_digit_val (hex_char d) = Some d.
Proof.
  intros Hd. destruct d as [| p | p]; [reflexivity | | lia].
  do 4 (destruct p as [p | p |]; try reflexivity; try lia).
Qed.

Lemma hex_char_nonzero (d : Z) : 0 < d < 16 -> hex_char d <> "0"%char.
Proof.
  intros Hd. destruct d as [| p | p]; [lia | | lia].
  do 4 (destruct p as [p | p |]; try discriminate; try lia).
Qed.

Lemma hex_digits_value (fuel : nat) (n : Z) (acc : string) :
  0 <= n < 16 ^ Z.of_nat fuel ->
  hex_value (hex_digits fuel n acc) 0 = hex_value acc n.
Proof.
  revert n acc. induction fuel as [| k IH]; intros n acc Hn.
  - simpl in *. by replace n with 0 by lia.
  - cbn [hex_digits].
    assert (Hmod : 0 <= n mod 16 < 16) by (apply Z.mod_pos_bound; lia).
    assert (Hdm : n = 16 * (n / 16) + n mod 16) by (apply Z.div_mod; lia).
    destruct (Z.eqb_spec (n / 16) 0) as [H0 | Hne].
    + cbn [hex_value]. rewrite hex_digit_val_hex_char by done.
      f_equal. lia.
    + rewrite IH.
      * cbn [hex_value]. rewrite hex_digit_val_hex_char by done. f_equal. lia.
      * split; [apply Z.div_pos; lia |].
        apply Z.div_lt_upper_bound; [lia |].
        rewrite Nat2Z.inj_succ, Z.pow_succ_r in Hn by lia. lia.
Qed.

Lemma hex_digits_shape (fuel : nat) (n : Z) (acc : string) :
  0 <= n -> all_hex acc = true ->
  exists c rest, hex_digits (S fuel) n acc = String c rest
                 /\ all_hex (String c rest) = true
                 /\ (0 < n < 16 ^ Z.of_nat (S fuel) -> c <> "0"%char).
Proof.
  revert n acc. induction fuel as [| k IH]; intros n acc Hn Hacc.
  - cbn [hex_digits].
    assert (Hmod : 0 <= n mod 16 < 16) by (apply Z.mod_pos_bound; lia).
    assert (Hall : all_hex (String (hex_char (n mod 16)) acc) = true).
    { cbn [all_hex]. unfold is_hex_digit.
      by rewrite hex_digit_val_hex_char, Hacc. }
    assert (Htop : 0 < n < 16 ^ Z.of_nat 1 -> hex_char (n mod 16) <> "0"%char).
    { intros H. change (16 ^ Z.of_nat 1) with 16 in H.
      apply hex_char_nonzero. rewrite Z.mod_small by lia. lia. }
    destruct (n / 16 =? 0)%Z; eexists _, _; split_and!; done.
  - remember (S k) as fuel eqn:Hfuel. cbn [hex_digits].
    assert (Hmod : 0 <= n mod 16 < 16) by (apply Z.mod_pos_bound; lia).
    assert (Hall : all_hex (String (hex_char (n mod 16)) acc) = true).
    { cbn [all_hex]. unfold is_hex_digit.
      by rewrite hex_digit_val_hex_char, Hacc. }
    destruct (Z.eqb_spec (n / 16) 0) as [H0 | Hne].
    + eexists _, _. split_and!; [done | done |]. intros H.
      apply hex_char_nonzero.
      assert (n = 16 * (n / 16) + n mod 16) by (apply Z.div_mod; lia). lia.
    + subst fuel.
      destruct (IH (n / 16) (String (hex_char (n mod 16)) acc))
        as (c & rest & -> & Hh & Htop); [apply Z.div_pos; lia | done |].
      exists c, rest. split_and!; [done | done |]. intros H. apply Htop.
      assert (0 <= n / 16) by (apply Z.div_pos; lia).
      split; [lia |]. apply Z.div_lt_upper_bound; [lia |].
      rewrite (Nat2Z.inj_succ (S k)), Z.pow_succ_r in H by lia. lia.
Qed.

Lemma log2_fuel (n : Z) : 0 <= n -> n < 16 ^ Z.of_nat (S (Z.to_nat (Z.log2 n))).
Proof.
  intros Hn. rewrite Nat2Z.inj_succ, Z2Nat.id by apply Z.log2_nonneg.
  destruct (decide (n = 0)) as [-> | Hne]; [done |].
  pose proof (Z.log2_spec n ltac:(lia)) as [_ Hlt].
  pose proof (Z.log2_nonneg n).
  assert (2 ^ Z.succ (Z.log2 n) <= 16 ^ Z.succ (Z.log2 n))
    by (apply Z.pow_le_mono_l; lia).
  lia.
Qed.

(** The block parameter of the two balance reads, [hex(block_number)], is
    read back by [int(_, 16)] as the block number; for a block number that
    is not negative it is [0x] followed by hexadecimal digits, at least
    one, the first of them not 0 unless the number is 0. *)
Theorem hex_block_parameter :
  forall n : Z,
    int16 (hex n) = Ok n
    /\ (0 <= n ->
        exists c rest,
          hex n = "0x" +:+ String c rest
          /\ all_hex (String c rest) = true
          /\ (0 < n -> c <> "0"%char)).
Proof.
  intros n. unfold hex. destruct (Z.ltb_spec n 0) as [Hneg | Hpos].
  - split; [| lia].
    destruct (hex_digits_shape (Z.to_nat (Z.log2 (- n))) (- n) EmptyString)
      as (c & rest & Hd & _ & _); [lia | done |].
    pose proof (hex_digits_value (S (Z.to_nat (Z.log2 (- n)))) (- n) EmptyString) as Hv.
    rewrite Hd in Hv |- *.
    change (int16 ("-0x" +:+ String c rest))
      with (match hex_value (String c rest) 0 with
            | Some v => Ok (- v)
            | None => Raise ValueError
            end).
    rewrite Hv by (split; [lia | apply log2_fuel; lia]).
    simpl. f_equal. lia.
  - destruct (hex_digits_shape (Z.to_nat (Z.log2 n)) n EmptyString)
      as (c & rest & Hd & Hall & Htop); [lia | done |].
    pose proof (hex_digits_value (S (Z.to_nat (Z.log2 n))) n EmptyString) as Hv.
    rewrite Hd in Hv |- *.
    split.
    + apply int16_0x; [done |]. apply Hv. split; [lia | by apply log2_fuel].
    + intros _. exists c, rest. split_and!; [done | done |].
      intros H. apply Htop. split; [lia | by apply log2_fuel].
Qed.

(** ** The JSON-RPC helper *)

(** What [rpc] makes of the body of a reply. *)
Lemma rpc_body (cv : Conversions) (j : Json) :
  (has_error ← py_in "error" j;
   if has_error : bool then
     err ← subscript j "error"; Raise (RuntimeError (str_of cv err))
   else subscript j "result")
  = match j with
    | JObj fields =>
        match lookup_field "error" fields, lookup_field "result" fields with
        | Some err, _ => Raise (RuntimeError (str_of cv err))
        | None, Some v => Ok v
        | None, None => Raise KeyError
        end
    | JNull | JBool _ | JInt _ | JFloat _ | JStr _ | JList _ => Raise TypeError
    end.
Proof.
  destruct j as [| b | n | x | s | items | fields]; try done.
  - cbn [py_in mbind res_bind]. by destruct (occurs "error" s).
  - cbn [py_in mbind res_bind]. by destruct (existsb _ items).
  - cbn [py_in mbind res_bind subscript].
    destruct (lookup_field "error" fields) as [err |].
    + by rewrite bool_decide_eq_true_2 by by eexists.
    + rewrite bool_decide_eq_false_2 by by intros [? ?].
      by destruct (lookup_field "result" fields).
Qed.

Lemma raise_for_status_ok {B} (r : Btc.Response B) :
  Btc.raise_for_status r
  = if bool_decide (400 <= Btc.status_code r < 600)
    then Raise (HTTPError (Some (Btc.status_code r))) else Ok tt.
Proof. done. Qed.

(** [rpc] returns the [result] member of the reply exactly when the request
    is answered with a status that is no error and a body that decodes to
    an object with a [result] member and no [error] member. An [error]
    member, whatever its value and whether or not there is a result, makes
    it raise a [RuntimeError] built from that value; an error status makes
    it raise before the body is read; a body that is no object is a
    [TypeError], and an object with neither member a [KeyError]. The
    Ethereum and the Solana script have the same helper. *)
Theorem rpc_result_or_error :
  forall (cv : Conversions) (key : string)
         (post : string -> Json -> res (Btc.Response (res Json)))
         (method : string) (params : Json),
    (let reply := post (Eth.ALCHEMY_RPC key) (Eth.rpc_payload method params) in
     let out := Eth.rpc cv key post method params in
     (forall v, out = Ok v <->
        exists r fields,
          reply = Ok r /\ ~ 400 <= Btc.status_code r < 600
          /\ Btc.body r = Ok (JObj fields)
          /\ lookup_field "error" fields = None
          /\ lookup_field "result" fields = Some v)
     /\ (forall r fields err,
           reply = Ok r -> ~ 400 <= Btc.status_code r < 600 ->
           Btc.body r = Ok (JObj fields) -> lookup_field "error" fields = Some err ->
           out = Raise (RuntimeError (str_of cv err)))
     /\ (forall r, reply = Ok r -> 400 <= Btc.status_code r < 600 ->
           out = Raise (HTTPError (Some (Btc.status_code r))))
     /\ (forall r j, reply = Ok r -> ~ 400 <= Btc.status_code r < 600 ->
           Btc.body r = Ok j -> is_dict j = false -> out = Raise TypeError)
     /\ (forall r fields, reply = Ok r -> ~ 400 <= Btc.status_code r < 600 ->
           Btc.body r = Ok (JObj fields) -> lookup_field "error" fields = None ->
           lookup_field "result" fields = None -> out = Raise KeyError))
    /\ (let reply := post (Solana.ALCHEMY_RPC key) (Solana.rpc_payload method params) in
        let out := Solana.rpc cv key post method params in
        (forall v, out = Ok v <->
           exists r fields,
             reply = Ok r /\ ~ 400 <= Btc.status_code r < 600
             /\ Btc.body r = Ok (JObj fields)
             /\ lookup_field "error" fields = None
             /\ lookup_field "result" fields = Some v)
        /\ (forall r fields err,
              reply = Ok r -> ~ 400 <= Btc.status_code r < 600 ->
              Btc.body r = Ok (JObj fields) -> lookup_field "error" fields = Some err ->
              out = Raise (RuntimeError (str_of cv err)))
        /\ (forall r, reply = Ok r -> 400 <= Btc.status_code r < 600 ->
              out = Raise (HTTPError (Some (Btc.status_code r))))).
Proof.
  intros cv key post method params.
  assert (Hgen : forall reply out,
            out = (r ← reply;
                   _ ← Btc.raise_for_status r;
                   j ← Btc.body r;
                   has_error ← py_in "error" j;
                   if has_error : bool then
                     err ← subscript j "error"; Raise (RuntimeError (str_of cv err))
                   else subscript j "result") ->
            (forall v, out = Ok v <->
               exists r fields,
                 reply = Ok r /\ ~ 400 <= Btc.status_code r < 600
                 /\ Btc.body r = Ok (JObj fields)
                 /\ lookup_field "error" fields = None
                 /\ lookup_field "result" fields = Some v)
            /\ (forall r fields err,
                  reply = Ok r -> ~ 400 <= Btc.status_code r < 600 ->
                  Btc.body r = Ok (JObj fields) ->
                  lookup_field "error" fields = Some err ->
                  out = Raise (RuntimeError (str_of cv err)))
            /\ (forall r, reply = Ok r -> 400 <= Btc.status_code r < 600 ->
                  out = Raise (HTTPError (Some (Btc.status_code r))))
            /\ (forall r j, reply = Ok r -> ~ 400 <= Btc.status_code r < 600 ->
                  Btc.body r = Ok j -> is_dict j = false -> out = Raise TypeError)
            /\ (forall r fields, reply = Ok r -> ~ 400 <= Btc.status_code r < 600 ->
                  Btc.body r = Ok (JObj fields) -> lookup_field "error" fields = None ->
                  lookup_field "result" fields = None -> out = Raise KeyError)).
  { intros reply out ->.
    assert (Hok : forall r j, reply = Ok r -> ~ 400 <= Btc.status_code r < 600 ->
              Btc.body r = Ok j ->
              (r ← reply;
               _ ← Btc.raise_for_status r;
               j ← Btc.body r;
               has_error ← py_in "error" j;
               if has_error : bool then
                 err ← subscript j "error"; Raise (RuntimeError (str_of cv err))
               else subscript j "result")
              = match j with
                | JObj fields =>
                    match lookup_field "error" fields, lookup_field "result" fields with
                    | Some err, _ => Raise (RuntimeError (str_of cv err))
                    | None, Some v => Ok v
                    | None, None => Raise KeyError
                    end
                | _ => Raise TypeError
                end).
    { intros r j -> Hst Hb. cbn [mbind res_bind].
      rewrite raise_for_status_ok, bool_decide_eq_false_2 by done.
      rewrite Hb. cbn [mbind res_bind].
      rewrite <- (rpc_body cv j). done. }
    split_and!.
    - intros v. split.
      + destruct reply as [r | e] eqn:Hr; [| done].
        cbn [mbind res_bind]. rewrite raise_for_status_ok.
        case_bool_decide as Hst; [done |].
        destruct (Btc.body r) as [j | e] eqn:Hb; [| done].
        cbn [mbind res_bind]. rewrite rpc_body.
        destruct j as [| | | | | | fields]; try done.
        destruct (lookup_field "error" fields) eqn:He; [done |].
        destruct (lookup_field "result" fields) eqn:Hres; [| done].
        intros [= ->]. by exists r, fields.
      + intros (r & fields & Hr & Hst & Hb & He & Hres).
        rewrite (Hok r _ Hr Hst Hb). by rewrite He, Hres.
    - intros r fields err Hr Hst Hb He. rewrite (Hok r _ Hr Hst Hb). by rewrite He.
    - intros r -> Hst. cbn [mbind res_bind].
      by rewrite raise_for_status_ok, bool_decide_eq_true_2.
    - intros r j Hr Hst Hb Hd. rewrite (Hok r _ Hr Hst Hb). by destruct j.
    - intros r fields Hr Hst Hb He Hres. rewrite (Hok r _ Hr Hst Hb).
      by rewrite He, Hres. }
  split.
  - apply Hgen. reflexivity.
  - destruct (Hgen (post (Solana.ALCHEMY_RPC key) (Solana.rpc_payload method params))
                (Solana.rpc cv key post method params) eq_refl)
      as (H1 & H2 & H3 & _).
    by split_and!.
Qed.

(** ** The block before a time *)

Lemma eq_str_true (x : Json) (s : string) : Eth.eq_str x s = true <-> x = JStr s.
Proof.
  destruct x as [| | | | t | |]; simpl; try (split; [discriminate | discriminate]).
  rewrite String.eqb_eq. split; [by intros -> | by intros [= ->]].
Qed.

(** Without an Etherscan key (unset or empty) the lookup raises before any
    request. With a key it returns a block exactly when the request is
    answered with a status that is no error and an object whose [status]
    is the string "1" and whose [result] [int] can read; any other
    [status], the number 1 included, makes it raise a [RuntimeError] built
    from the whole reply. *)
Theorem etherscan_block_lookup :
  forall (cv : Conversions) (key : option string)
         (requests_get : string -> Json -> res (Btc.Response (res Json))) (ts : Z),
    let out := Eth.get_block_by_time_etherscan cv key requests_get ts in
    (default EmptyString key = EmptyString ->
     out = Raise (RuntimeError "Set ETHERSCAN_KEY."))
    /\ (forall apikey, key = Some apikey -> apikey <> EmptyString ->
        let reply := requests_get "https://api.etherscan.io/v2/api"
                       (Eth.etherscan_params apikey ts) in
        (forall block, out = Ok block <->
           exists r fields result,
             reply = Ok r /\ ~ 400 <= Btc.status_code r < 600
             /\ Btc.body r = Ok (JObj fields)
             /\ lookup_field "status" fields = Some (JStr "1")
             /\ lookup_field "result" fields = Some result
             /\ py_int cv result = Ok block)
        /\ (forall r fields,
              reply = Ok r -> ~ 400 <= Btc.status_code r < 600 ->
              Btc.body r = Ok (JObj fields) ->
              lookup_field "status" fields <> Some (JStr "1") ->
              out = Raise (RuntimeError (str_of cv (JObj fields))))
        /\ (forall r, reply = Ok r -> 400 <= Btc.status_code r < 600 ->
              out = Raise (HTTPError (Some (Btc.status_code r))))).
Proof.
  intros cv key requests_get ts out. split.
  - intros Hk. unfold out, Eth.get_block_by_time_etherscan. by rewrite Hk.
  - intros apikey -> Hne reply.
    assert (Hout : out = (r ← reply;
                          _ ← Btc.raise_for_status r;
                          j ← Btc.body r;
                          status ← get j "status";
                          if negb (Eth.eq_str status "1")
                          then Raise (RuntimeError (str_of cv j))
                          else result ← subscript j "result"; py_int cv result)).
    { unfold out, Eth.get_block_by_time_etherscan.
      change (default EmptyString (Some apikey)) with apikey.
      by destruct (String.eqb_spec apikey EmptyString). }
    assert (Hstatus : forall fields,
              Eth.eq_str (default JNull (lookup_field "status" fields)) "1" = true
              <-> lookup_field "status" fields = Some (JStr "1")).
    { intros fields. rewrite eq_str_true.
      destruct (lookup_field "status" fields); simpl; [| done].
      split; congruence. }
    assert (Hget : forall fields,
              Py.get (JObj fields) "status"
              = Ok (default JNull (lookup_field "status" fields))).
    { intros fields. unfold Py.get, get_default.
      by destruct (lookup_field "status" fields). }
    split_and!.
    + intros block. rewrite Hout. split.
      * destruct reply as [r | e] eqn:Hr; [| done].
        cbn [mbind res_bind]. rewrite raise_for_status_ok.
        case_bool_decide as Hst; [done |].
        destruct (Btc.body r) as [j | e] eqn:Hb; [| done].
        cbn [mbind res_bind].
        destruct j as [| | | | | | fields]; try done.
        rewrite Hget. cbn [mbind res_bind].
        destruct (Eth.eq_str _ "1") eqn:Hs; [| done].
        apply Hstatus in Hs. cbn [negb subscript].
        destruct (lookup_field "result" fields) as [result |] eqn:Hres; [| done].
        cbn [mbind res_bind]. intros Hint. by exists r, fields, result.
      * intros (r & fields & result & -> & Hst & Hb & Hs & Hres & Hint).
        cbn [mbind res_bind].
        rewrite raise_for_status_ok, bool_decide_eq_false_2 by done.
        rewrite Hb. cbn [mbind res_bind]. rewrite Hget. cbn [mbind res_bind].
        apply Hstatus in Hs. rewrite Hs. cbn [negb subscript]. by rewrite Hres.
    + intros r fields Hr Hst Hb Hs. rewrite Hout, Hr. cbn [mbind res_bind].
      rewrite raise_for_status_ok, bool_decide_eq_false_2 by done.
      rewrite Hb. cbn [mbind res_bind]. rewrite Hget. cbn [mbind res_bind].
      destruct (Eth.eq_str _ "1") eqn:Heq; [| done].
      by apply Hstatus in Heq.
    + intros r Hr Hst. rewrite Hout, Hr. cbn [mbind res_bind].
      by rewrite raise_for_status_ok, bool_decide_eq_true_2.
Qed.

(** ** The snapshot of an Ethereum wallet *)

Lemma eth_stable_rate_total (rt : Builtins)
    (prices : string -> string -> string -> res Json) (symbol ondate : string) :
  symbol = "USDC" \/ symbol = "USDT" ->
  exists x, Eth.fx_rate_usd_end_of_day rt prices symbol ondate = Ok x.
Proof.
  intros Hs. unfold Eth.fx_rate_usd_end_of_day, try_except.
  destruct (Eth.fx_rate_body rt prices symbol ondate) as [x | e]; [by exists x |].
  rewrite stable_fallback_table, decide_True by done. by eexists.
Qed.

(** Once the date is read, the block found, the four balances read at that
    block and divided by their units, the snapshot depends on the ETH price
    alone: if that lookup raises, the snapshot raises the same exception;
    if it returns a rate, the snapshot is the row with the four amounts,
    the ETH rate also as the WETH rate, the rates the USDC and USDT
    lookups return (they always return one), the four products and their
    sum taken from left to right. *)
Theorem eth_snapshot_row :
  forall (rt : Builtins) (cv : Conversions) (akey : string) (ekey : option string)
         (post get : string -> Json -> res (Btc.Response (res Json)))
         (wallet ondate : string) (ts block wei usdc_raw usdt_raw weth_raw : Z)
         (eth_amt usdc_amt usdt_amt weth_amt : float),
    let rpc := Eth.rpc cv akey post in
    let fx := Eth.fx_rate_usd_end_of_day rt (Eth.historical_price_usd akey post) in
    let snapshot := Eth.eth_snapshot_with_usd rt cv akey ekey post get wallet ondate in
    cutoff_of_date cv ondate = Ok ts ->
    Eth.get_block_by_time_etherscan cv ekey get ts = Ok block ->
    Eth.eth_balance_at_block rpc wallet block = Ok wei ->
    Eth.erc20_balance_at_block rpc wallet
      "0xA0b86991c6218b36c1d19d4a2e9eb0ce3606eb48" block = Ok usdc_raw ->
    Eth.erc20_balance_at_block rpc wallet
      "0xdAC17F958D2ee523a2206206994597C13D831ec7" block = Ok usdt_raw ->
    Eth.erc20_balance_at_block rpc wallet
      "0xC02aaA39b223FE8D0A0e5C4F27eAD9083C756Cc2" block = Ok weth_raw ->
    div_pow10 rt wei 18 = Ok eth_amt ->
    div_pow10 rt usdc_raw 6 = Ok usdc_amt ->
    div_pow10 rt usdt_raw 6 = Ok usdt_amt ->
    div_pow10 rt weth_raw 18 = Ok weth_amt ->
    exists usdc_rate usdt_rate,
      fx "USDC" ondate = Ok usdc_rate
      /\ fx "USDT" ondate = Ok usdt_rate
      /\ (forall e, fx "ETH" ondate = Raise e -> snapshot = Raise e)
      /\ (forall eth_rate, fx "ETH" ondate = Ok eth_rate ->
            snapshot
            = Ok (Eth.mkRow wallet ondate block eth_amt usdc_amt usdt_amt weth_amt
                    eth_rate usdc_rate usdt_rate eth_rate
                    (eth_amt * eth_rate) (usdc_amt * usdc_rate)
                    (usdt_amt * usdt_rate) (weth_amt * eth_rate)
                    (eth_amt * eth_rate + usdc_amt * usdc_rate
                     + usdt_amt * usdt_rate + weth_amt * eth_rate))%float).
Proof.
  intros rt cv akey ekey post get wallet ondate ts block wei usdc_raw usdt_raw
    weth_raw eth_amt usdc_amt usdt_amt weth_amt rpc fx snapshot
    Hts Hblock Hwei Husdc Husdt Hweth Hd1 Hd2 Hd3 Hd4.
  destruct (eth_stable_rate_total rt (Eth.historical_price_usd akey post) "USDC" ondate)
    as [usdc_rate Hur]; [by left |].
  destruct (eth_stable_rate_total rt (Eth.historical_price_usd akey post) "USDT" ondate)
    as [usdt_rate Htr]; [by right |].
  exists usdc_rate, usdt_rate.
  assert (Hsnap : snapshot
                  = (eth_usd_rate ← fx "ETH" ondate;
                     Ok (Eth.mkRow wallet ondate block eth_amt usdc_amt usdt_amt weth_amt
                           eth_usd_rate usdc_rate usdt_rate eth_usd_rate
                           (eth_amt * eth_usd_rate) (usdc_amt * usdc_rate)
                           (usdt_amt * usdt_rate) (weth_amt * eth_usd_rate)
                           (eth_amt * eth_usd_rate + usdc_amt * usdc_rate
                            + usdt_amt * usdt_rate + weth_amt * eth_usd_rate))%float)).
  { unfold snapshot, fx, Eth.eth_snapshot_with_usd. rewrite Hts. cbn [mbind res_bind].
    rewrite Hblock. cbn [mbind res_bind]. fold rpc. rewrite Hwei. cbn [mbind res_bind].
    rewrite Hd1. cbn [mbind res_bind].
    change (Eth.token "USDC")
      with (Ok (Eth.mkToken "0xA0b86991c6218b36c1d19d4a2e9eb0ce3606eb48" 6)).
    change (Eth.token "USDT")
      with (Ok (Eth.mkToken "0xdAC17F958D2ee523a2206206994597C13D831ec7" 6)).
    change (Eth.token "WETH")
      with (Ok (Eth.mkToken "0xC02aaA39b223FE8D0A0e5C4F27eAD9083C756Cc2" 18)).
    cbn [mbind res_bind Eth.address Eth.decimals].
    rewrite Husdc. cbn [mbind res_bind]. rewrite Husdt. cbn [mbind res_bind].
    rewrite Hweth. cbn [mbind res_bind]. rewrite Hd2. cbn [mbind res_bind].
    rewrite Hd3. cbn [mbind res_bind]. rewrite Hd4. cbn [mbind res_bind].
    destruct (Eth.fx_rate_usd_end_of_day rt (Eth.historical_price_usd akey post)
                "ETH" ondate) as [eth_rate | e]; [| done].
    cbn [mbind res_bind]. rewrite Hur. cbn [mbind res_bind]. rewrite Htr.
    reflexivity. }
  split_and!; [done | done | |].
  - intros e He. by rewrite Hsnap, He.
  - intros eth_rate He. by rewrite Hsnap, He.
Qed.

(** The sample wallet on 2025-12-31: 2 ETH and 1.5 USDC and USDT at the
    block the explorer names, every rate the latest sample point 1.5. *)
Lemma eth_snapshot_row_witness :
  exists row,
    Eth.eth_snapshot_with_usd Samples.rt Samples.cv "KEY" (Some "E")
      Samples.eth_post Samples.etherscan_get "0xW" "2025-12-31" = Ok row
    /\ Eth.block_closest_before row = 24136052
    /\ Eth.eth row = 2%float
    /\ Eth.usdc row = 1.5%float
    /\ Eth.weth_usd_rate row = Eth.eth_usd_rate row
    /\ Eth.eth_usd_value row = 3%float.
Proof.
  destruct (eth_snapshot_row Samples.rt Samples.cv "KEY" (Some "E")
              Samples.eth_post Samples.etherscan_get "0xW" "2025-12-31"
              1767225599 24136052 2000000000000000000 1500000 1500000 1500000
              2%float 1.5%float 1.5%float (Samples.float_of_Z 1500000
                                           / Samples.float_of_Z (10 ^ 18))%float)
    as (usdc_rate & usdt_rate & _ & _ & _ & Hrow); try by vm_compute.
  eexists. split; [exact (Hrow 1.5%float ltac:(by vm_compute)) |].
  by vm_compute.
Defined.

(** ** Price requests: retried by the Bitcoin script only *)

(** When the price API answers with one of the statuses 429, 500, 502, 503
    and 504: the Bitcoin script asks again, and has the body of the first
    reply without an error status if it comes by the fifth call; the
    Ethereum script has asked once, and its lookup raises that
    [HTTPError], except for USDC and USDT, which get 1.0; the Solana
    script has asked once as well, and its lookup goes on to the secondary
    source for JITOSOL and is "unavailable" for any other symbol, so that
    SOL is priced 0.0. *)
Theorem price_request_retried_by_btc_only :
  forall (rt : Builtins) (key symbol ondate : string) (busy : Btc.Response (res Json)),
    Btc.status_code busy ∈ [429; 500; 502; 503; 504] ->
    let start := ondate +:+ "T00:00:00Z" in
    let end_ := ondate +:+ "T23:59:59Z" in
    (forall session k r,
       (k < 5)%nat ->
       (forall j, (j < k)%nat ->
          session (Btc.prices_url key) (Btc.price_request symbol start end_) j = Ok busy) ->
       session (Btc.prices_url key) (Btc.price_request symbol start end_) k = Ok r ->
       ~ 400 <= Btc.status_code r < 600 ->
       Btc.historical_price_usd key session symbol start end_ = Btc.body r)
    /\ (forall post,
          post (Eth.prices_url key) (Eth.price_request symbol start end_) = Ok busy ->
          Eth.historical_price_usd key post symbol start end_
            = Raise (HTTPError (Some (Btc.status_code busy)))
          /\ Eth.fx_rate_usd_end_of_day rt (Eth.historical_price_usd key post) symbol ondate
             = if decide (symbol = "USDC" \/ symbol = "USDT") then Ok 1%float
               else Raise (HTTPError (Some (Btc.status_code busy))))
    /\ (forall post coingecko,
          post (Solana.prices_url key) (Solana.price_request symbol start end_) = Ok busy ->
          Solana.price_on_date_usd rt (Solana.historical_price_usd key post) coingecko
            symbol ondate
            = (if decide (upper symbol = "JITOSOL")
               then Solana.coingecko_price_on_date_usd rt coingecko "jito-staked-sol" ondate
               else None)
          /\ (symbol = "SOL" ->
              Solana.sol_price rt (Solana.historical_price_usd key post) coingecko ondate
              = 0%float)).
Proof.
  intros rt key symbol ondate busy Hbusy start end_.
  assert (Hrange : 400 <= Btc.status_code busy < 600).
  { rewrite !elem_of_cons, elem_of_nil in Hbusy. lia. }
  assert (Hretried : Btc.retried (HTTPError (Some (Btc.status_code busy))) = true).
  { apply retried_iff. do 3 right. by eexists. }
  split_and!.
  - intros session k r Hk Hbefore Hr Hst.
    unfold Btc.historical_price_usd, Btc.request_with_retry.
    destruct (retry_loop_returns
                (session (Btc.prices_url key) (Btc.price_request symbol start end_))
                (Btc.prices_url key) (seq 1 Btc.MAX_RETRIES) 0%nat None [] k r)
      as [-> _]; [simpl; lia | | | done].
    + intros j Hj. exists (HTTPError (Some (Btc.status_code busy))).
      split; [| done]. simpl. rewrite (attempt_status _ _ _ (Hbefore j Hj)).
      by rewrite bool_decide_eq_true_2.
    + simpl. rewrite (attempt_status _ _ _ Hr). by rewrite bool_decide_eq_false_2.
  - intros post Hp.
    assert (Hreq : Eth.historical_price_usd key post symbol start end_
                   = Raise (HTTPError (Some (Btc.status_code busy)))).
    { unfold Eth.historical_price_usd. rewrite Hp. cbn [mbind res_bind].
      by rewrite raise_for_status_ok, bool_decide_eq_true_2. }
    split; [done |].
    unfold Eth.fx_rate_usd_end_of_day, Eth.fx_rate_body, try_except.
    fold start end_. rewrite Hreq. cbn [mbind res_bind].
    rewrite stable_fallback_table. by destruct (decide _).
  - intros post coingecko Hp.
    assert (Hreq : Solana.historical_price_usd key post symbol start end_
                   = Raise (HTTPError (Some (Btc.status_code busy)))).
    { unfold Solana.historical_price_usd. rewrite Hp. cbn [mbind res_bind].
      by rewrite raise_for_status_ok, bool_decide_eq_true_2. }
    assert (Hprice : Solana.price_on_date_usd rt (Solana.historical_price_usd key post)
                       coingecko symbol ondate
                     = (if decide (upper symbol = "JITOSOL")
                        then Solana.coingecko_price_on_date_usd rt coingecko
                               "jito-staked-sol" ondate
                        else None)).
    { unfold Solana.price_on_date_usd, Solana.alchemy_body. fold start end_.
      rewrite Hreq. cbn [mbind res_bind]. rewrite coingecko_ids_table.
      by destruct (decide _). }
    split; [done |]. intros ->. unfold Solana.sol_price.
    fold start end_ in Hprice. by rewrite Hprice.
Qed.

(** The price API answers 503: at the fourth call the retrying session has
    the sample points, whose latest value is 1.5; asked once, the Ethereum
    lookup raises for ETH and the Solana valuation prices SOL at 0.0. *)
Lemma price_request_retried_by_btc_only_witness :
  Btc.fx_rate_usd_end_of_day Samples.rt
    (Btc.historical_price_usd "KEY" Samples.prices_flaky) "BTC" "2025-12-31"
    = Ok 1.5%float
  /\ Eth.fx_rate_usd_end_of_day Samples.rt
       (Eth.historical_price_usd "KEY" Samples.prices_unavailable) "ETH" "2025-12-31"
     = Raise (HTTPError (Some 503))
  /\ Solana.sol_price Samples.rt
       (Solana.historical_price_usd "KEY" Samples.prices_unavailable)
       Samples.coingecko_nothing "2025-12-31" = 0%float.
Proof.
  assert (Hbusy : Btc.status_code (Btc.mkResponse 503 (Raise ValueError : res Json))
                  ∈ [429; 500; 502; 503; 504]).
  { simpl. rewrite !elem_of_cons. tauto. }
  split_and!.
  - by vm_compute.
  - exact (proj2 (proj1 (proj2 (price_request_retried_by_btc_only Samples.rt "KEY" "ETH"
                                  "2025-12-31" _ Hbusy))
                    Samples.prices_unavailable eq_refl)).
  - exact (proj2 (proj2 (proj2 (price_request_retried_by_btc_only Samples.rt "KEY" "SOL"
                                  "2025-12-31" _ Hbusy))
                    Samples.prices_unavailable Samples.coingecko_nothing eq_refl)
             eq_refl).
Defined.

(** ** The two end-of-day lookups side by side *)

(** The Ethereum lookup is the Bitcoin lookup with a fallback: on the same
    replies it returns what the Bitcoin lookup returns, and where that one
    raises it returns 1.0 for USDC and USDT and raises the same exception
    for any other symbol. *)
Theorem eth_lookup_is_btc_lookup_with_fallback :
  forall (rt : Builtins) (prices : string -> string -> string -> res Json)
         (symbol ondate : string),
    Eth.fx_rate_usd_end_of_day rt prices symbol ondate
    = match Btc.fx_rate_usd_end_of_day rt prices symbol ondate with
      | Ok rate => Ok rate
      | Raise e =>
          if decide (symbol = "USDC" \/ symbol = "USDT") then Ok 1%float else Raise e
      end.
Proof.
  intros rt prices symbol ondate.
  unfold Eth.fx_rate_usd_end_of_day, Eth.fx_rate_body, Btc.fx_rate_usd_end_of_day,
    try_except.
  rewrite stable_fallback_table.
  destruct (prices symbol (ondate +:+ "T00:00:00Z") (ondate +:+ "T23:59:59Z"))
    as [payload | e]; cbn [mbind res_bind]; [| by destruct (decide _)].
  change (Eth._extract_price_points payload) with (Btc._extract_price_points payload).
  destruct (Btc._extract_price_points payload) as [points | e]; cbn [mbind res_bind];
    [| by destruct (decide _)].
  destruct points as [| p points]; [by destruct (decide _) |].
  change (Eth.parse_ts rt) with (Btc.parse_ts rt).
  destruct (max_key (Btc.parse_ts rt) dt_gt (p :: points)) as [latest | e];
    cbn [mbind res_bind]; [| by destruct (decide _)].
  destruct (subscript latest "value") as [v | e]; cbn [mbind res_bind];
    [| by destruct (decide _)].
  destruct (py_float rt v); [done | by destruct (decide _)].
Qed.

(** ** The cutoff of a date *)

Lemma days_before_year_succ (y : Z) :
  days_before_year (y + 1) = days_before_year y + 365 + (if is_leap y then 1 else 0).
Proof.
  unfold days_before_year, is_leap. replace (y + 1 - 1) with y by lia.
  destruct (Z.eqb_spec (y mod 4) 0), (Z.eqb_spec (y mod 100) 0),
    (Z.eqb_spec (y mod 400) 0); simpl; Z.to_euclidean_division_equations; lia.
Qed.

Lemma days_before_year_mono (y1 y2 : Z) :
  y1 <= y2 -> days_before_year y1 <= days_before_year y2.
Proof.
  unfold days_before_year. intros H. Z.to_euclidean_division_equations. lia.
Qed.

Ltac month_cases m :=
  let H := fresh "Hcases" in
  assert (m = 1 \/ m = 2 \/ m = 3 \/ m = 4 \/ m = 5 \/ m = 6 \/ m = 7
          \/ m = 8 \/ m = 9 \/ m = 10 \/ m = 11 \/ m = 12) as H by lia;
  repeat (destruct H as [-> | H]); try subst m.

Lemma day_of_year_order (y m1 d1 m2 d2 : Z) :
  1 <= m1 <= 12 -> 1 <= d1 <= days_in_month y m1 ->
  1 <= m2 <= 12 -> 1 <= d2 <= days_in_month y m2 ->
  (m1 < m2 \/ (m1 = m2 /\ d1 < d2)) ->
  days_before_month y m1 + d1 < days_before_month y m2 + d2.
Proof.
  intros Hm1 Hd1 Hm2 Hd2 Hlt.
  unfold days_in_month, days_before_month in *.
  generalize dependent (is_leap y). intros b Hd1 Hd2.
  destruct b; month_cases m1; month_cases m2; simpl in Hd1, Hd2 |- *; lia.
Qed.

Lemma day_of_year_bound (y m d : Z) :
  1 <= m <= 12 -> 1 <= d <= days_in_month y m ->
  1 <= days_before_month y m + d <= 365 + (if is_leap y then 1 else 0)
  /\ d <= 31.
Proof.
  intros Hm Hd.
  unfold days_in_month, days_before_month in *.
  generalize dependent (is_leap y). intros b Hd.
  destruct b; month_cases m; simpl in Hd |- *; lia.
Qed.

Lemma ymd2ord_lt (y1 m1 d1 y2 m2 d2 : Z) :
  1 <= m1 <= 12 -> 1 <= d1 <= days_in_month y1 m1 ->
  1 <= m2 <= 12 -> 1 <= d2 <= days_in_month y2 m2 ->
  y1 < y2 \/ (y1 = y2 /\ (m1 < m2 \/ (m1 = m2 /\ d1 < d2))) ->
  ymd2ord y1 m1 d1 < ymd2ord y2 m2 d2.
Proof.
  intros Hm1 Hd1 Hm2 Hd2 [Hy | [-> Hlt]]; unfold ymd2ord.
  - pose proof (day_of_year_bound y1 m1 d1 Hm1 Hd1) as [Hb1 _].
    pose proof (day_of_year_bound y2 m2 d2 Hm2 Hd2) as [Hb2 _].
    pose proof (days_before_year_succ y1).
    pose proof (days_before_year_mono (y1 + 1) y2 ltac:(lia)). lia.
  - pose proof (day_of_year_order y2 m1 d1 m2 d2 Hm1 Hd1 Hm2 Hd2 Hlt). lia.
Qed.

Lemma end_of_day_timestamp_Ok (y m d t : Z) :
  end_of_day_timestamp y m d = Ok t ->
  1 <= y <= 9999 /\ 1 <= m <= 12 /\ 1 <= d <= days_in_month y m
  /\ t = (ymd2ord y m d - 719163) * 86400 + 86399.
Proof.
  unfold end_of_day_timestamp.
  destruct (negb _); [done |].
  do 3 case_bool_decide; try done. simpl.
  change (ymd2ord 1970 1 1) with 719163. intros [= <-]. split_and!; lia.
Qed.

(** The cutoff the three scripts compute from a date is the last second of
    that day in UTC: it is 86399 modulo 86400, it is 86399 for 1970-01-01,
    and of two dates the later one, by year, month and day, has the later
    cutoff, a whole number of days later. A cutoff is computed only for a
    year from 1 to 9999, a month from 1 to 12 and a day of that month. *)
Theorem end_of_day_timestamp_order :
  forall (y1 m1 d1 y2 m2 d2 t1 t2 : Z),
    end_of_day_timestamp y1 m1 d1 = Ok t1 ->
    end_of_day_timestamp y2 m2 d2 = Ok t2 ->
    (t1 < t2 <-> y1 < y2 \/ (y1 = y2 /\ (m1 < m2 \/ (m1 = m2 /\ d1 < d2))))
    /\ (t1 < t2 -> exists days, 0 < days /\ t2 = t1 + 86400 * days)
    /\ t1 mod 86400 = 86399
    /\ (1 <= y1 <= 9999 /\ 1 <= m1 <= 12 /\ 1 <= d1 <= days_in_month y1 m1
        /\ days_in_month y1 m1 <= 31)
    /\ end_of_day_timestamp 1970 1 1 = Ok 86399.
Proof.
  intros y1 m1 d1 y2 m2 d2 t1 t2
    (Hy1 & Hm1 & Hd1 & ->)%end_of_day_timestamp_Ok
    (Hy2 & Hm2 & Hd2 & ->)%end_of_day_timestamp_Ok.
  assert (Hlt : y1 < y2 \/ (y1 = y2 /\ (m1 < m2 \/ (m1 = m2 /\ d1 < d2))) ->
                ymd2ord y1 m1 d1 < ymd2ord y2 m2 d2) by by apply ymd2ord_lt.
  assert (Hgt : y2 < y1 \/ (y2 = y1 /\ (m2 < m1 \/ (m2 = m1 /\ d2 < d1))) ->
                ymd2ord y2 m2 d2 < ymd2ord y1 m1 d1) by by apply ymd2ord_lt.
  split; [| split; [| split; [| split]]].
  - split; [| intros H; specialize (Hlt H); lia].
    intros Ht.
    destruct (decide (y1 < y2 \/ (y1 = y2 /\ (m1 < m2 \/ (m1 = m2 /\ d1 < d2)))))
      as [? | Hno]; [done |].
    destruct (decide (y2 < y1 \/ (y2 = y1 /\ (m2 < m1 \/ (m2 = m1 /\ d2 < d1)))))
      as [Hyes | Hno']; [specialize (Hgt Hyes); lia |].
    assert (y1 = y2 /\ m1 = m2 /\ d1 = d2) as (-> & -> & ->) by lia. lia.
  - intros Ht. exists (ymd2ord y2 m2 d2 - ymd2ord y1 m1 d1). lia.
  - Z.to_euclidean_division_equations. lia.
  - pose proof (day_of_year_bound y1 m1 (days_in_month y1 m1) Hm1 ltac:(lia)) as [_ ?].
    lia.
  - reflexivity.
Qed.

(** New Year's Eve 2025 and the day after. *)
Lemma end_of_day_timestamp_order_witness :
  end_of_day_timestamp 2025 12 31 = Ok 1767225599
  /\ end_of_day_timestamp 2026 1 1 = Ok 1767311999
  /\ 1767225599 < 1767311999
  /\ end_of_day_timestamp 2025 2 29 = Raise ValueError.
Proof.
  split_and!; [reflexivity | reflexivity | | reflexivity].
  apply (proj1 (end_of_day_timestamp_order 2025 12 31 2026 1 1 _ _ eq_refl eq_refl)).
  left. lia.
Defined.

(** ** Dates as text *)

Lemma append_nil_r (s : string) : s +:+ EmptyString = s.
Proof.
  induction s as [| c s IH]; [done |].
  change (String c (s +:+ EmptyString) = String c s). by f_equal.
Qed.

Lemma append_assoc (a b c : string) : (a +:+ b) +:+ c = a +:+ (b +:+ c).
Proof.
  induction a as [| x a IH]; [done |].
  change (String x ((a +:+ b) +:+ c) = String x (a +:+ (b +:+ c))). by f_equal.
Qed.

Lemma split_on_last (sep : ascii) (cur s : string) :
  sep ∉ list_ascii_of_string s -> split_on sep cur s = [cur +:+ s].
Proof.
  revert cur. induction s as [| c s IH]; intros cur Hno; cbn [split_on].
  - by rewrite append_nil_r.
  - simpl in Hno. rewrite not_elem_of_cons in Hno. destruct Hno as [Hc Hs].
    destruct (Ascii.eqb_spec c sep) as [-> | _]; [done |].
    rewrite IH by done. by rewrite append_assoc.
Qed.

Lemma split_on_part (sep : ascii) (cur a b : string) :
  sep ∉ list_ascii_of_string a ->
  split_on sep cur (a +:+ String sep b) = (cur +:+ a) :: split_on sep EmptyString b.
Proof.
  revert cur. induction a as [| c a IH]; intros cur Hno.
  - change (EmptyString +:+ String sep b) with (String sep b). cbn [split_on].
    by rewrite Ascii.eqb_refl, append_nil_r.
  - change (String c a +:+ String sep b) with (String c (a +:+ String sep b)).
    cbn [split_on].
    simpl in Hno. rewrite not_elem_of_cons in Hno. destruct Hno as [Hc Hs].
    destruct (Ascii.eqb_spec c sep) as [-> | _]; [done |].
    rewrite IH by done. by rewrite append_assoc.
Qed.

Lemma split_on_length (sep : ascii) (cur s : string) :
  length (split_on sep cur s)
  = S (count_occ ascii_dec (list_ascii_of_string s) sep).
Proof.
  revert cur. induction s as [| c s IH]; intros cur; simpl; [done |].
  destruct (Ascii.eqb_spec c sep) as [-> | Hne].
  - destruct (ascii_dec sep sep); [| done]. simpl. by rewrite IH.
  - destruct (ascii_dec c sep); [done |]. apply IH.
Qed.

Lemma split_date (a b c : string) :
  "-"%char ∉ list_ascii_of_string a -> "-"%char ∉ list_ascii_of_string b ->
  "-"%char ∉ list_ascii_of_string c ->
  split "-" (a +:+ "-" +:+ b +:+ "-" +:+ c) = [a; b; c].
Proof.
  intros Ha Hb Hc. unfold split.
  change (a +:+ "-" +:+ b +:+ "-" +:+ c)
    with (a +:+ String "-" (b +:+ String "-" c)).
  rewrite split_on_part by done. rewrite split_on_part by done.
  by rewrite split_on_last.
Qed.

Lemma split_not_three (s : string) :
  count_occ ascii_dec (list_ascii_of_string s) "-"%char <> 2%nat ->
  match split "-" s with
  | [_; _; _] => False
  | _ => True
  end.
Proof.
  intros Hc. pose proof (split_on_length "-" EmptyString s) as Hl.
  fold (split "-" s) in Hl.
  destruct (split "-" s) as [| a [| b [| c [| d l]]]]; try done.
  simpl in Hl. lia.
Qed.

(** A date without exactly two dashes has no cutoff: the three names
    cannot be bound, a [ValueError]. For a date written as three parts
    between two dashes, the parts are read by [int], year first, and the
    cutoff is the last second of that day. *)
Theorem cutoff_of_date_parts :
  forall (cv : Conversions),
    (forall year month day,
       "-"%char ∉ list_ascii_of_string year ->
       "-"%char ∉ list_ascii_of_string month ->
       "-"%char ∉ list_ascii_of_string day ->
       cutoff_of_date cv (year +:+ "-" +:+ month +:+ "-" +:+ day)
       = (y ← int_of_str cv year;
          m ← int_of_str cv month;
          d ← int_of_str cv day;
          end_of_day_timestamp y m d))
    /\ (forall ondate,
          count_occ ascii_dec (list_ascii_of_string ondate) "-"%char <> 2%nat ->
          cutoff_of_date cv ondate = Raise ValueError).
Proof.
  intros cv. split.
  - intros year month day Hy Hm Hd. unfold cutoff_of_date.
    by rewrite split_date.
  - intros ondate Hc. unfold cutoff_of_date.
    pose proof (split_not_three ondate Hc) as Hs.
    by destruct (split "-" ondate) as [| a [| b [| c [| d l]]]].
Qed.

(** The secondary price source is asked for the date with its parts in
    the opposite order, day first: for a date written as year, month and
    day between two dashes, the price is the [usd] member under
    [market_data] and [current_price] of the reply to that request, and
    there is none when the request fails, when its status is an error or
    when a member is missing. For a date without exactly two dashes there
    is no price, whatever the source would answer. *)
Theorem coingecko_request_date :
  forall (rt : Builtins) (requests_get : string -> Json -> res (Btc.Response (res Json)))
         (coin_id : string),
    let price := Solana.coingecko_price_on_date_usd rt
                   (Solana.coingecko_history requests_get) coin_id in
    (forall year month day,
       "-"%char ∉ list_ascii_of_string year ->
       "-"%char ∉ list_ascii_of_string month ->
       "-"%char ∉ list_ascii_of_string day ->
       let reply :=
         requests_get ("https://api.coingecko.com/api/v3/coins/" +:+ coin_id +:+ "/history")
           (JObj [("date", JStr (day +:+ "-" +:+ month +:+ "-" +:+ year));
                  ("localization", JStr "false")]) in
       let ondate := year +:+ "-" +:+ month +:+ "-" +:+ day in
       (forall r f1 f2 f3 usd,
          reply = Ok r -> ~ 400 <= Btc.status_code r < 600 ->
          Btc.body r = Ok (JObj f1) ->
          lookup_field "market_data" f1 = Some (JObj f2) ->
          lookup_field "current_price" f2 = Some (JObj f3) ->
          lookup_field "usd" f3 = Some usd ->
          price ondate
          = match usd, py_float rt usd with
            | JNull, _ => None
            | _, Ok x => Some x
            | _, Raise _ => None
            end)
       /\ (forall e, reply = Raise e -> price ondate = None)
       /\ (forall r, reply = Ok r -> 400 <= Btc.status_code r < 600 ->
             price ondate = None)
       /\ (forall r f1, reply = Ok r -> ~ 400 <= Btc.status_code r < 600 ->
             Btc.body r = Ok (JObj f1) -> lookup_field "market_data" f1 = None ->
             price ondate = None))
    /\ (forall ondate,
          count_occ ascii_dec (list_ascii_of_string ondate) "-"%char <> 2%nat ->
          price ondate = None).
Proof.
  intros rt requests_get coin_id price. split.
  - intros year month day Hy Hm Hd reply ondate.
    assert (Hbody : Solana.coingecko_body rt (Solana.coingecko_history requests_get)
                      coin_id ondate
                    = (j ← (r ← reply; _ ← Btc.raise_for_status r; Btc.body r);
                       market_data ← get_default j "market_data" (JObj []);
                       current_price ← get_default market_data "current_price" (JObj []);
                       price ← Py.get current_price "usd";
                       match price with
                       | JNull => Ok None
                       | _ => x ← py_float rt price; Ok (Some x)
                       end)).
    { unfold Solana.coingecko_body, ondate. by rewrite split_date. }
    unfold price, Solana.coingecko_price_on_date_usd. rewrite Hbody.
    split_and!.
    + intros r f1 f2 f3 usd -> Hst Hb H1 H2 H3. cbn [mbind res_bind].
      rewrite raise_for_status_ok, bool_decide_eq_false_2 by done.
      rewrite Hb. unfold Py.get, get_default. cbn [mbind res_bind].
      rewrite H1. cbn [mbind res_bind]. rewrite H2. cbn [mbind res_bind].
      rewrite H3. destruct usd; try done; cbn [mbind res_bind];
        by destruct (py_float rt _).
    + by intros e ->.
    + intros r -> Hst. cbn [mbind res_bind].
      by rewrite raise_for_status_ok, bool_decide_eq_true_2.
    + intros r f1 -> Hst Hb H1. cbn [mbind res_bind].
      rewrite raise_for_status_ok, bool_decide_eq_false_2 by done.
      rewrite Hb. unfold Py.get, get_default. cbn [mbind res_bind].
      by rewrite H1.
  - intros ondate Hc. unfold price, Solana.coingecko_price_on_date_usd,
      Solana.coingecko_body.
    pose proof (split_not_three ondate Hc) as Hs.
    by destruct (split "-" ondate) as [| a [| b [| c [| d l]]]].
Qed.

(** ** Token accounts by mint *)

Lemma add_account_lookup (out : gmap string (list string))
    (item : Solana.TokenAccount) (mint : string) :
  mint <> EmptyString ->
  default [] (Solana.add_account out item !! mint)
  = default [] (out !! mint)
    ++ (if decide (Solana.item_mint item = Some mint) then [Solana.pubkey item] else []).
Proof.
  intros Hne. unfold Solana.add_account.
  destruct (Solana.item_mint item) as [m |] eqn:Hm.
  - destruct (String.eqb_spec m EmptyString) as [-> | Hm0]; cbn [negb].
    + rewrite decide_False by congruence. by rewrite app_nil_r.
    + destruct (decide (m = mint)) as [-> | Hneq].
      * by rewrite lookup_insert_eq, decide_True by done.
      * rewrite lookup_insert_ne by done. rewrite decide_False by congruence.
        by rewrite app_nil_r.
  - rewrite decide_False by done. by rewrite app_nil_r.
Qed.

Lemma add_account_keeps (out : gmap string (list string)) (item : Solana.TokenAccount) :
  out !! EmptyString = None -> (forall m, out !! m <> Some []) ->
  Solana.add_account out item !! EmptyString = None
  /\ forall m, Solana.add_account out item !! m <> Some [].
Proof.
  intros H0 Hne. unfold Solana.add_account.
  destruct (Solana.item_mint item) as [m |]; [| done].
  destruct (String.eqb_spec m EmptyString) as [-> | Hm0]; cbn [negb]; [done |].
  split.
  - by rewrite lookup_insert_ne.
  - intros m'. destruct (decide (m = m')) as [-> | Hneq].
    + rewrite lookup_insert_eq. intros [= H]. by destruct (default [] (out !! m')).
    + rewrite lookup_insert_ne by done. apply Hne.
Qed.

Lemma foldl_add_account (items : list Solana.TokenAccount)
    (out : gmap string (list string)) :
  (forall mint, mint <> EmptyString ->
     default [] (foldl Solana.add_account out items !! mint)
     = default [] (out !! mint)
       ++ (Solana.pubkey <$> filter (fun it => Solana.item_mint it = Some mint) items))
  /\ (out !! EmptyString = None -> (forall m, out !! m <> Some []) ->
      foldl Solana.add_account out items !! EmptyString = None
      /\ forall m, foldl Solana.add_account out items !! m <> Some []).
Proof.
  revert out. induction items as [| it items IH]; intros out.
  - split; [| done]. intros mint _. simpl. by rewrite app_nil_r.
  - cbn [foldl]. destruct (IH (Solana.add_account out it)) as [IH1 IH2]. split.
    + intros mint Hne. rewrite IH1, add_account_lookup by done.
      rewrite filter_cons, <- app_assoc.
      by destruct (decide (Solana.item_mint it = Some mint)).
    + intros H0 Hne. destruct (add_account_keeps out it H0 Hne). by apply IH2.
Qed.

(** The token accounts of an owner are asked for under the classic token
    program and then under Token-2022, and the two lists are put one after
    the other; a list without [value] counts as empty, and if either
    request fails, so does the whole. The map built from them gives, for
    every mint, the addresses of the accounts that name this mint, in that
    order; an account that names no mint, or an empty one, is in no list,
    and no list is empty. *)
Theorem mint_to_token_accounts_groups :
  forall (node : string -> Solana.AccountFilter
                 -> res (option (list Solana.TokenAccount)))
         (owner : string),
    (forall classic token2022,
       node owner (Solana.ByProgram Solana.TOKEN_PROGRAM_ID) = Ok classic ->
       node owner (Solana.ByProgram Solana.TOKEN_2022_PROGRAM_ID) = Ok token2022 ->
       let items := default [] classic ++ default [] token2022 in
       Solana.get_token_accounts_by_owner node owner = Ok items
       /\ exists m2tas,
            Solana.mint_to_token_accounts node owner = Ok m2tas
            /\ (forall mint, mint <> EmptyString ->
                  default [] (m2tas !! mint)
                  = Solana.pubkey
                      <$> filter (fun it => Solana.item_mint it = Some mint) items)
            /\ m2tas !! EmptyString = None
            /\ (forall mint, m2tas !! mint <> Some []))
    /\ (forall e,
          node owner (Solana.ByProgram Solana.TOKEN_PROGRAM_ID) = Raise e ->
          Solana.mint_to_token_accounts node owner = Raise e)
    /\ (forall classic e,
          node owner (Solana.ByProgram Solana.TOKEN_PROGRAM_ID) = Ok classic ->
          node owner (Solana.ByProgram Solana.TOKEN_2022_PROGRAM_ID) = Raise e ->
          Solana.mint_to_token_accounts node owner = Raise e).
Proof.
  intros node owner. split_and!.
  - intros classic token2022 H1 H2 items.
    assert (Hitems : Solana.get_token_accounts_by_owner node owner = Ok items).
    { unfold Solana.get_token_accounts_by_owner. cbn [Solana.accounts_loop].
      rewrite H1. cbn [mbind res_bind]. rewrite H2. done. }
    split; [done |]. exists (foldl Solana.add_account ∅ items).
    unfold Solana.mint_to_token_accounts. rewrite Hitems. cbn [mbind res_bind].
    destruct (foldl_add_account items ∅) as [Hl Hk].
    destruct Hk as [H0 Hne]; [apply lookup_empty | by intros m; rewrite lookup_empty |].
    split_and!; [done | | done | done].
    intros mint Hm. rewrite (Hl mint Hm). by rewrite lookup_empty.
  - intros e H1. unfold Solana.mint_to_token_accounts, Solana.get_token_accounts_by_owner.
    cbn [Solana.accounts_loop]. by rewrite H1.
  - intros classic e H1 H2.
    unfold Solana.mint_to_token_accounts, Solana.get_token_accounts_by_owner.
    cbn [Solana.accounts_loop]. rewrite H1. cbn [mbind res_bind]. by rewrite H2.
Qed.

(** ** The valuation of a Solana wallet *)

Lemma mint_filter_check_ok
    (accounts : string -> Solana.AccountFilter -> res (option (list Solana.TokenAccount)))
    (wallet : string) (mints : list (string * string)) :
  (forall mint, mint ∈ mints.*1 -> exists r, accounts wallet (Solana.ByMint mint) = Ok r) ->
  Solana.mint_filter_check accounts wallet mints = Ok tt.
Proof.
  induction mints as [| [mint label] mints IH]; intros Hok; [done |].
  cbn [Solana.mint_filter_check]. unfold Solana.get_token_accounts_by_mint.
  destruct (Hok mint) as [r ->]; [left |]. cbn [mbind res_bind].
  apply IH. intros m Hm. apply Hok. by right.
Qed.

Lemma mint_filter_check_raises
    (accounts : string -> Solana.AccountFilter -> res (option (list Solana.TokenAccount)))
    (wallet : string) (mints : list (string * string)) (mint : string) (e : exn) :
  mint ∈ mints.*1 -> accounts wallet (Solana.ByMint mint) = Raise e ->
  exists e', Solana.mint_filter_check accounts wallet mints = Raise e'.
Proof.
  induction mints as [| [m label] mints IH]; intros Hin He.
  - by apply elem_of_nil in Hin.
  - cbn [Solana.mint_filter_check]. unfold Solana.get_token_accounts_by_mint.
    destruct (accounts wallet (Solana.ByMint m)) as [r | e0] eqn:Hm; [| by eexists].
    cbn [mbind res_bind]. apply IH; [| done].
    cbn [fmap list_fmap fst] in Hin. apply elem_of_cons in Hin as [-> | Hin]; [| done].
    congruence.
Qed.

Lemma token_usd_value_no_account (rt : Builtins)
    (node : string -> nat -> Z -> option string -> res (list Solana.SigInfo))
    (getTransaction : string -> res (option Solana.TxReply))
    (prices : string -> string -> string -> res Json)
    (coingecko : string -> string -> res Json) (fuel : nat)
    (m2tas : gmap string (list string)) (ts : Z) (ondate mint label symbol : string) :
  default [] (m2tas !! mint) = [] ->
  Solana.token_usd_value rt node getTransaction prices coingecko fuel m2tas ts ondate
    mint label symbol
  = Solana.Finished (Ok 0%float).
Proof. intros H. unfold Solana.token_usd_value. by rewrite H. Qed.

(** Once the date is read, the search of the wallet has returned and the
    SOL amount is read, and when the by-mint lookups and the two account
    lists come back, the valuation is the tuple of the SOL amount (0.0 for
    a wallet without history), the SOL price, their product and the four
    token values, computed in the order USDC, USDT, USX, JITOSOL from the
    accounts grouped by mint. A mint for which the wallet has no account
    is valued 0.0; so a wallet without accounts of the four mints gets
    0.0 four times. *)
Theorem solana_wallet_value_tuple :
  forall (rt : Builtins) (cv : Conversions)
         (node : string -> nat -> Z -> option string -> res (list Solana.SigInfo))
         (getTransaction : string -> res (option Solana.TxReply))
         (accounts : string -> Solana.AccountFilter
                     -> res (option (list Solana.TokenAccount)))
         (prices : string -> string -> string -> res Json)
         (coingecko : string -> string -> res Json) (fuel : nat)
         (wallet ondate : string) (ts : Z) (sig : option string) (sol_amount : float)
         (classic token2022 : option (list Solana.TokenAccount)),
    cutoff_of_date cv ondate = Ok ts ->
    Solana.find_last_signature_before_ts node fuel wallet ts 1000
      = Solana.Finished (Ok sig) ->
    Solana.sol_amount_of rt getTransaction wallet sig = Ok sol_amount ->
    (forall mint,
       mint ∈ [Solana.USDC_MINT; Solana.USDT_MINT; Solana.USX_MINT; Solana.JITOSOL_MINT] ->
       exists r, accounts wallet (Solana.ByMint mint) = Ok r) ->
    accounts wallet (Solana.ByProgram Solana.TOKEN_PROGRAM_ID) = Ok classic ->
    accounts wallet (Solana.ByProgram Solana.TOKEN_2022_PROGRAM_ID) = Ok token2022 ->
    let items := default [] classic ++ default [] token2022 in
    let m2tas := foldl Solana.add_account ∅ items in
    let token_value mint label :=
      Solana.token_usd_value rt node getTransaction prices coingecko fuel m2tas ts
        ondate mint label label in
    let sol_price := Solana.sol_price rt prices coingecko ondate in
    let value := Solana.solana_wallet_value_on_date rt cv node getTransaction accounts
                   prices coingecko fuel wallet ondate in
    value = (usdc ← token_value Solana.USDC_MINT "USDC";
             usdt ← token_value Solana.USDT_MINT "USDT";
             usx ← token_value Solana.USX_MINT "USX";
             jito ← token_value Solana.JITOSOL_MINT "JITOSOL";
             mret (sol_amount, sol_price, (sol_amount * sol_price)%float,
                   usdc, usdt, usx, jito))
    /\ (sig = None -> sol_amount = 0%float)
    /\ (forall mint label,
          mint <> EmptyString ->
          filter (fun it => Solana.item_mint it = Some mint) items = [] ->
          token_value mint label = Solana.Finished (Ok 0%float))
    /\ ((forall mint,
           mint ∈ [Solana.USDC_MINT; Solana.USDT_MINT; Solana.USX_MINT;
                   Solana.JITOSOL_MINT] ->
           filter (fun it => Solana.item_mint it = Some mint) items = []) ->
        value = Solana.Finished
                  (Ok (sol_amount, sol_price, (sol_amount * sol_price)%float,
                       0%float, 0%float, 0%float, 0%float))).
Proof.
  intros rt cv node getTransaction accounts prices coingecko fuel wallet ondate ts sig
    sol_amount classic token2022 Hts Hsig Hsol Hmints Hc H22 items m2tas token_value
    sol_price value.
  assert (Hvalue : value = (usdc ← token_value Solana.USDC_MINT "USDC";
                            usdt ← token_value Solana.USDT_MINT "USDT";
                            usx ← token_value Solana.USX_MINT "USX";
                            jito ← token_value Solana.JITOSOL_MINT "JITOSOL";
                            mret (sol_amount, sol_price, (sol_amount * sol_price)%float,
                                  usdc, usdt, usx, jito))).
  { unfold value, Solana.solana_wallet_value_on_date. rewrite Hts.
    cbn [mbind Solana.run_bind]. rewrite Hsig. cbn [mbind Solana.run_bind].
    rewrite Hsol. cbn [mbind Solana.run_bind].
    rewrite mint_filter_check_ok by done. cbn [mbind Solana.run_bind].
    unfold Solana.mint_to_token_accounts, Solana.get_token_accounts_by_owner.
    cbn [Solana.accounts_loop]. rewrite Hc. cbn [mbind res_bind]. rewrite H22.
    cbn [mbind res_bind Solana.run_bind]. reflexivity. }
  assert (Hzero : forall mint label,
            mint <> EmptyString ->
            filter (fun it => Solana.item_mint it = Some mint) items = [] ->
            token_value mint label = Solana.Finished (Ok 0%float)).
  { intros mint label Hne Hnone. apply token_usd_value_no_account.
    destruct (foldl_add_account items ∅) as [Hl _].
    fold m2tas in Hl. rewrite (Hl mint Hne), Hnone. by rewrite lookup_empty. }
  split_and!.
  - exact Hvalue.
  - intros ->. simpl in Hsol. by injection Hsol as <-.
  - exact Hzero.
  - intros Hnone. rewrite Hvalue.
    rewrite !Hzero; [done | done | | done | | done | | done |];
      apply Hnone; rewrite !elem_of_cons; tauto.
Qed.

(** The valuation is lost when the search of the wallet fails, when the
    SOL amount cannot be read from the transaction found (for one, when
    the wallet is not among its account keys), and when one of the four
    by-mint lookups fails, although nothing of what these return is used;
    and it is still searching as long as the search of the wallet is. *)
Theorem solana_wallet_value_aborts :
  forall (rt : Builtins) (cv : Conversions)
         (node : string -> nat -> Z -> option string -> res (list Solana.SigInfo))
         (getTransaction : string -> res (option Solana.TxReply))
         (accounts : string -> Solana.AccountFilter
                     -> res (option (list Solana.TokenAccount)))
         (prices : string -> string -> string -> res Json)
         (coingecko : string -> string -> res Json) (fuel : nat)
         (wallet ondate : string) (ts : Z),
    cutoff_of_date cv ondate = Ok ts ->
    let search := Solana.find_last_signature_before_ts node fuel wallet ts 1000 in
    let value := Solana.solana_wallet_value_on_date rt cv node getTransaction accounts
                   prices coingecko fuel wallet ondate in
    (search = Solana.StillLooping -> value = Solana.StillLooping)
    /\ (forall e, search = Solana.Finished (Raise e) -> value = Solana.Finished (Raise e))
    /\ (forall sig e,
          search = Solana.Finished (Ok sig) ->
          Solana.sol_amount_of rt getTransaction wallet sig = Raise e ->
          value = Solana.Finished (Raise e))
    /\ (forall s t m,
          search = Solana.Finished (Ok (Some s)) -> s <> EmptyString ->
          getTransaction s
            = Ok (Some (Solana.mkTxReply (Solana.Holds t) (Solana.Holds m))) ->
          wallet ∉ map Solana.pubkey_of (Solana.accountKeys t) ->
          value = Solana.Finished (Raise (RuntimeError Solana.wallet_not_found_msg)))
    /\ (forall sig sol_amount mint e,
          search = Solana.Finished (Ok sig) ->
          Solana.sol_amount_of rt getTransaction wallet sig = Ok sol_amount ->
          mint ∈ [Solana.USDC_MINT; Solana.USDT_MINT; Solana.USX_MINT;
                  Solana.JITOSOL_MINT] ->
          accounts wallet (Solana.ByMint mint) = Raise e ->
          exists e', value = Solana.Finished (Raise e')).
Proof.
  intros rt cv node getTransaction accounts prices coingecko fuel wallet ondate ts Hts
    search value.
  assert (Hsol : forall sig e,
            search = Solana.Finished (Ok sig) ->
            Solana.sol_amount_of rt getTransaction wallet sig = Raise e ->
            value = Solana.Finished (Raise e)).
  { intros sig e Hs He. unfold value, Solana.solana_wallet_value_on_date.
    rewrite Hts. cbn [mbind Solana.run_bind]. fold search. rewrite Hs.
    cbn [mbind Solana.run_bind]. by rewrite He. }
  split_and!.
  - intros Hs. unfold value, Solana.solana_wallet_value_on_date.
    rewrite Hts. cbn [mbind Solana.run_bind]. fold search. by rewrite Hs.
  - intros e Hs. unfold value, Solana.solana_wallet_value_on_date.
    rewrite Hts. cbn [mbind Solana.run_bind]. fold search. by rewrite Hs.
  - exact Hsol.
  - intros s t m Hs Hne Htx Hnot. apply (Hsol (Some s)); [done |].
    unfold Solana.sol_amount_of.
    destruct (String.eqb_spec s EmptyString) as [? | _]; [done |].
    unfold Solana.sol_balance_from_transaction. rewrite Htx.
    cbn [mbind res_bind Solana.transaction Solana.meta].
    destruct (Solana.index_of wallet (map Solana.pubkey_of (Solana.accountKeys t)))
      as [i |] eqn:Hi; [| done].
    apply index_of_Some in Hi as [Hi _]. exfalso. apply Hnot.
    by apply list_elem_of_lookup_2 in Hi.
  - intros sig sol_amount mint e Hs Ha Hin He.
    destruct (mint_filter_check_raises accounts wallet
                [(Solana.USDC_MINT, "USDC"); (Solana.USDT_MINT, "USDT");
                 (Solana.USX_MINT, "USX"); (Solana.JITOSOL_MINT, "JITOSOL")]
                mint e Hin He) as [e' He'].
    exists e'. unfold value, Solana.solana_wallet_value_on_date.
    rewrite Hts. cbn [mbind Solana.run_bind]. fold search. rewrite Hs.
    cbn [mbind Solana.run_bind]. rewrite Ha. cbn [mbind Solana.run_bind].
    by rewrite He'.
Qed.

(** ** The snapshot of a Bitcoin address *)

(** Once the date is read: if the paging of the history fails, so does the
    snapshot; otherwise the amount is the reference balance of the
    gathered history at the cutoff, divided by 10^8, and the snapshot
    depends on the BTC price alone: it raises what the lookup raises (there
    is no fallback), and for a rate it is the row of the amount, the rate
    and their product. *)
Theorem btc_snapshot_row :
  forall (rt : Builtins) (cv : Conversions)
         (explorer : nat -> string -> res (list Btc.Tx))
         (prices : string -> string -> string -> res Json)
         (address ondate : string) (ts : Z),
    cutoff_of_date cv ondate = Ok ts ->
    let fetched := Btc.history (Btc.fetch_history explorer address 200) in
    let fx := Btc.fx_rate_usd_end_of_day rt prices "BTC" ondate in
    let snapshot := Btc.btc_snapshot_with_usd rt cv explorer prices address ondate in
    (forall e, fetched = Raise e -> snapshot = Raise e)
    /\ (forall history btc_amt,
          fetched = Ok history ->
          div_pow10 rt (Btc.reference_balance address ts history) 8 = Ok btc_amt ->
          (forall e, fx = Raise e -> snapshot = Raise e)
          /\ (forall rate, fx = Ok rate ->
                snapshot
                = Ok (Btc.mkRow address ondate btc_amt rate (btc_amt * rate)%float))).
Proof.
  intros rt cv explorer prices address ondate ts Hts fetched fx snapshot.
  split.
  - intros e He. unfold snapshot, Btc.btc_snapshot_with_usd. rewrite Hts.
    cbn [mbind res_bind]. unfold Btc.btc_balance_at_timestamp.
    fold fetched. by rewrite He.
  - intros history btc_amt Hh Hd.
    assert (Hsnap : snapshot
                    = (rate ← fx;
                       Ok (Btc.mkRow address ondate btc_amt rate (btc_amt * rate)%float))).
    { unfold snapshot, Btc.btc_snapshot_with_usd. rewrite Hts.
      cbn [mbind res_bind]. unfold Btc.btc_balance_at_timestamp.
      fold fetched. rewrite Hh. cbn [mbind res_bind mret res_ret].
      rewrite balance_of_history_reference, Hd. done. }
    split.
    + intros e He. by rewrite Hsnap, He.
    + intros rate Hr. by rewrite Hsnap, Hr.
Qed.

(** The sample address on 2025-12-31: 200 satoshis at the latest sample
    price 1.5; and no row when the price API has no points. *)
Lemma btc_snapshot_row_witness :
  Btc.btc_snapshot_with_usd Samples.rt Samples.cv Samples.explorer_A Samples.prices_two
    "A" "2025-12-31"
  = Ok (Btc.mkRow "A" "2025-12-31"
          (Samples.float_of_Z 200 / Samples.float_of_Z (10 ^ 8))%float 1.5%float
          (Samples.float_of_Z 200 / Samples.float_of_Z (10 ^ 8) * 1.5)%float)
  /\ Btc.btc_snapshot_with_usd Samples.rt Samples.cv Samples.explorer_A
       Samples.prices_none "A" "2025-12-31"
     = Raise (RuntimeError "No price points returned for BTC on 2025-12-31").
Proof.
  destruct (proj2 (btc_snapshot_row Samples.rt Samples.cv Samples.explorer_A
                     Samples.prices_two "A" "2025-12-31" 1767225599 eq_refl)
              Samples.history_A
              (Samples.float_of_Z 200 / Samples.float_of_Z (10 ^ 8))%float)
    as [_ Hrow]; [by vm_compute | by vm_compute |].
  split; [exact (Hrow 1.5%float ltac:(by vm_compute)) | by vm_compute].
Defined.

(** The sample wallet H on 2025-12-31: 2.5 SOL at the first sample price
    1.0, and 1.5 USDC; for G, which its last transaction does not name, no
    valuation. *)
Lemma solana_wallet_value_tuple_witness :
  Solana.solana_wallet_value_on_date Samples.rt Samples.cv Samples.holder_node
    Samples.holder_transactions Samples.holder_accounts Samples.prices_two
    Samples.coingecko_nothing 10 "H" "2025-12-31"
  = Solana.Finished
      (Ok (2.5%float, 1%float, 2.5%float, 1.5%float, 0%float, 0%float, 0%float)).
Proof.
  refine (eq_trans
            (proj1 (solana_wallet_value_tuple Samples.rt Samples.cv Samples.holder_node
                      Samples.holder_transactions Samples.holder_accounts
                      Samples.prices_two Samples.coingecko_nothing 10 "H" "2025-12-31"
                      1767225599 (Some "h1") 2.5%float
                      (Some [Samples.token_account "HU" Solana.USDC_MINT]) None
                      eq_refl _ _ _ eq_refl eq_refl)) _);
    try by vm_compute.
  intros mint _. unfold Samples.holder_accounts.
  destruct (String.eqb mint Solana.USDC_MINT); by eexists.
Defined.

(** The address G: the last transaction found for it does not name it. *)
Lemma solana_wallet_value_aborts_witness :
  Solana.solana_wallet_value_on_date Samples.rt Samples.cv Samples.holder_node
    Samples.holder_transactions Samples.holder_accounts Samples.prices_two
    Samples.coingecko_nothing 10 "G" "2025-12-31"
  = Solana.Finished
      (Raise (RuntimeError
                "Wallet not found in transaction accountKeys; cannot read SOL snapshot from this tx.")).
Proof.
  refine (proj1 (proj2 (proj2 (proj2
            (solana_wallet_value_aborts Samples.rt Samples.cv Samples.holder_node
               Samples.holder_transactions Samples.holder_accounts Samples.prices_two
               Samples.coingecko_nothing 10 "G" "2025-12-31" 1767225599 eq_refl))))
            "h1" _ _ _ _ eq_refl _);
    [by vm_compute | discriminate |].
  simpl. rewrite !elem_of_cons, elem_of_nil. intros [? | [? | []]]; discriminate.
Defined.

(** ** The books of the replay *)

Lemma sum_values_delete (m : gmap (string * Z) Z) (k : string * Z) :
  Btc.sum_values (delete k m) = Btc.sum_values m - default 0 (m !! k).
Proof.
  unfold Btc.sum_values. destruct (m !! k) as [x |] eqn:Hk; simpl.
  - rewrite (map_fold_delete_L _ _ k x m); [lia | intros; lia | done].
  - rewrite delete_id by done. lia.
Qed.

Lemma sum_values_insert (m : gmap (string * Z) Z) (k : string * Z) (v : Z) :
  Btc.sum_values (<[k := v]> m) = Btc.sum_values m - default 0 (m !! k) + v.
Proof.
  rewrite <- (insert_delete_eq m k v). unfold Btc.sum_values at 1.
  rewrite map_fold_insert_L; [| intros; lia | apply lookup_delete_eq].
  fold (Btc.sum_values (delete k m)). rewrite sum_values_delete. lia.
Qed.

Lemma foldl_preserves {A S} (P : S -> Prop) (f : S -> A -> S) (l : list A) (st : S) :
  (forall st x, x ∈ l -> P st -> P (f st x)) -> P st -> P (foldl f st l).
Proof.
  revert st. induction l as [| x l IH]; intros st Hstep Hst; [done |].
  cbn [foldl]. apply IH.
  - intros st' y Hy. apply Hstep. by right.
  - apply Hstep; [left | done].
Qed.

Lemma spend_booked_unspent (address : string) (st : Btc.Booked) (i : Btc.TxIn) :
  Btc.unspent (Btc.spend_booked address st i) = Btc.spend address (Btc.unspent st) i.
Proof.
  unfold Btc.spend_booked, Btc.spend.
  destruct (Btc.prevout i); [| done]. case_bool_decide; [| done].
  by destruct (Btc.vin_txid i), (Btc.vin_vout i).
Qed.

Lemma receive_booked_unspent (address t : string) (st : Btc.Booked) (o : Z * Btc.TxOut) :
  Btc.unspent (Btc.receive_booked address t st o)
  = Btc.receive address t (Btc.unspent st) o.
Proof. unfold Btc.receive_booked, Btc.receive. by case_bool_decide. Qed.

Lemma foldl_unspent {A} (f : Btc.Booked -> A -> Btc.Booked)
    (g : gmap (string * Z) Z -> A -> gmap (string * Z) Z) (l : list A)
    (st : Btc.Booked) :
  (forall st x, Btc.unspent (f st x) = g (Btc.unspent st) x) ->
  Btc.unspent (foldl f st l) = foldl g (Btc.unspent st) l.
Proof.
  intros Hfg. revert st. induction l as [| x l IH]; intros st; [done |].
  cbn [foldl]. by rewrite IH, Hfg.
Qed.

Lemma apply_tx_booked_unspent (address : string) (st : Btc.Booked) (tx : Btc.Tx) :
  Btc.unspent (Btc.apply_tx_booked address st tx)
  = Btc.apply_tx address (Btc.unspent st) tx.
Proof.
  unfold Btc.apply_tx_booked, Btc.apply_tx.
  rewrite (foldl_unspent _ (Btc.receive address (Btc.txid tx)))
    by apply receive_booked_unspent.
  by rewrite (foldl_unspent _ (Btc.spend address)) by apply spend_booked_unspent.
Qed.

Lemma replay_booked_unspent (address : string) (txs : list Btc.Tx) :
  Btc.unspent (Btc.replay_booked address txs) = Btc.replay address txs.
Proof.
  unfold Btc.replay_booked, Btc.replay.
  by rewrite (foldl_unspent _ (Btc.apply_tx address)) by apply apply_tx_booked_unspent.
Qed.

(** What the loops keep: the live values add up to what was received less
    what was spent and what was replaced. *)
Lemma spend_booked_books (address : string) (st : Btc.Booked) (i : Btc.TxIn) :
  Btc.sum_values (Btc.unspent st) = Btc.received st - Btc.spent st - Btc.replaced st ->
  Btc.sum_values (Btc.unspent (Btc.spend_booked address st i))
  = Btc.received (Btc.spend_booked address st i)
    - Btc.spent (Btc.spend_booked address st i)
    - Btc.replaced (Btc.spend_booked address st i).
Proof.
  intros H. unfold Btc.spend_booked.
  destruct (Btc.prevout i); [| done]. case_bool_decide; [| done].
  destruct (Btc.vin_txid i), (Btc.vin_vout i); try done.
  cbn [Btc.unspent Btc.received Btc.spent Btc.replaced].
  rewrite sum_values_delete. lia.
Qed.

Lemma receive_booked_books (address t : string) (st : Btc.Booked) (o : Z * Btc.TxOut) :
  Btc.sum_values (Btc.unspent st) = Btc.received st - Btc.spent st - Btc.replaced st ->
  Btc.sum_values (Btc.unspent (Btc.receive_booked address t st o))
  = Btc.received (Btc.receive_booked address t st o)
    - Btc.spent (Btc.receive_booked address t st o)
    - Btc.replaced (Btc.receive_booked address t st o).
Proof.
  intros H. unfold Btc.receive_booked. case_bool_decide; [| done].
  cbn [Btc.unspent Btc.received Btc.spent Btc.replaced].
  rewrite sum_values_insert. lia.
Qed.

Lemma replay_booked_books (address : string) (txs : list Btc.Tx) :
  let st := Btc.replay_booked address txs in
  Btc.sum_values (Btc.unspent st) = Btc.received st - Btc.spent st - Btc.replaced st.
Proof.
  unfold Btc.replay_booked.
  apply (foldl_preserves
           (fun st => Btc.sum_values (Btc.unspent st)
                      = Btc.received st - Btc.spent st - Btc.replaced st)); [| done].
  intros st tx _ Hst. unfold Btc.apply_tx_booked.
  apply (foldl_preserves
           (fun st => Btc.sum_values (Btc.unspent st)
                      = Btc.received st - Btc.spent st - Btc.replaced st)).
  - intros; by apply receive_booked_books.
  - apply (foldl_preserves
             (fun st => Btc.sum_values (Btc.unspent st)
                        = Btc.received st - Btc.spent st - Btc.replaced st));
      [| done].
    intros; by apply spend_booked_books.
Qed.

(** What was received is the total of the outputs that pay the address. *)
Lemma spend_loop_received (address : string) (l : list Btc.TxIn) (st : Btc.Booked) :
  Btc.received (foldl (Btc.spend_booked address) st l) = Btc.received st.
Proof.
  apply (foldl_preserves (fun s => Btc.received s = Btc.received st)); [| done].
  intros s i _ Hs. unfold Btc.spend_booked.
  destruct (Btc.prevout i); [| done]. case_bool_decide; [| done].
  by destruct (Btc.vin_txid i), (Btc.vin_vout i).
Qed.

Lemma receive_loop_received (address t : string) (l : list (Z * Btc.TxOut))
    (st : Btc.Booked) :
  Btc.received (foldl (Btc.receive_booked address t) st l)
  = Btc.received st + foldr Z.add 0 ((omap (Btc.paid_output address t) l).*2).
Proof.
  revert st. induction l as [| o l IH]; intros st; [simpl; lia |].
  cbn [foldl]. rewrite IH.
  assert (Hom : omap (Btc.paid_output address t) (o :: l)
                = match Btc.paid_output address t o with
                  | Some kv => kv :: omap (Btc.paid_output address t) l
                  | None => omap (Btc.paid_output address t) l
                  end) by reflexivity.
  rewrite Hom. unfold Btc.receive_booked, Btc.paid_output.
  case_bool_decide; [| done].
  cbn [Btc.received]. rewrite fmap_cons. cbn [foldr snd]. lia.
Qed.

Lemma replay_booked_received (address : string) (txs : list Btc.Tx) (st : Btc.Booked) :
  Btc.received (foldl (Btc.apply_tx_booked address) st txs)
  = Btc.received st + Btc.paid_total address txs.
Proof.
  revert st. induction txs as [| tx txs IH]; intros st; [simpl; lia |].
  cbn [foldl]. rewrite IH. unfold Btc.apply_tx_booked at 1.
  rewrite receive_loop_received, spend_loop_received.
  unfold Btc.paid_total at 2. cbn [foldr].
  fold (Btc.paid_total address txs). unfold Btc.paid_outputs. lia.
Qed.

(** With distinct transaction ids no assignment finds its key present. *)
Lemma spend_loop_keys (address : string) (seen : list string) (l : list Btc.TxIn)
    (st : Btc.Booked) :
  (forall k, is_Some (Btc.unspent st !! k) -> k.1 ∈ seen) ->
  Btc.replaced (foldl (Btc.spend_booked address) st l) = Btc.replaced st
  /\ forall k, is_Some (Btc.unspent (foldl (Btc.spend_booked address) st l) !! k) ->
       k.1 ∈ seen.
Proof.
  intros Hst.
  apply (foldl_preserves
           (fun s => Btc.replaced s = Btc.replaced st
                     /\ forall k, is_Some (Btc.unspent s !! k) -> k.1 ∈ seen));
    [| done].
  intros s i _ [Hr Hk]. unfold Btc.spend_booked.
  destruct (Btc.prevout i); [| done]. case_bool_decide; [| done].
  destruct (Btc.vin_txid i) as [pt |], (Btc.vin_vout i) as [pv |]; try done.
  cbn [Btc.unspent Btc.replaced]. split; [done |].
  intros k [v Hv]. apply lookup_delete_Some in Hv as [_ Hv]. apply Hk. by exists v.
Qed.

Lemma receive_loop_fresh (address t : string) (seen : list string)
    (l : list Btc.TxOut) (st : Btc.Booked) :
  t ∉ seen -> (forall k, is_Some (Btc.unspent st !! k) -> k.1 ∈ seen) ->
  let st' := foldl (Btc.receive_booked address t) st (Btc.enumerate l) in
  Btc.replaced st' = Btc.replaced st
  /\ forall k, is_Some (Btc.unspent st' !! k) ->
       k.1 ∈ seen \/ (k.1 = t /\ 0 <= k.2 < Z.of_nat (length l)).
Proof.
  intros Ht Hst. induction l as [| x l IH] using rev_ind.
  - simpl. split; [done |]. intros k Hk. left. by apply Hst.
  - unfold Btc.enumerate in *. rewrite imap_app, foldl_app. cbn [imap foldl].
    destruct IH as [Hr Hk]. rewrite length_app. cbn [length].
    rewrite Nat.add_0_r. unfold Btc.receive_booked at 1 3.
    cbn [snd fst]. case_bool_decide.
    + cbn [Btc.replaced Btc.unspent]. split.
      * destruct (Btc.unspent _ !! (t, Z.of_nat (length l))) as [v |] eqn:Hl;
          [| simpl; lia].
        destruct (Hk (t, Z.of_nat (length l))) as [Hin | [_ Hlt]]; [by exists v | |].
        -- done.
        -- simpl in Hlt. lia.
      * intros k [v Hv]. apply lookup_insert_Some in Hv as [[<- _] | [_ Hv]].
        -- right. split; [done | simpl; lia].
        -- destruct (Hk k) as [? | [? ?]];
             [by exists v | by left | right; split; [done | lia]].
    + split; [done |]. intros k Hkk.
      destruct (Hk k Hkk) as [? | [? ?]]; [by left | right; split; [done | lia]].
Qed.

Lemma replay_booked_fresh (address : string) (txs : list Btc.Tx) (st : Btc.Booked)
    (seen : list string) :
  (forall k, is_Some (Btc.unspent st !! k) -> k.1 ∈ seen) ->
  NoDup (Btc.txid <$> txs) -> (forall tx, tx ∈ txs -> Btc.txid tx ∉ seen) ->
  Btc.replaced (foldl (Btc.apply_tx_booked address) st txs) = Btc.replaced st.
Proof.
  revert st seen. induction txs as [| tx txs IH]; intros st seen Hst Hnd Hnew; [done |].
  rewrite fmap_cons in Hnd. apply NoDup_cons in Hnd as [Htx Hnd].
  cbn [foldl].
  destruct (spend_loop_keys address seen (Btc.vin tx) st Hst) as [Hr1 Hk1].
  destruct (receive_loop_fresh address (Btc.txid tx) seen (Btc.vout tx)
              (foldl (Btc.spend_booked address) st (Btc.vin tx)))
    as [Hr2 Hk2]; [apply Hnew; left | done |].
  rewrite (IH (Btc.apply_tx_booked address st tx) (Btc.txid tx :: seen)).
  - unfold Btc.apply_tx_booked. by rewrite Hr2, Hr1.
  - intros k Hk. unfold Btc.apply_tx_booked in Hk.
    destruct (Hk2 k Hk) as [? | [-> _]]; [by right | left].
  - done.
  - intros tx' Hin. rewrite not_elem_of_cons. split.
    + intros Heq. apply Htx. rewrite <- Heq. by apply list_elem_of_fmap_2.
    + apply Hnew. by right.
Qed.

(** Nothing negative is booked when no output value is negative. *)
Lemma replay_booked_nonneg (address : string) (txs : list Btc.Tx) :
  Forall Btc.nonneg_outputs txs ->
  let st := Btc.replay_booked address txs in
  0 <= Btc.spent st /\ 0 <= Btc.replaced st.
Proof.
  intros Hall. unfold Btc.replay_booked.
  pose (P := fun st => Btc.nonneg_values (Btc.unspent st)
                       /\ 0 <= Btc.spent st /\ 0 <= Btc.replaced st).
  assert (Hlook : forall (m : gmap (string * Z) Z) k,
            Btc.nonneg_values m -> 0 <= default 0 (m !! k)).
  { intros m k Hm. destruct (m !! k) as [v |] eqn:Hv; [| done].
    by apply (Hm k v). }
  assert (HP : P (foldl (Btc.apply_tx_booked address) (Btc.mkBooked ∅ 0 0 0) txs)).
  { apply foldl_preserves.
    - intros st tx Htx Hst. unfold Btc.apply_tx_booked.
      eapply Forall_forall in Hall; [| exact Htx].
      apply foldl_preserves.
      + intros s o Ho (Hm & Hs & Hr). unfold P.
        rewrite receive_booked_unspent. split.
        * apply receive_nonneg; [| done].
          apply elem_of_enumerate in Ho.
          by eapply Forall_forall in Hall; [| exact Ho].
        * unfold Btc.receive_booked. case_bool_decide; [| done].
          cbn [Btc.spent Btc.replaced]. specialize (Hlook _ (Btc.txid tx, o.1) Hm).
          lia.
      + apply foldl_preserves; [| done].
        intros s i _ (Hm & Hs & Hr). unfold P.
        rewrite spend_booked_unspent. split; [by apply spend_nonneg |].
        unfold Btc.spend_booked.
        destruct (Btc.prevout i); [| done]. case_bool_decide; [| done].
        destruct (Btc.vin_txid i) as [pt |], (Btc.vin_vout i) as [pv |]; try done.
        cbn [Btc.spent Btc.replaced]. specialize (Hlook _ (pt, pv) Hm). lia.
    - split; [apply map_Forall_empty | done]. }
  by destruct HP as (_ & ? & ?).
Qed.

(** The replay keeps books: the values still unspent add up to what the
    address received less what its spends removed and what assignments to
    keys already present replaced, and what it received is the total of
    the eligible outputs that pay it. When the eligible transactions have
    distinct ids nothing is replaced, so the balance is the received total
    less the spent one; when no output value is negative, nothing negative
    is spent or replaced and the balance is at most the received total. *)
Theorem utxo_books_balance :
  forall (address : string) (cutoff : Z) (history : list Btc.Tx),
    let eligible := sort_key Btc.sort_time (Btc.eligible_txs cutoff history) in
    let books := Btc.replay_booked address eligible in
    Btc.unspent books = Btc.replay address eligible
    /\ Btc.received books = Btc.paid_total address eligible
    /\ Btc.balance_of_history address cutoff history
       = Btc.received books - Btc.spent books - Btc.replaced books
    /\ (NoDup (Btc.txid <$> eligible) ->
        Btc.replaced books = 0
        /\ Btc.balance_of_history address cutoff history
           = Btc.paid_total address eligible - Btc.spent books)
    /\ (Forall Btc.nonneg_outputs eligible ->
        0 <= Btc.spent books /\ 0 <= Btc.replaced books
        /\ Btc.balance_of_history address cutoff history
           <= Btc.paid_total address eligible).
Proof.
  intros address cutoff history eligible books.
  assert (Hu : Btc.unspent books = Btc.replay address eligible)
    by apply replay_booked_unspent.
  assert (Hrec : Btc.received books = Btc.paid_total address eligible).
  { unfold books, Btc.replay_booked. rewrite replay_booked_received. simpl. lia. }
  assert (Hbal : Btc.balance_of_history address cutoff history
                 = Btc.received books - Btc.spent books - Btc.replaced books).
  { unfold Btc.balance_of_history. fold eligible. rewrite <- Hu.
    apply replay_booked_books. }
  split_and!; [done | done | done | |].
  - intros Hnd.
    assert (Hz : Btc.replaced books = 0).
    { unfold books, Btc.replay_booked.
      rewrite (replay_booked_fresh address eligible _ []); [done | | done |].
      - intros k [v Hv]. cbn [Btc.unspent] in Hv. by rewrite lookup_empty in Hv.
      - intros tx _. apply not_elem_of_nil. }
    split; [done |]. rewrite Hbal, Hz, Hrec. lia.
  - intros Hnn. destruct (replay_booked_nonneg address eligible Hnn) as [Hs Hr].
    fold books in Hs, Hr. split_and!; [done | done |]. rewrite Hbal, Hrec. lia.
Qed.

(** The sample history: 700 received, 500 spent, 200 left. When a
    transaction id comes back while its output is still unspent, the
    assignment replaces the entry: 1000 received, 500 replaced, 500 left. *)
Lemma utxo_books_samples :
  let books := Btc.replay_booked "A" [Samples.tx1; Samples.tx2] in
  let again := Btc.replay_booked "A" [Samples.tx1; Samples.tx1_again] in
  (Btc.received books = 700 /\ Btc.spent books = 500 /\ Btc.replaced books = 0
   /\ Btc.sum_values (Btc.unspent books) = 200)
  /\ (Btc.received again = 1000 /\ Btc.spent again = 0 /\ Btc.replaced again = 500
      /\ Btc.sum_values (Btc.unspent again) = 500).
Proof. by vm_compute. Qed.
